(** * nomad-diner: the restaurant search pipeline

    A shallow embedding of [nomad-diner.py] and the properties of its
    location resolver, distance calculator, travel-time fetcher and
    place search pipeline.

    Modelling conventions.
    - A Python [int] is an integer ([Z]).  A Python [float] is a finite
      number, an infinity or NaN ([Py.float]); a finite [float] is read
      as the real number it denotes ([R]).  The conversions to [float]
      round as binary64 does: [float] of a literal or of an [int] is
      the nearest binary64 number, an infinity for a literal too large,
      [OverflowError] for an [int] too large.  The arithmetic on
      [float] and the functions of [math] are those of the real
      numbers: their rounding, and the sign of zero, are outside the
      model.
    - A decoded JSON document ([requests.get(...).json()]) is a value of
      type [json]; Python's [None] is [JNull].
    - A Python [str] is a [string] whose characters are read as the code
      points 0..255.
    - The four HTTP collaborators are one oracle [world]: it answers a
      request given the requests made so far.  Every function that calls
      [requests.get] threads the log of requests, so that "no call was
      made" is a statement about the log.
    - A raised exception is the [Raise] outcome; the log survives it.
    - The check of the credential when the module is loaded and the
      command line of [main] are not part of the embedding; the
      credential is the parameter [API_KEY]. *)

From Stdlib Require Import String Ascii List ZArith Bool Arith Lia.
From Stdlib Require Import Reals Lra.
Import ListNotations.

Set Implicit Arguments.
Set Warnings "-register-all".

(** ** Python values and exceptions *)

Inductive json : Type :=
| JNull
| JBool (b : bool)
| JInt (z : Z)
| JFloat (r : R)
| JNaN
| JInf (negative : bool)
| JStr (s : string)
| JArr (items : list json)
| JObj (fields : list (string * json)).

(** [JFloat] is a finite [float]; [JNaN] and [JInf] are the values the
    decoder gives for [NaN], [Infinity] and [-Infinity], and for a
    number too large for binary64. *)

(** The exceptions the program can raise.  The [ValueError] of
    [get_location_coordinates] carries the geocoding response that it
    prints in its message; the other [ValueError]s carry nothing. *)
Inductive exn : Type :=
| KeyError (key : json)
| IndexError
| TypeError
| AttributeError
| ValueError (diagnostic : option json)
| OverflowError
| RequestException.

Inductive result (A : Type) : Type :=
| Ok (a : A)
| Raise (e : exn).

Arguments Ok {A} a.
Arguments Raise {A} e.

Definition rbind {A B} (m : result A) (k : A -> result B) : result B :=
  match m with
  | Ok a => k a
  | Raise e => Raise e
  end.

Declare Scope py_scope.
Delimit Scope py_scope with py.

Notation "x <- m ;; k" := (rbind m (fun x => k))
  (at level 61, m at next level, right associativity) : py_scope.

Local Open Scope string_scope.
Local Open Scope Z_scope.

(** ** Operations on decoded JSON, as Python evaluates them *)

Module Py.

Local Open Scope py_scope.

(** [d[k]] for a [dict] built from JSON: the first binding of [k]. *)
Fixpoint lookup (k : string) (fields : list (string * json)) : option json :=
  match fields with
  | [] => None
  | (k', v) :: rest => if String.eqb k k' then Some v else lookup k rest
  end.

(** [v[k]] with a string key. *)
Definition getitem (v : json) (k : string) : result json :=
  match v with
  | JObj fields =>
      match lookup k fields with
      | Some x => Ok x
      | None => Raise (KeyError (JStr k))
      end
  | _ => Raise TypeError
  end.

Fixpoint string_nth (s : string) (i : nat) : option ascii :=
  match s, i with
  | EmptyString, _ => None
  | String c _, O => Some c
  | String _ s', S i' => string_nth s' i'
  end.

(** [v[i]] with a non-negative integer index. *)
Definition getindex (v : json) (i : nat) : result json :=
  match v with
  | JArr items =>
      match nth_error items i with
      | Some x => Ok x
      | None => Raise IndexError
      end
  | JStr s =>
      match string_nth s i with
      | Some c => Ok (JStr (String c EmptyString))
      | None => Raise IndexError
      end
  | JObj _ => Raise (KeyError (JInt (Z.of_nat i)))
  | _ => Raise TypeError
  end.

(** [v.get(k, default)]. *)
Definition get (v : json) (k : string) (default : json) : result json :=
  match v with
  | JObj fields =>
      match lookup k fields with
      | Some x => Ok x
      | None => Ok default
      end
  | _ => Raise AttributeError
  end.

(** A Python [float]. *)
Inductive float : Type :=
| Finite (r : R)
| Infinite (negative : bool)
| NaN.

(** The [float] as a value of a document or of a dictionary. *)
Definition of_float (x : float) : json :=
  match x with
  | Finite r => JFloat r
  | Infinite n => JInf n
  | NaN => JNaN
  end.

(** The least magnitude that binary64 rounds to an infinity. *)
Definition huge : Z := 2 ^ 1024 - 2 ^ 970.

(** The integer nearest to a real number, ties to even. *)
Definition round (x : R) : Z :=
  let f := Int_part x in
  let d := (x - IZR f)%R in
  if Rlt_dec d (1 / 2) then f
  else if Rlt_dec (1 / 2) d then f + 1
  else if Z.even f then f else f + 1.

(** The binary64 number nearest to a real number below [huge] in
    magnitude, ties to even.  Around [x], whose exponent is [e]
    ([2 ^ e <= |x| < 2 ^ (e + 1)]), the binary64 numbers are the
    multiples of [2 ^ (e - 52)], and of [2 ^ (-1074)] below the normal
    range. *)
Definition exponent (x : R) : Z := Int_part (ln (Rabs x) / ln 2).

Definition spacing (x : R) : R :=
  powerRZ 2 (Z.max (exponent x) (-1022) - 52).

Definition Req_dec_bool (x y : R) : bool :=
  if Req_dec_T x y then true else false.

Definition Rltb (x y : R) : bool :=
  if Rlt_dec x y then true else false.

Definition binary64 (x : R) : R :=
  if Req_dec_bool x 0 then 0%R
  else (IZR (round (x / spacing x)) * spacing x)%R.

(** [x < y] on [float]: false as soon as one side is NaN. *)
Definition float_lt (x y : float) : bool :=
  match x, y with
  | Finite a, Finite b => Rltb a b
  | Finite _, Infinite negative => negb negative
  | Infinite negative, Finite _ => negative
  | Infinite n1, Infinite n2 => n1 && negb n2
  | _, _ => false
  end.

(** Truth value of a JSON value ([bool(v)]). *)
Definition truthy (v : json) : bool :=
  match v with
  | JNull => false
  | JBool b => b
  | JInt z => negb (z =? 0)
  | JFloat r => negb (Req_dec_bool r 0)
  | JNaN => true
  | JInf _ => true
  | JStr s => negb (String.eqb s "")
  | JArr items => match items with [] => false | _ => true end
  | JObj fields => match fields with [] => false | _ => true end
  end.

(** [v != s] for a string literal [s]. *)
Definition ne_str (v : json) (s : string) : bool :=
  match v with
  | JStr s' => negb (String.eqb s' s)
  | _ => true
  end.

Fixpoint chars (s : string) : list json :=
  match s with
  | EmptyString => []
  | String c s' => JStr (String c EmptyString) :: chars s'
  end.

(** The elements a [for] loop visits.  A [dict] yields its keys (a
    decoded document has each key once). *)
Definition iter (v : json) : result (list json) :=
  match v with
  | JArr items => Ok items
  | JObj fields => Ok (map (fun kv => JStr (fst kv)) fields)
  | JStr s => Ok (chars s)
  | _ => Raise TypeError
  end.

(** The [float] of a number, as [float(v)] and the functions of [math]
    convert their argument.  An [int] below [2 ^ 53] in magnitude is a
    binary64 number; a larger one is rounded, and one that binary64
    would round to an infinity raises [OverflowError]. *)
Definition to_float (v : json) : result float :=
  match v with
  | JInt z =>
      if Z.abs z <? 2 ^ 53 then Ok (Finite (IZR z))
      else if Z.abs z <? huge then Ok (Finite (binary64 (IZR z)))
      else Raise OverflowError
  | JFloat r => Ok (Finite r)
  | JNaN => Ok NaN
  | JInf negative => Ok (Infinite negative)
  | JBool b => Ok (Finite (if b then 1%R else 0%R))
  | _ => Raise TypeError
  end.

(** [v > n] for an [int] [n]. *)
Definition gt_int (v : json) (n : Z) : result bool :=
  match v with
  | JInt z => Ok (n <? z)
  | JFloat r => Ok (Rltb (IZR n) r)
  | JNaN => Ok false
  | JInf negative => Ok (negb negative)
  | JBool b => Ok (n <? (if b then 1 else 0))
  | _ => Raise TypeError
  end.

Fixpoint repeat_string (s : string) (n : nat) : string :=
  match n with
  | O => ""
  | S n' => s ++ repeat_string s n'
  end.

(** [s * v]: repetition needs an integer; a negative count gives [""],
    and a count that is no index ([Py_ssize_t]) raises [OverflowError].
    A count the machine has no memory for raises [MemoryError], which
    depends on the machine and is left out: the statements about the
    repetition take the count small. *)
Definition str_mul (s : string) (v : json) : result string :=
  match v with
  | JInt z =>
      if (z <? - 2 ^ 63) || (2 ^ 63 <=? z) then Raise OverflowError
      else Ok (repeat_string s (Z.to_nat z))
  | JBool b => Ok (repeat_string s (if b then 1%nat else 0%nat))
  | _ => Raise TypeError
  end.

(** [round(x)] for a [float]. *)
Definition round_float (x : float) : result Z :=
  match x with
  | Finite r => Ok (round r)
  | Infinite _ => Raise OverflowError
  | NaN => Raise (ValueError None)
  end.

(** The arithmetic of [float] the program uses.  The sign of a zero is
    not told apart. *)
Definition float_add (x y : float) : float :=
  match x, y with
  | Finite a, Finite b => Finite (a + b)
  | Finite _, Infinite n => Infinite n
  | Infinite n, Finite _ => Infinite n
  | Infinite n1, Infinite n2 => if Bool.eqb n1 n2 then Infinite n1 else NaN
  | _, _ => NaN
  end.

Definition float_sub (x y : float) : float :=
  match x, y with
  | Finite a, Finite b => Finite (a - b)
  | Finite _, Infinite n => Infinite (negb n)
  | Infinite n, Finite _ => Infinite n
  | Infinite n1, Infinite n2 => if Bool.eqb n1 n2 then NaN else Infinite n1
  | _, _ => NaN
  end.

Definition float_mul (x y : float) : float :=
  match x, y with
  | Finite a, Finite b => Finite (a * b)
  | Finite a, Infinite n | Infinite n, Finite a =>
      if Req_dec_bool a 0 then NaN else Infinite (xorb n (Rltb a 0))
  | Infinite n1, Infinite n2 => Infinite (xorb n1 n2)
  | _, _ => NaN
  end.

(** [x / c] for a positive constant [c]. *)
Definition float_div (x : float) (c : R) : float :=
  match x with
  | Finite a => Finite (a / c)
  | Infinite negative => Infinite negative
  | NaN => NaN
  end.

End Py.

(** ** Regular expressions, as far as the coordinate pattern needs them *)

Module Regex.

Inductive regex : Type :=
| Void
| Eps
| Class (p : ascii -> bool)
| Cat (r1 r2 : regex)
| Alt (r1 r2 : regex)
| Star (r : regex).

Definition Opt (r : regex) : regex := Alt r Eps.
Definition Plus (r : regex) : regex := Cat r (Star r).

Fixpoint nullable (r : regex) : bool :=
  match r with
  | Void => false
  | Eps => true
  | Class _ => false
  | Cat r1 r2 => nullable r1 && nullable r2
  | Alt r1 r2 => nullable r1 || nullable r2
  | Star _ => true
  end.

(** Brzozowski derivative of [r] by the character [c]. *)
Fixpoint deriv (c : ascii) (r : regex) : regex :=
  match r with
  | Void => Void
  | Eps => Void
  | Class p => if p c then Eps else Void
  | Cat r1 r2 =>
      if nullable r1
      then Alt (Cat (deriv c r1) r2) (deriv c r2)
      else Cat (deriv c r1) r2
  | Alt r1 r2 => Alt (deriv c r1) (deriv c r2)
  | Star r1 => Cat (deriv c r1) (Star r1)
  end.

(** Whether the whole of [s] is a word of [r]. *)
Fixpoint fullmatch (r : regex) (s : string) : bool :=
  match s with
  | EmptyString => nullable r
  | String c s' => fullmatch (deriv c r) s'
  end.

(** The words of [r]. *)
Inductive Matches : regex -> string -> Prop :=
| MEps : Matches Eps ""
| MClass p c : p c = true -> Matches (Class p) (String c "")
| MCat r1 r2 s1 s2 :
    Matches r1 s1 -> Matches r2 s2 -> Matches (Cat r1 r2) (s1 ++ s2)
| MAltL r1 r2 s : Matches r1 s -> Matches (Alt r1 r2) s
| MAltR r1 r2 s : Matches r2 s -> Matches (Alt r1 r2) s
| MStarNil r : Matches (Star r) ""
| MStarCons r s1 s2 :
    Matches r s1 -> Matches (Star r) s2 -> Matches (Star r) (s1 ++ s2).

(** Every character class of [r] lies inside [P]. *)
Fixpoint classes_within (P : ascii -> bool) (r : regex) : Prop :=
  match r with
  | Void | Eps => True
  | Class p => forall c, p c = true -> P c = true
  | Cat r1 r2 | Alt r1 r2 => classes_within P r1 /\ classes_within P r2
  | Star r1 => classes_within P r1
  end.

Definition chr (a : ascii) : regex := Class (Ascii.eqb a).

Definition range (lo hi : ascii) : regex :=
  Class (fun c => (nat_of_ascii lo <=? nat_of_ascii c)%nat
                  && (nat_of_ascii c <=? nat_of_ascii hi)%nat).

Fixpoint lit (s : string) : regex :=
  match s with
  | EmptyString => Eps
  | String c s' => Cat (chr c) (lit s')
  end.

End Regex.

(** ** Character classes and [float] of a string *)

Module Chars.

Definition code (c : ascii) : nat := nat_of_ascii c.

(** [\d] on the code points below 256: the ASCII digits. *)
Definition is_digit (c : ascii) : bool :=
  (48 <=? code c)%nat && (code c <=? 57)%nat.

(** The information separators U+001C to U+001F. *)
Definition is_separator (c : ascii) : bool :=
  (28 <=? code c)%nat && (code c <=? 31)%nat.

(** The white space [float] strips: that of C ([\t] to [\r] and the
    space), and the spaces above 127, which [float] first turns into
    the space. *)
Definition is_float_space (c : ascii) : bool :=
  ((9 <=? code c)%nat && (code c <=? 13)%nat)
  || (code c =? 32)%nat || (code c =? 133)%nat || (code c =? 160)%nat.

(** [\s] in a pattern on [str]: the characters of [str.isspace], which
    are the above and the information separators. *)
Definition is_space (c : ascii) : bool :=
  is_float_space c || is_separator c.

Definition digit_value (c : ascii) : Z := Z.of_nat (code c) - 48.

Definition comma : ascii := ",".
Definition dot : ascii := ".".
Definition newline : ascii := "010".

End Chars.

(** [float(s)] reads a decimal literal: optional white space around it,
    an optional sign, digits with an optional fraction, an optional
    exponent; one underscore may stand between two digits.  It also
    reads, in any case of letters and with an optional sign, [inf],
    [infinity] and [nan]. *)

Module FloatLiteral.

Import Chars.

Record decimal : Type := Decimal {
  negative : bool;
  integral : Z;
  fraction : Z;
  fraction_digits : nat;
  exponent : Z
}.

Definition starts_with_digit (s : string) : bool :=
  match s with
  | String c _ => is_digit c
  | EmptyString => false
  end.

(** Reads the leading digits of [s]: their value on top of [acc], their
    number on top of [n], and what follows them.  An underscore is
    passed over when it stands after a digit and before a digit. *)
Fixpoint digits (acc : Z) (n : nat) (s : string) : Z * nat * string :=
  match s with
  | EmptyString => (acc, n, "")
  | String c s' =>
      if is_digit c
      then digits (10 * acc + digit_value c) (S n) s'
      else if Ascii.eqb c "_" && (0 <? n)%nat && starts_with_digit s'
      then digits acc n s'
      else (acc, n, s)
  end.

Fixpoint lstrip (s : string) : string :=
  match s with
  | EmptyString => ""
  | String c s' => if is_float_space c then lstrip s' else s
  end.

Fixpoint reverse (s : string) : string :=
  match s with
  | EmptyString => ""
  | String c s' => reverse s' ++ String c ""
  end.

Definition rstrip (s : string) : string := reverse (lstrip (reverse s)).

Definition strip (s : string) : string := rstrip (lstrip s).

Definition sign (s : string) : bool * string :=
  match s with
  | String c s' =>
      if Ascii.eqb c "-" then (true, s')
      else if Ascii.eqb c "+" then (false, s')
      else (false, s)
  | EmptyString => (false, s)
  end.

Definition parse_exponent (s : string) : option Z :=
  match s with
  | EmptyString => Some 0
  | String c s' =>
      if Ascii.eqb c "e" || Ascii.eqb c "E" then
        let (neg, s2) := sign s' in
        match digits 0 0 s2 with
        | (v, S _, EmptyString) => Some (if neg then - v else v)
        | _ => None
        end
      else None
  end.

Definition parse_fraction (s : string) : Z * nat * string :=
  match s with
  | String c s' => if Ascii.eqb c dot then digits 0 0 s' else (0, O, s)
  | EmptyString => (0, O, s)
  end.

Definition parse (s : string) : option decimal :=
  let (neg, s1) := sign (strip s) in
  let '(ip, ni, s2) := digits 0 0 s1 in
  let '(fp, nf, s3) := parse_fraction s2 in
  if (ni + nf =? 0)%nat then None
  else
    match parse_exponent s3 with
    | Some e => Some (Decimal neg ip fp nf e)
    | None => None
    end.

Definition value (d : decimal) : R :=
  ((if negative d then -1 else 1)
   * (IZR (integral d) + IZR (fraction d) / 10 ^ fraction_digits d)
   * powerRZ 10 (exponent d))%R.

Definition lower (c : ascii) : ascii :=
  if (65 <=? code c)%nat && (code c <=? 90)%nat
  then ascii_of_nat (code c + 32)
  else c.

Fixpoint lowercase (s : string) : string :=
  match s with
  | EmptyString => ""
  | String c s' => String (lower c) (lowercase s')
  end.

(** The spellings of the infinities and of NaN. *)
Definition special (s : string) : option Py.float :=
  let (neg, s1) := sign (strip s) in
  let word := lowercase s1 in
  if String.eqb word "inf" || String.eqb word "infinity"
  then Some (Py.Infinite neg)
  else if String.eqb word "nan" then Some Py.NaN
  else None.

(** The [float] of the real number a literal spells: the nearest
    binary64 number, an infinity from [Py.huge] on. *)
Definition of_real (x : R) : Py.float :=
  if Rle_dec (IZR Py.huge) (Rabs x)
  then Py.Infinite (Py.Rltb x 0)
  else Py.Finite (Py.binary64 x).

End FloatLiteral.

(** [float(v)]. *)
Definition py_float (v : json) : result Py.float :=
  match v with
  | JStr s =>
      match FloatLiteral.parse s with
      | Some d => Ok (FloatLiteral.of_real (FloatLiteral.value d))
      | None =>
          match FloatLiteral.special s with
          | Some x => Ok x
          | None => Raise (ValueError None)
          end
      end
  | _ => Py.to_float v
  end.

(** [s.split(sep)] for a one-character separator. *)
Fixpoint split (sep : ascii) (s : string) : list string :=
  match s with
  | EmptyString => [""]
  | String c s' =>
      if Ascii.eqb c sep then "" :: split sep s'
      else
        match split sep s' with
        | p :: ps => String c p :: ps
        | [] => [String c ""]
        end
  end.

(** ** [is_coordinate] (lines 36-44) *)

Module Pattern.

Import Regex Chars.

Definition digit : regex := Class is_digit.
Definition space : regex := Class is_space.
Definition sign : regex := Alt (chr "-") (chr "+").
Definition zero : regex := chr "0".

(** [(\.\d+)?] and [(\.0+)?] *)
Definition fraction : regex := Opt (Cat (chr dot) (Plus digit)).
Definition zeros : regex := Opt (Cat (chr dot) (Plus zero)).

(** [[-+]?([1-8]?\d(\.\d+)?|90(\.0+)?)] *)
Definition latitude : regex :=
  Cat (Opt sign)
      (Alt (Cat (Opt (range "1" "8")) (Cat digit fraction))
           (Cat (lit "90") zeros)).

(** [[-+]?(180(\.0+)?|((1[0-7]\d)|([1-9]?\d))(\.\d+)?)] *)
Definition longitude : regex :=
  Cat (Opt sign)
      (Alt (Cat (lit "180") zeros)
           (Cat (Alt (Cat (chr "1") (Cat (range "0" "7") digit))
                     (Cat (Opt (range "1" "9")) digit))
                fraction)).

(** [$] outside multi-line mode: the end of the string, or the position
    of a line feed that ends the string. *)
Definition dollar : regex := Opt (chr newline).

(** The pattern of [is_coordinate]; [re.match] and the leading [^]
    anchor it at the start. *)
Definition pattern : regex :=
  Cat latitude (Cat (chr comma) (Cat (Star space) (Cat longitude dollar))).

End Pattern.

Definition is_coordinate (input_str : string) : bool :=
  Regex.fullmatch Pattern.pattern input_str.

(** ** [haversine_distance] (lines 47-69)

    The functions of [math] on a finite argument are the functions of
    analysis: the rounding of binary64 is outside the model.  With it
    the sum [a] can exceed 1 for points nearly opposite on the globe,
    and [math.sqrt (1 - a)] then raises [ValueError]; over the real
    numbers [a] stays between 0 and 1.  What the model does show of the
    failures is what depends on the kind of the arguments only. *)

Local Open Scope R_scope.

(** The arc tangent of [y / x] in the quadrant of the point [(x, y)]. *)
Definition atan2 (y x : R) : R :=
  if Rlt_dec 0 x then atan (y / x)
  else if Rlt_dec x 0 then
    if Rlt_dec y 0 then atan (y / x) - PI else atan (y / x) + PI
  else if Rlt_dec 0 y then PI / 2
  else if Rlt_dec y 0 then - (PI / 2)
  else 0.

(** [math.sin] and [math.cos]: an infinity raises [ValueError], NaN is
    handed on. *)
Definition math_sin (x : Py.float) : result Py.float :=
  match x with
  | Py.Finite a => Ok (Py.Finite (sin a))
  | Py.Infinite _ => Raise (ValueError None)
  | Py.NaN => Ok Py.NaN
  end.

Definition math_cos (x : Py.float) : result Py.float :=
  match x with
  | Py.Finite a => Ok (Py.Finite (cos a))
  | Py.Infinite _ => Raise (ValueError None)
  | Py.NaN => Ok Py.NaN
  end.

(** [math.sqrt]: a negative argument raises [ValueError]. *)
Definition math_sqrt (x : Py.float) : result Py.float :=
  match x with
  | Py.Finite a =>
      if Rlt_dec a 0 then Raise (ValueError None)
      else Ok (Py.Finite (sqrt a))
  | Py.Infinite negative =>
      if negative then Raise (ValueError None) else Ok x
  | Py.NaN => Ok Py.NaN
  end.

(** [math.atan2]. *)
Definition math_atan2 (y x : Py.float) : Py.float :=
  match y, x with
  | Py.Finite b, Py.Finite a => Py.Finite (atan2 b a)
  | Py.Finite b, Py.Infinite negative =>
      Py.Finite (if negative then (if Rlt_dec b 0 then - PI else PI) else 0)
  | Py.Infinite n, Py.Finite _ =>
      Py.Finite (if n then - (PI / 2) else PI / 2)
  | Py.Infinite n, Py.Infinite negative =>
      let quarter := if negative then 3 * PI / 4 else PI / 4 in
      Py.Finite (if n then - quarter else quarter)
  | _, _ => Py.NaN
  end.

(** [math.radians]. *)
Definition math_radians (v : json) : result Py.float :=
  (x <- Py.to_float v ;; Ok (Py.float_mul x (Py.Finite (PI / 180))))%py.

Definition earth_radius : R := 6371008.8.

Definition haversine_distance (coord1 coord2 : json * json)
    : result Py.float :=
  (lat1 <- math_radians (fst coord1) ;;
   lon1 <- math_radians (snd coord1) ;;
   lat2 <- math_radians (fst coord2) ;;
   lon2 <- math_radians (snd coord2) ;;
   let dlat := Py.float_sub lat2 lat1 in
   let dlon := Py.float_sub lon2 lon1 in
   sin_dlat <- math_sin (Py.float_div dlat 2) ;;
   cos_lat1 <- math_cos lat1 ;;
   cos_lat2 <- math_cos lat2 ;;
   sin_dlon <- math_sin (Py.float_div dlon 2) ;;
   let a :=
     Py.float_add (Py.float_mul sin_dlat sin_dlat)
       (Py.float_mul (Py.float_mul cos_lat1 cos_lat2)
          (Py.float_mul sin_dlon sin_dlon)) in
   sa <- math_sqrt a ;;
   sb <- math_sqrt (Py.float_sub (Py.Finite 1) a) ;;
   let c := Py.float_mul (Py.Finite 2) (math_atan2 sa sb) in
   Ok (Py.float_mul (Py.Finite earth_radius) c))%py.

Local Close Scope R_scope.

(** ** The collaborators *)

(** One constructor per endpoint, with the parameters the program
    sends.  Coordinates travel as the values the program formats into
    the query string. *)
Inductive request : Type :=
| Geocode (address : string) (key : string)
| NearbySearch (lat lng : json) (radius : Z) (type : string)
               (keyword : option string) (key : string)
| PlaceDetails (place_id : json) (fields : string) (key : string)
| Directions (origin destination : json * json) (mode : string)
             (key : string).

Definition is_geocode (q : request) : bool :=
  match q with Geocode _ _ => true | _ => false end.

(** What [requests.get(endpoint, params).json()] evaluates to, given the
    requests already made: a decoded document, or an exception of the
    transport or of the decoder.  The log grows with every request, so
    any sequence of answers, also one that answers the same request
    differently the second time, is such a function. *)
Definition World : Type := list request -> request -> result json.

(** A computation that may call the collaborators: from the log of the
    requests made so far to an outcome and the extended log. *)
Definition IO (A : Type) : Type := list request -> result A * list request.

Definition ret {A} (a : A) : IO A := fun log => (Ok a, log).

Definition bind {A B} (m : IO A) (k : A -> IO B) : IO B :=
  fun log =>
    match m log with
    | (Ok a, log') => k a log'
    | (Raise e, log') => (Raise e, log')
    end.

Definition lift {A} (r : result A) : IO A := fun log => (r, log).

Declare Scope io_scope.
Delimit Scope io_scope with io.

Notation "x <- m ;; k" := (bind m (fun x => k))
  (at level 61, m at next level, right associativity) : io_scope.
Notation "' ( x , y ) <- m ;; k" := (bind m (fun xy => let (x, y) := xy in k))
  (at level 61, x name, y name, m at next level, right associativity)
  : io_scope.

(** The dictionary [get_nearby_restaurants] builds for a place. *)
Record restaurant : Type := Restaurant {
  Name : json;
  Rating : json;
  Number_of_Ratings : json;
  Price_Level : string;
  Address : json;
  Phone_Number : json;
  Website : json;
  Summary : json;
  Driving_ETA : json;
  Haversine_Distance : Z
}.

Section Program.

Variable API_KEY : string.
Variable world : World.

Local Open Scope io_scope.

Definition requests_get (q : request) : IO json :=
  fun log => (world log q, (log ++ [q])%list).

(** ** [get_location_coordinates] (lines 14-33) *)

Definition get_location_coordinates (location : string) : IO (json * json) :=
  response <- requests_get (Geocode location API_KEY) ;;
  status <- lift (Py.getitem response "status") ;;
  if Py.ne_str status "OK" then lift (Raise (ValueError (Some response)))
  else
    latlng <- lift (results <- Py.getitem response "results" ;;
                    first <- Py.getindex results 0 ;;
                    geometry <- Py.getitem first "geometry" ;;
                    Py.getitem geometry "location")%py ;;
    lat <- lift (Py.getitem latlng "lat") ;;
    lng <- lift (Py.getitem latlng "lng") ;;
    ret (lat, lng).

(** ** [get_driving_eta] (lines 149-172) *)

Definition get_driving_eta (origin destination : json * json) : IO json :=
  eta_res <- requests_get (Directions origin destination "driving" API_KEY) ;;
  status <- lift (Py.getitem eta_res "status") ;;
  if Py.ne_str status "OK" then ret JNull
  else
    routes <- lift (Py.get eta_res "routes" JNull) ;;
    if negb (Py.truthy routes) then ret JNull
    else
      lift (routes <- Py.getitem eta_res "routes" ;;
            route <- Py.getindex routes 0 ;;
            legs <- Py.getitem route "legs" ;;
            leg <- Py.getindex legs 0 ;;
            duration <- Py.getitem leg "duration" ;;
            Py.getitem duration "text")%py.

(** ** [get_nearby_restaurants] (lines 72-146) *)

(** [lat, lng = map(float, location.split(","))] *)
Definition parse_coordinates (location : string) : result (json * json) :=
  match split Chars.comma location with
  | [a; b] =>
      (lat <- py_float (JStr a) ;;
       lng <- py_float (JStr b) ;;
       Ok (Py.of_float lat, Py.of_float lng))%py
  | _ => Raise (ValueError None)
  end.

(** Lines 86-89: the origin of the search. *)
Definition resolve_location (location : string) : IO (json * json) :=
  if is_coordinate location then lift (parse_coordinates location)
  else get_location_coordinates location.

(** The [fields] parameter of the details request (line 113). *)
Definition details_fields : string :=
  "name,rating,user_ratings_total,price_level,types,opening_hours,formatted_address,formatted_phone_number,website,editorial_summary".

Section Criteria.

Variable distance : Z.
Variable min_rating : option R.
Variable max_price : option Z.
Variable search : option string.
Variable max_results : Z.
Variable get_eta : bool.
Variable eta_threshold : option Z.

(** [if min_rating and float(details.get('rating', 0)) < min_rating];
    the bound is a finite number (the command line also reads [nan] and
    [inf], which are left out). *)
Definition below_min_rating (details : json) : result bool :=
  match min_rating with
  | Some m =>
      if Py.Req_dec_bool m 0 then Ok false
      else (rating <- Py.get details "rating" (JInt 0) ;;
            r <- py_float rating ;;
            Ok (Py.float_lt r (Py.Finite m)))%py
  | None => Ok false
  end.

(** [if max_price and details.get('price_level', 5) > max_price] *)
Definition above_max_price (details : json) : result bool :=
  match max_price with
  | Some p =>
      if p =? 0 then Ok false
      else (price_level <- Py.get details "price_level" (JInt 5) ;;
            Py.gt_int price_level p)%py
  | None => Ok false
  end.

(** [get_eta and (not eta_threshold or straight_distance > eta_threshold)] *)
Definition wants_eta (straight_distance : Py.float) : bool :=
  get_eta &&
  match eta_threshold with
  | None => true
  | Some t =>
      (t =? 0) || Py.float_lt (Py.Finite (IZR t)) straight_distance
  end.

(** Lines 132-143: the dictionary, its values evaluated in order. *)
Definition build_restaurant (details driving_eta : json)
    (rounded_distance : Z) : result restaurant :=
  (name <- Py.getitem details "name" ;;
   rating <- Py.get details "rating" (JStr "N/A") ;;
   count <- Py.get details "user_ratings_total" (JStr "N/A") ;;
   tier <- Py.get details "price_level" (JInt 0) ;;
   price <- Py.str_mul "$" tier ;;
   address <- Py.get details "formatted_address" (JStr "N/A") ;;
   phone <- Py.get details "formatted_phone_number" (JStr "N/A") ;;
   website <- Py.get details "website" (JStr "N/A") ;;
   summary <- Py.get details "editorial_summary" (JStr "N/A") ;;
   Ok (Restaurant name rating count price address phone website summary
                  driving_eta rounded_distance))%py.

Variables lat lng : json.

(** Lines 124-143: the part of the loop body after the two filters. *)
Definition enrich (result details : json) : IO restaurant :=
  '(destination_lat, destination_lng) <-
     lift (geometry <- Py.getitem result "geometry" ;;
           location <- Py.getitem geometry "location" ;;
           dlat <- Py.getitem location "lat" ;;
           geometry' <- Py.getitem result "geometry" ;;
           location' <- Py.getitem geometry' "location" ;;
           dlng <- Py.getitem location' "lng" ;;
           Ok (dlat, dlng))%py ;;
  straight_distance <-
    lift (haversine_distance (lat, lng) (destination_lat, destination_lng)) ;;
  rounded_distance <-
    lift (tens <- Py.round_float (Py.float_div straight_distance 10) ;;
          Ok (tens * 10))%py ;;
  driving_eta <-
    (if wants_eta straight_distance
     then get_driving_eta (lat, lng) (destination_lat, destination_lng)
     else ret JNull) ;;
  lift (build_restaurant details driving_eta rounded_distance).

(** Lines 110-143: one pass of the loop body for the candidate
    [result]: [None] when a filter reaches [continue], the dictionary to
    append otherwise. *)
Definition visit (result : json) : IO (option restaurant) :=
  place_id <- lift (Py.getitem result "place_id") ;;
  details_res <- requests_get (PlaceDetails place_id details_fields API_KEY) ;;
  details <- lift (Py.getitem details_res "result") ;;
  low <- lift (below_min_rating details) ;;
  if low then ret None
  else
    dear <- lift (above_max_price details) ;;
    if dear then ret None
    else
      r <- enrich result details ;;
      ret (Some r).

(** Lines 105-146: the [for] loop with its [break], and
    [restaurant_details] as accumulator. *)
Fixpoint loop (results : list json) (restaurant_details : list restaurant)
    : IO (list restaurant) :=
  match results with
  | [] => ret restaurant_details
  | result :: rest =>
      if Z.of_nat (length restaurant_details) =? max_results
      then ret restaurant_details
      else
        r <- visit result ;;
        loop rest
          match r with
          | Some x => (restaurant_details ++ [x])%list
          | None => restaurant_details
          end
  end.

(** [if search: params['keyword'] = search] *)
Definition keyword_param : option string :=
  match search with
  | Some s => if String.eqb s "" then None else Some s
  | None => None
  end.

Definition nearby_request : request :=
  NearbySearch lat lng distance "restaurant" keyword_param API_KEY.

(** Lines 91-146: the search once the origin is known. *)
Definition search_nearby : IO (list restaurant) :=
  res <- requests_get nearby_request ;;
  status <- lift (Py.getitem res "status") ;;
  if Py.ne_str status "OK" then ret []
  else
    results <- lift (results <- Py.getitem res "results" ;; Py.iter results)%py ;;
    loop results [].

End Criteria.

Definition get_nearby_restaurants (location : string) (distance : Z)
    (min_rating : option R) (max_price : option Z) (search : option string)
    (max_results : Z) (get_eta : bool) (eta_threshold : option Z)
    : IO (list restaurant) :=
  '(lat, lng) <- resolve_location location ;;
  search_nearby distance min_rating max_price search max_results get_eta
                eta_threshold lat lng.

End Program.

(** ** Vocabulary of the statements *)

Local Open Scope R_scope.

(** The quantity [a] of [haversine_distance], on radians. *)
Definition hav (lat1 lon1 lat2 lon2 : R) : R :=
  sin ((lat2 - lat1) / 2) ^ 2
  + cos lat1 * cos lat2 * sin ((lon2 - lon1) / 2) ^ 2.

(** The value of [haversine_distance] on numbers, in closed form. *)
Definition distance_of (lat1 lon1 lat2 lon2 : R) : R :=
  let a := hav (lat1 * (PI / 180)) (lon1 * (PI / 180))
               (lat2 * (PI / 180)) (lon2 * (PI / 180)) in
  earth_radius * (2 * atan2 (sqrt a) (sqrt (1 - a))).

(** [v] is a finite number of real value [x], as [math.radians] takes
    it. *)
Definition number (v : json) (x : R) : Prop :=
  Py.to_float v = Ok (Py.Finite x).

Local Close Scope R_scope.

(** The dictionaries that a sequence of loop passes appends. *)
Fixpoint accepted (outcomes : list (option restaurant)) : list restaurant :=
  match outcomes with
  | [] => []
  | Some r :: rest => r :: accepted rest
  | None :: rest => accepted rest
  end.

(** [Visits v cs log os log']: running the loop body [v] on the
    candidates [cs] one after the other, from the log [log], raises
    nothing, has the outcomes [os] and leaves the log [log']. *)
Inductive Visits (v : json -> IO (option restaurant))
  : list json -> list request -> list (option restaurant) -> list request
    -> Prop :=
| Visits_nil log : Visits v [] log [] log
| Visits_cons c cs log o log1 os log2 :
    v c log = (Ok o, log1) ->
    Visits v cs log1 os log2 ->
    Visits v (c :: cs) log (o :: os) log2.

(** The requests [m] adds to the log all satisfy [P]. *)
Definition adds_only (P : request -> bool) {A} (m : IO A) : Prop :=
  forall log, exists new,
    snd (m log) = (log ++ new)%list /\ forallb P new = true.



(** Every character of [s] satisfies [P]. *)
Fixpoint all_chars (P : ascii -> bool) (s : string) : bool :=
  match s with
  | EmptyString => true
  | String c s' => P c && all_chars P s'
  end.

(** The value of the digit string [s] on top of [acc]. *)
Fixpoint numeral (acc : Z) (s : string) : Z :=
  match s with
  | EmptyString => acc
  | String c s' => numeral (10 * acc + Chars.digit_value c) s'
  end.

(** [P] holds of each of the 256 characters. *)
Definition every_ascii (P : ascii -> bool) : bool :=
  forallb (fun n => P (ascii_of_nat n)) (seq 0 256).

Definition not_comma (c : ascii) : bool := negb (Ascii.eqb c Chars.comma).
Definition not_space (c : ascii) : bool := negb (Chars.is_float_space c).
Definition not_separator (c : ascii) : bool := negb (Chars.is_separator c).

(** The characters of a number in the coordinate pattern. *)
Definition numeric_char (c : ascii) : bool :=
  Chars.is_digit c || Ascii.eqb c "-" || Ascii.eqb c "+"
  || Ascii.eqb c Chars.dot.

(** The spelling of a decimal number without exponent: a sign, the
    digits of the integral part and, after a dot, those of the fraction. *)
Definition fraction_string (fs : option string) : string :=
  match fs with
  | Some f => String Chars.dot f
  | None => ""
  end.

Definition literal (sg ds : string) (fs : option string) : string :=
  sg ++ ds ++ fraction_string fs.

Definition digit_string (s : string) : Prop :=
  s <> "" /\ all_chars Chars.is_digit s = true.

Definition well_formed_literal (sg ds : string) (fs : option string) : Prop :=
  (sg = "" \/ sg = "+" \/ sg = "-")
  /\ digit_string ds
  /\ match fs with
     | Some f => digit_string f
     | None => True
     end.

(** The number a literal spells. *)
Definition literal_decimal (sg ds : string) (fs : option string)
    : FloatLiteral.decimal :=
  FloatLiteral.Decimal
    (String.eqb sg "-")
    (numeral 0 ds)
    (match fs with Some f => numeral 0 f | None => 0 end)
    (match fs with Some f => String.length f | None => O end)
    0.

(** The fraction of a literal has only zeros. *)
Definition zero_fraction (fs : option string) : Prop :=
  match fs with
  | Some f => numeral 0 f = 0
  | None => True
  end.

(** ** Sample collaborators

    Documents of the shape the collaborators send, for the scenarios
    below. *)

Definition place (place_id : string) (lat lng : json) : json :=
  JObj [("place_id", JStr place_id);
        ("geometry", JObj [("location", JObj [("lat", lat); ("lng", lng)])])].

Definition nearby_ok (places : list json) : json :=
  JObj [("status", JStr "OK"); ("results", JArr places)].

Definition details_ok (fields : list (string * json)) : json :=
  JObj [("status", JStr "OK"); ("result", JObj fields)].

Definition directions_ok (text : string) : json :=
  JObj [("status", JStr "OK");
        ("routes",
         JArr [JObj [("legs",
                      JArr [JObj [("duration",
                                   JObj [("text", JStr text)])]])]])].

Definition geocode_ok (lat lng : json) : json :=
  JObj [("status", JStr "OK");
        ("results",
         JArr [JObj [("geometry",
                      JObj [("location",
                             JObj [("lat", lat); ("lng", lng)])])]])].

(** A collaborator that answers every request with one status. *)
Definition status_world (status : string) : World :=
  fun _ _ => Ok (JObj [("status", JStr status)]).

(** One place at the origin, rated below zero. *)
Definition sour_world : World :=
  fun _ q =>
    match q with
    | NearbySearch _ _ _ _ _ _ => Ok (nearby_ok [place "p" (JInt 0) (JInt 0)])
    | PlaceDetails _ _ _ =>
        Ok (details_ok [("name", JStr "Sour Grapes");
                        ("rating", JFloat (-1))])
    | _ => Raise RequestException
    end.

(** Four places at the origin, of different ratings and price tiers. *)
Definition alpha : list (string * json) :=
  [("name", JStr "Alpha"); ("rating", JFloat 3); ("price_level", JInt 1)].

Definition bravo : list (string * json) :=
  [("name", JStr "Bravo"); ("rating", JFloat 4.5); ("price_level", JInt 2)].

Definition charlie : list (string * json) :=
  [("name", JStr "Charlie"); ("rating", JFloat 4.8)].

Definition delta : list (string * json) :=
  [("name", JStr "Delta"); ("rating", JFloat 4.9); ("price_level", JInt 4)].

Definition menu_details (place_id : json) : json :=
  match place_id with
  | JStr "a" => details_ok alpha
  | JStr "b" => details_ok bravo
  | JStr "c" => details_ok charlie
  | _ => details_ok delta
  end.

Definition menu_world : World :=
  fun _ q =>
    match q with
    | Geocode _ _ => Ok (geocode_ok (JFloat 40.7128) (JFloat (-74.0060)))
    | NearbySearch _ _ _ _ _ _ =>
        Ok (nearby_ok [place "a" (JInt 0) (JInt 0);
                       place "b" (JInt 0) (JInt 0);
                       place "c" (JInt 0) (JInt 0);
                       place "d" (JInt 0) (JInt 0)])
    | PlaceDetails place_id _ _ => Ok (menu_details place_id)
    | Directions _ _ _ _ => Ok (directions_ok "5 mins")
    end.

(** The longitude, in degrees, of the point of the equator that lies
    [meters] east of longitude 0. *)
Definition east (meters : R) : R := (meters / earth_radius * (180 / PI))%R.

(** Two places on the equator, 400 m and 1200 m east of the origin. *)
Definition equator_world : World :=
  fun _ q =>
    match q with
    | NearbySearch _ _ _ _ _ _ =>
        Ok (nearby_ok [place "near" (JInt 0) (JFloat (east 400));
                       place "far" (JInt 0) (JFloat (east 1200))])
    | PlaceDetails (JStr "near") _ _ => Ok (details_ok [("name", JStr "Near")])
    | PlaceDetails _ _ _ => Ok (details_ok [("name", JStr "Far")])
    | Directions _ _ _ _ => Ok (directions_ok "5 mins")
    | Geocode _ _ => Raise RequestException
    end.

(** A collaborator that answers every request with an empty document. *)
Definition mute_world : World := fun _ _ => Ok (JObj []).

(** A collaborator that reports success and no results. *)
Definition hollow_world : World := fun _ _ => Ok (nearby_ok []).

(** A collaborator whose routes have no legs. *)
Definition legless_world : World :=
  fun _ _ =>
    Ok (JObj [("status", JStr "OK");
              ("routes", JArr [JObj [("legs", JArr [])]])]).

(** One place at the origin, for which the routing collaborator finds
    no route. *)
Definition no_route_world : World :=
  fun _ q =>
    match q with
    | NearbySearch _ _ _ _ _ _ => Ok (nearby_ok [place "p" (JInt 0) (JInt 0)])
    | PlaceDetails _ _ _ => Ok (details_ok [("name", JStr "Lonely")])
    | Directions _ _ _ _ => Ok (JObj [("status", JStr "ZERO_RESULTS")])
    | Geocode _ _ => Raise RequestException
    end.


(** One place whose price tier is a string. *)
Definition odd_price_world : World :=
  fun _ q =>
    match q with
    | NearbySearch _ _ _ _ _ _ => Ok (nearby_ok [place "p" (JInt 0) (JInt 0)])
    | PlaceDetails _ _ _ =>
        Ok (details_ok [("name", JStr "Odd"); ("price_level", JStr "2")])
    | _ => Raise RequestException
    end.

(** ** The command line (lines 175-202)

    [main] hands the parsed arguments to [get_nearby_restaurants] and
    prints the list it returns; the parsing of [argv] by [argparse] and
    the printing are not embedded.  [Namespace] is what
    [parser.parse_args()] returns, [defaults] what it holds for a
    command line that gives the location only. *)

Record Namespace : Type := {
  arg_location : string;
  arg_distance : Z;
  arg_get_eta : bool;
  arg_eta_threshold : option Z;
  arg_min_rating : option R;
  arg_max_price : option Z;
  arg_search : option string;
  arg_max_results : Z
}.

Definition defaults (location : string) : Namespace :=
  {| arg_location := location;
     arg_distance := 20000;
     arg_get_eta := false;
     arg_eta_threshold := None;
     arg_min_rating := None;
     arg_max_price := None;
     arg_search := None;
     arg_max_results := 25 |}.

(** The list [main] prints. *)
Definition main (API_KEY : string) (world : World) (args : Namespace)
    : IO (list restaurant) :=
  get_nearby_restaurants API_KEY world (arg_location args)
    (arg_distance args) (arg_min_rating args) (arg_max_price args)
    (arg_search args) (arg_max_results args) (arg_get_eta args)
    (arg_eta_threshold args).

(** ** Vocabulary of the further statements *)

Definition is_details (q : request) : bool :=
  match q with PlaceDetails _ _ _ => true | _ => false end.

Definition is_directions (q : request) : bool :=
  match q with Directions _ _ _ _ => true | _ => false end.

Definition is_nearby (q : request) : bool :=
  match q with NearbySearch _ _ _ _ _ _ => true | _ => false end.

(** How many of the requests satisfy [P]. *)
Definition count (P : request -> bool) (l : list request) : nat :=
  length (filter P l).

(** A number: an [int], a [float] or a [bool]. *)
Definition is_number (v : json) : bool :=
  match v with
  | JInt _ | JFloat _ | JNaN | JInf _ | JBool _ => true
  | _ => false
  end.

(** An [int] that binary64 rounds to an infinity. *)
Definition too_large (v : json) : bool :=
  match v with
  | JInt z => Py.huge <=? Z.abs z
  | _ => false
  end.

(** A value [math.radians] does not convert. *)
Definition rejected (v : json) : bool := negb (is_number v) || too_large v.

(** A value [str.__mul__] accepts as count. *)
Definition is_integer (v : json) : bool :=
  match v with
  | JInt _ | JBool _ => true
  | _ => false
  end.

Definition is_dollar (c : ascii) : bool := Ascii.eqb c "$".

(** The requests of one pass of the loop: none, the details request, or
    the details request and, with the ETA flag set, a routing request. *)
Inductive pass_requests (API_KEY : string) (get_eta : bool)
  : list request -> Prop :=
| pass_none : pass_requests API_KEY get_eta []
| pass_details place_id :
    pass_requests API_KEY get_eta
      [PlaceDetails place_id details_fields API_KEY]
| pass_directions place_id origin destination :
    get_eta = true ->
    pass_requests API_KEY get_eta
      [PlaceDetails place_id details_fields API_KEY;
       Directions origin destination "driving" API_KEY].

(** * Properties *)

Unset Implicit Arguments.

(** ** The distance calculator *)

Section Haversine.

Local Open Scope R_scope.

Lemma sin_half_diff_sqr (x y : R) :
  sin ((y - x) / 2) ^ 2 = sin ((x - y) / 2) ^ 2.
Proof.
  replace ((y - x) / 2) with (- ((x - y) / 2)) by lra.
  rewrite sin_neg. ring.
Qed.

Lemma hav_sym (lat1 lon1 lat2 lon2 : R) :
  hav lat1 lon1 lat2 lon2 = hav lat2 lon2 lat1 lon1.
Proof.
  unfold hav.
  rewrite (sin_half_diff_sqr lat1 lat2), (sin_half_diff_sqr lon1 lon2).
  ring.
Qed.

Lemma sqr_sin_bounds (x : R) : 0 <= sin x ^ 2 <= 1.
Proof.
  pose proof (sin2_cos2 x) as H. unfold Rsqr in H.
  pose proof (pow2_ge_0 (sin x)). pose proof (pow2_ge_0 (cos x)).
  split; nra.
Qed.

Lemma sqr_cos_bounds (x : R) : 0 <= cos x ^ 2 <= 1.
Proof.
  pose proof (sin2_cos2 x) as H. unfold Rsqr in H.
  pose proof (pow2_ge_0 (sin x)). pose proof (pow2_ge_0 (cos x)).
  split; nra.
Qed.

(** With the longitudes half a turn apart the first summand and the
    product of cosines add up to a squared cosine. *)
Lemma hav_antipodal_term (lat1 lat2 : R) :
  sin ((lat2 - lat1) / 2) ^ 2 + cos lat1 * cos lat2
  = cos ((lat1 + lat2) / 2) ^ 2.
Proof.
  replace ((lat2 - lat1) / 2) with (lat2 / 2 - lat1 / 2) by lra.
  replace ((lat1 + lat2) / 2) with (lat1 / 2 + lat2 / 2) by lra.
  replace (cos lat1) with (cos (2 * (lat1 / 2))) by (f_equal; lra).
  replace (cos lat2) with (cos (2 * (lat2 / 2))) by (f_equal; lra).
  rewrite sin_minus, cos_plus, !cos_2a. ring.
Qed.

Lemma hav_bounds (lat1 lon1 lat2 lon2 : R) :
  0 <= hav lat1 lon1 lat2 lon2 <= 1.
Proof.
  unfold hav.
  pose proof (hav_antipodal_term lat1 lat2) as E.
  pose proof (sqr_sin_bounds ((lat2 - lat1) / 2)) as HA.
  pose proof (sqr_cos_bounds ((lat1 + lat2) / 2)) as HB.
  pose proof (sqr_sin_bounds ((lon2 - lon1) / 2)) as HS.
  set (A := sin ((lat2 - lat1) / 2) ^ 2) in *.
  set (B := cos ((lat1 + lat2) / 2) ^ 2) in *.
  set (s := sin ((lon2 - lon1) / 2) ^ 2) in *.
  set (p := cos lat1 * cos lat2) in *.
  assert (Hp : p = B - A) by lra.
  rewrite Hp. split; nra.
Qed.

Lemma hav_same (lat lon : R) : hav lat lon lat lon = 0.
Proof.
  unfold hav.
  replace ((lat - lat) / 2) with 0 by lra.
  replace ((lon - lon) / 2) with 0 by lra.
  rewrite sin_0. ring.
Qed.

Lemma math_sqrt_nonneg (x : R) :
  0 <= x -> math_sqrt (Py.Finite x) = Ok (Py.Finite (sqrt x)).
Proof.
  intros Hx. unfold math_sqrt.
  destruct (Rlt_dec x 0); [lra | reflexivity].
Qed.

Lemma atan2_0_1 : atan2 0 1 = 0.
Proof.
  unfold atan2.
  destruct (Rlt_dec 0 1); [| lra].
  replace (0 / 1) with 0 by lra. apply atan_0.
Qed.

Lemma haversine_distance_numbers (c1 c2 : json * json) (lat1 lon1 lat2 lon2 : R) :
  number (fst c1) lat1 -> number (snd c1) lon1 ->
  number (fst c2) lat2 -> number (snd c2) lon2 ->
  haversine_distance c1 c2 = Ok (Py.Finite (distance_of lat1 lon1 lat2 lon2)).
Proof.
  unfold number, haversine_distance, math_radians. intros -> -> -> ->.
  cbn [rbind Py.float_mul Py.float_sub Py.float_add Py.float_div
       math_sin math_cos].
  pose proof (hav_bounds (lat1 * (PI / 180)) (lon1 * (PI / 180))
                         (lat2 * (PI / 180)) (lon2 * (PI / 180))) as Hb.
  set (h := hav (lat1 * (PI / 180)) (lon1 * (PI / 180))
                (lat2 * (PI / 180)) (lon2 * (PI / 180))) in *.
  match goal with
  | |- context [math_sqrt (Py.Finite ?a)] =>
      replace a with h by (unfold h, hav; ring)
  end.
  rewrite math_sqrt_nonneg by lra. cbn [rbind].
  rewrite math_sqrt_nonneg by lra. cbn [rbind math_atan2 Py.float_mul].
  reflexivity.
Qed.

Lemma distance_of_sym (lat1 lon1 lat2 lon2 : R) :
  distance_of lat1 lon1 lat2 lon2 = distance_of lat2 lon2 lat1 lon1.
Proof.
  unfold distance_of. cbv zeta. now rewrite hav_sym.
Qed.

Lemma atan2_nonneg (y x : R) : 0 <= y -> 0 <= x -> 0 <= atan2 y x.
Proof.
  intros Hy Hx. unfold atan2.
  destruct (Rlt_dec 0 x) as [Hpos |].
  - destruct (Req_dec y 0) as [-> | Hne].
    + replace (0 / x) with 0 by (unfold Rdiv; ring). rewrite atan_0. lra.
    + left. rewrite <- atan_0. apply atan_increasing.
      apply Rdiv_lt_0_compat; lra.
  - destruct (Rlt_dec x 0); [lra |].
    destruct (Rlt_dec 0 y); [pose proof PI_RGT_0; lra |].
    destruct (Rlt_dec y 0); lra.
Qed.

Lemma distance_of_nonneg (lat1 lon1 lat2 lon2 : R) :
  0 <= distance_of lat1 lon1 lat2 lon2.
Proof.
  unfold distance_of. cbv zeta.
  apply Rmult_le_pos; [unfold earth_radius; lra |].
  apply Rmult_le_pos; [lra |].
  apply atan2_nonneg; apply sqrt_pos.
Qed.

Lemma distance_of_same (lat lon : R) : distance_of lat lon lat lon = 0.
Proof.
  unfold distance_of. cbv zeta. rewrite hav_same.
  replace (1 - 0) with 1 by lra.
  rewrite sqrt_0, sqrt_1, atan2_0_1. ring.
Qed.



End Haversine.

(** ** The matcher computes membership in the language *)

Section RegexFacts.

Import Regex.

Lemma append_empty (s1 s2 : string) :
  (s1 ++ s2)%string = ""%string -> s1 = ""%string /\ s2 = ""%string.
Proof.
  destruct s1; cbn; [auto | discriminate].
Qed.

Lemma append_cons (s1 s2 s : string) (c : ascii) :
  (s1 ++ s2)%string = String c s ->
  (s1 = ""%string /\ s2 = String c s)
  \/ exists s1', s1 = String c s1' /\ s = (s1' ++ s2)%string.
Proof.
  destruct s1 as [| c1 s1']; cbn; intros H.
  - left. auto.
  - right. injection H as -> <-. eauto.
Qed.

Lemma nullable_sound (r : regex) : nullable r = true -> Matches r "".
Proof.
  induction r; cbn; intros H; try discriminate.
  - constructor.
  - apply andb_true_iff in H as [H1 H2].
    change ""%string with (("" ++ "")%string). constructor; auto.
  - apply orb_true_iff in H as [H | H]; [apply MAltL | apply MAltR]; auto.
  - constructor.
Qed.

Lemma nullable_complete (r : regex) (s : string) :
  Matches r s -> s = ""%string -> nullable r = true.
Proof.
  induction 1; intros E; cbn; try discriminate; auto.
  - apply append_empty in E as [-> ->]. rewrite IHMatches1, IHMatches2; auto.
  - rewrite IHMatches; auto.
  - rewrite IHMatches; auto. apply orb_true_r.
Qed.

Lemma deriv_sound (c : ascii) (r : regex) :
  forall s, Matches (deriv c r) s -> Matches r (String c s).
Proof.
  induction r; cbn; intros s H.
  - inversion H.
  - inversion H.
  - destruct (p c) eqn:E; inversion H; subst. now constructor.
  - assert (cat : forall t, Matches (Cat (deriv c r1) r2) t ->
                            Matches (Cat r1 r2) (String c t)).
    { intros t Ht. inversion Ht; subst.
      change (String c (s1 ++ s2)) with ((String c s1 ++ s2)%string).
      constructor; auto. }
    destruct (nullable r1) eqn:N; [| now apply cat].
    inversion H; subst; [now apply cat |].
    change (String c s) with (("" ++ String c s)%string).
    constructor; [now apply nullable_sound | auto].
  - inversion H; subst; [apply MAltL | apply MAltR]; auto.
  - inversion H; subst.
    change (String c (s1 ++ s2)) with ((String c s1 ++ s2)%string).
    constructor; auto.
Qed.

Lemma deriv_complete (r : regex) (t : string) :
  Matches r t -> forall c s, t = String c s -> Matches (deriv c r) s.
Proof.
  induction 1; intros a t E; cbn.
  - discriminate.
  - injection E as -> <-. rewrite H. constructor.
  - apply append_cons in E as [[-> ->] | (s1' & -> & ->)].
    + rewrite (nullable_complete _ _ H eq_refl).
      apply MAltR. now apply IHMatches2.
    + assert (Matches (Cat (deriv a r1) r2) (s1' ++ s2)) as Hc
          by (constructor; auto).
      destruct (nullable r1); [now apply MAltL | exact Hc].
  - apply MAltL. now apply IHMatches.
  - apply MAltR. now apply IHMatches.
  - discriminate.
  - apply append_cons in E as [[-> ->] | (s1' & -> & ->)].
    + now apply IHMatches2.
    + constructor; auto.
Qed.

Lemma fullmatch_Matches (s : string) :
  forall r, fullmatch r s = true <-> Matches r s.
Proof.
  induction s as [| c s IH]; intros r; cbn.
  - split; [apply nullable_sound | intros H; now apply (nullable_complete _ _ H)].
  - rewrite IH. split; [apply deriv_sound |].
    intros H. now apply (deriv_complete _ _ H).
Qed.

End RegexFacts.

(** The pattern on a few inputs: the bounds 90 and 180 take only zeros
    after the dot, white space may follow the comma, and a final line
    feed is let through by [$]. *)
Example is_coordinate_examples :
  is_coordinate "40.7128,-74.0060" = true
  /\ is_coordinate "-90.000, +180.0" = true
  /\ is_coordinate "89.9,179.9" = true
  /\ is_coordinate "90.5,0" = false
  /\ is_coordinate "45,180.1" = false
  /\ is_coordinate "45 ,10" = false
  /\ is_coordinate "1,2,3" = false
  /\ is_coordinate "New York" = false
  /\ is_coordinate (String "1" (String "," (String "2" (String "010" ""))))
     = true.
Proof.
  vm_compute. repeat split.
Qed.

(** ** Computations that call the collaborators *)

Section IOFacts.

Context {A B : Type}.

Lemma bind_Ok (m : IO A) (k : A -> IO B) log b log' :
  bind m k log = (Ok b, log') ->
  exists a log1, m log = (Ok a, log1) /\ k a log1 = (Ok b, log').
Proof.
  unfold bind. destruct (m log) as [[a | e] log1]; intros H.
  - eauto.
  - discriminate.
Qed.

Lemma bind_eq (m : IO A) (k : A -> IO B) log a log1 :
  m log = (Ok a, log1) -> bind m k log = k a log1.
Proof.
  unfold bind. now intros ->.
Qed.

Lemma bind_lift_Ok (a : A) (k : A -> IO B) log :
  bind (lift (Ok a)) k log = k a log.
Proof. reflexivity. Qed.

Lemma bind_lift_Raise (e : exn) (k : A -> IO B) log :
  bind (lift (Raise e)) k log = (Raise e, log).
Proof. reflexivity. Qed.

Lemma bind_ext (m : IO A) (k1 k2 : A -> IO B) log :
  (forall a log1, k1 a log1 = k2 a log1) -> bind m k1 log = bind m k2 log.
Proof.
  intros H. unfold bind. destruct (m log) as [[a | e] log1]; auto.
Qed.

Lemma adds_only_ret P (a : A) : adds_only P (ret a).
Proof.
  intros log. exists []. cbn. now rewrite app_nil_r.
Qed.

Lemma adds_only_lift P (r : result A) : adds_only P (lift r).
Proof.
  intros log. exists []. cbn. now rewrite app_nil_r.
Qed.

Lemma adds_only_bind P (m : IO A) (k : A -> IO B) :
  adds_only P m -> (forall a, adds_only P (k a)) -> adds_only P (bind m k).
Proof.
  intros Hm Hk log. unfold bind.
  destruct (Hm log) as (new1 & E1 & F1).
  destruct (m log) as [[a | e] log1]; cbn in E1; subst log1.
  - destruct (Hk a (log ++ new1)%list) as (new2 & E2 & F2).
    exists (new1 ++ new2)%list. rewrite E2, app_assoc. split; auto.
    rewrite forallb_app, F1, F2. reflexivity.
  - exists new1. auto.
Qed.

End IOFacts.

Lemma adds_only_requests_get P (world : World) (q : request) :
  P q = true -> adds_only P (requests_get world q).
Proof.
  intros H log. exists [q]. cbn. now rewrite H.
Qed.

Lemma adds_only_if P {A} (b : bool) (m1 m2 : IO A) :
  adds_only P m1 -> adds_only P m2 -> adds_only P (if b then m1 else m2).
Proof. now destruct b. Qed.

Lemma accepted_app (os1 os2 : list (option restaurant)) :
  accepted (os1 ++ os2) = (accepted os1 ++ accepted os2)%list.
Proof.
  induction os1 as [| [r |] os1 IH]; cbn; auto. now rewrite IH.
Qed.

(** ** The place search pipeline: the loop and its cap *)

Section Loop.

Variable API_KEY : string.
Variable world : World.
Variable min_rating : option R.
Variable max_price : option Z.
Variable max_results : Z.
Variable get_eta : bool.
Variable eta_threshold : option Z.
Variables lat lng : json.

Let visit' : json -> IO (option restaurant) :=
  visit API_KEY world min_rating max_price get_eta eta_threshold lat lng.

Let loop' : list json -> list restaurant -> IO (list restaurant) :=
  loop API_KEY world min_rating max_price max_results get_eta eta_threshold
       lat lng.

Lemma loop_nil acc log : loop' [] acc log = (Ok acc, log).
Proof. reflexivity. Qed.

Lemma loop_full c rest acc log :
  Z.of_nat (length acc) = max_results ->
  loop' (c :: rest) acc log = (Ok acc, log).
Proof.
  intros H. unfold loop'. cbn [loop].
  apply Z.eqb_eq in H. now rewrite H.
Qed.

Lemma loop_visit c rest acc log o log1 :
  Z.of_nat (length acc) <> max_results ->
  visit' c log = (Ok o, log1) ->
  loop' (c :: rest) acc log
  = loop' rest match o with
               | Some x => (acc ++ [x])%list
               | None => acc
               end log1.
Proof.
  intros H E. unfold loop'. cbn [loop].
  apply Z.eqb_neq in H. rewrite H.
  fold visit'. now erewrite bind_eq by exact E.
Qed.

Lemma loop_raise c rest acc log e log1 :
  Z.of_nat (length acc) <> max_results ->
  visit' c log = (Raise e, log1) ->
  loop' (c :: rest) acc log = (Raise e, log1).
Proof.
  intros H E. unfold loop'. cbn [loop].
  apply Z.eqb_neq in H. rewrite H.
  fold visit'. unfold bind. now rewrite E.
Qed.

(** The accumulator never grows past the cap. *)
Lemma loop_length results :
  forall acc log out log',
    Z.of_nat (length acc) <= max_results ->
    loop' results acc log = (Ok out, log') ->
    Z.of_nat (length out) <= max_results.
Proof.
  induction results as [| c rest IH]; intros acc log out log' Hacc E.
  - rewrite loop_nil in E. now injection E as <- _.
  - destruct (Z.eq_dec (Z.of_nat (length acc)) max_results) as [Hfull | Hroom].
    + rewrite loop_full in E by assumption. now injection E as <- _.
    + destruct (visit' c log) as [[o | e] log1] eqn:V.
      * rewrite (loop_visit _ _ _ _ _ _ Hroom V) in E.
        apply IH in E; [assumption |].
        destruct o; [| assumption].
        rewrite length_app. cbn. lia.
      * rewrite (loop_raise _ _ _ _ _ _ Hroom V) in E. discriminate.
Qed.

(** What the loop returns: it runs the body on a prefix of the
    candidates, returns the accumulator followed by what those passes
    accepted, leaves candidates unvisited only when the cap is reached,
    and never visits a candidate with the cap already reached. *)
Lemma loop_visits results :
  forall acc log out log',
    loop' results acc log = (Ok out, log') ->
    exists k os,
      (k <= length results)%nat
      /\ Visits visit' (firstn k results) log os log'
      /\ out = (acc ++ accepted os)%list
      /\ ((k < length results)%nat -> Z.of_nat (length out) = max_results)
      /\ (forall j, (j < k)%nat ->
            Z.of_nat (length (acc ++ accepted (firstn j os))) <> max_results).
Proof.
  induction results as [| c rest IH]; intros acc log out log' E.
  - rewrite loop_nil in E. injection E as <- <-.
    exists 0%nat, []. cbn. rewrite app_nil_r.
    repeat split; try lia. constructor.
  - destruct (Z.eq_dec (Z.of_nat (length acc)) max_results) as [Hfull | Hroom].
    + rewrite loop_full in E by assumption. injection E as <- <-.
      exists 0%nat, []. cbn. rewrite app_nil_r.
      repeat split; try lia. constructor.
    + destruct (visit' c log) as [[o | e] log1] eqn:V.
      * rewrite (loop_visit _ _ _ _ _ _ Hroom V) in E.
        apply IH in E as (k & os & Hk & HV & Hout & Hstop & Hbefore).
        exists (S k), (o :: os). cbn [length firstn].
        assert (Hshift : forall l,
                   ((match o with Some x => (acc ++ [x])%list | None => acc end)
                      ++ accepted l
                    = acc ++ accepted (o :: l))%list).
        { intros l. destruct o; cbn; [now rewrite <- app_assoc | reflexivity]. }
        repeat split.
        -- lia.
        -- econstructor; eassumption.
        -- now rewrite <- Hshift.
        -- intros H. apply Hstop. lia.
        -- intros [| j] Hj.
           ++ cbn. now rewrite app_nil_r.
           ++ cbn [firstn]. rewrite <- Hshift. apply Hbefore. lia.
      * rewrite (loop_raise _ _ _ _ _ _ Hroom V) in E. discriminate.
Qed.

End Loop.

Lemma lift_Ok {A} (r : result A) log a log' :
  lift r log = (Ok a, log') -> r = Ok a /\ log' = log.
Proof.
  unfold lift. intros H. injection H as -> <-. auto.
Qed.

Lemma ret_Ok {A} (x : A) log a log' :
  ret x log = (Ok a, log') -> x = a /\ log' = log.
Proof.
  unfold ret. intros H. injection H as -> <-. auto.
Qed.

Lemma rbind_Ok {A B} (m : result A) (k : A -> result B) b :
  rbind m k = Ok b -> exists a, m = Ok a /\ k a = Ok b.
Proof.
  destruct m; cbn; [eauto | discriminate].
Qed.

Lemma Visits_accepted_Forall (v : json -> IO (option restaurant))
    (P : restaurant -> Prop) :
  (forall c log r log', v c log = (Ok (Some r), log') -> P r) ->
  forall cs log os log', Visits v cs log os log' -> Forall P (accepted os).
Proof.
  intros Hv cs log os log'. induction 1 as [| c cs log o log1 os log2 V _ IH].
  - constructor.
  - destruct o as [r |]; cbn; [| assumption].
    constructor; [eapply Hv; eassumption | assumption].
Qed.

(** ** The loop body *)

Section Visit.

Variable API_KEY : string.
Variable world : World.
Variable min_rating : option R.
Variable max_price : option Z.
Variable get_eta : bool.
Variable eta_threshold : option Z.
Variables lat lng : json.

Let visit' : json -> IO (option restaurant) :=
  visit API_KEY world min_rating max_price get_eta eta_threshold lat lng.

Let enrich' : json -> json -> IO restaurant :=
  enrich API_KEY world get_eta eta_threshold lat lng.

(** The body up to the filters, for a candidate whose details lookup
    answers with a document that has a [result]. *)
Lemma visit_details c log place_id details_res details :
  Py.getitem c "place_id" = Ok place_id ->
  world log (PlaceDetails place_id details_fields API_KEY) = Ok details_res ->
  Py.getitem details_res "result" = Ok details ->
  let log1 := (log ++ [PlaceDetails place_id details_fields API_KEY])%list in
  visit' c log
  = match below_min_rating min_rating details with
    | Raise e => (Raise e, log1)
    | Ok true => (Ok None, log1)
    | Ok false =>
        match above_max_price max_price details with
        | Raise e => (Raise e, log1)
        | Ok true => (Ok None, log1)
        | Ok false => bind (enrich' c details) (fun r => ret (Some r)) log1
        end
    end.
Proof.
  intros Hid Hw Hres log1. unfold visit', visit.
  rewrite Hid, bind_lift_Ok.
  unfold bind at 1, requests_get at 1. rewrite Hw.
  rewrite Hres, bind_lift_Ok. fold log1.
  destruct (below_min_rating min_rating details) as [[|] | e];
    [reflexivity | | reflexivity].
  rewrite bind_lift_Ok.
  destruct (above_max_price max_price details) as [[|] | e]; reflexivity.
Qed.

(** A pass that returns has looked the candidate up. *)
Lemma visit_Ok c log o log' :
  visit' c log = (Ok o, log') ->
  exists place_id details_res details,
    Py.getitem c "place_id" = Ok place_id
    /\ world log (PlaceDetails place_id details_fields API_KEY)
       = Ok details_res
    /\ Py.getitem details_res "result" = Ok details.
Proof.
  unfold visit', visit. intros H.
  apply bind_Ok in H as (place_id & l1 & E1 & H).
  apply lift_Ok in E1 as (E1 & ->).
  apply bind_Ok in H as (details_res & l2 & E2 & H).
  unfold requests_get in E2. injection E2 as Hw <-.
  apply bind_Ok in H as (details & l3 & E3 & H).
  apply lift_Ok in E3 as (E3 & ->).
  eauto 6.
Qed.



End Visit.

(** ** The pipeline around the loop *)

Section Pipeline.

Variable API_KEY : string.
Variable world : World.
Variable distance : Z.
Variable min_rating : option R.
Variable max_price : option Z.
Variable search : option string.
Variable max_results : Z.
Variable get_eta : bool.
Variable eta_threshold : option Z.

Let visit' (lat lng : json) : json -> IO (option restaurant) :=
  visit API_KEY world min_rating max_price get_eta eta_threshold lat lng.

Let loop' (lat lng : json)
  : list json -> list restaurant -> IO (list restaurant) :=
  loop API_KEY world min_rating max_price max_results get_eta eta_threshold
       lat lng.

Let search_nearby' (lat lng : json) : IO (list restaurant) :=
  search_nearby API_KEY world distance min_rating max_price search
                max_results get_eta eta_threshold lat lng.

Let nearby_request' (lat lng : json) : request :=
  nearby_request API_KEY distance search lat lng.

(** The search, for a collaborator that answers with a status. *)
Lemma search_nearby_status lat lng log res status :
  world log (nearby_request' lat lng) = Ok res ->
  Py.getitem res "status" = Ok status ->
  let log1 := (log ++ [nearby_request' lat lng])%list in
  search_nearby' lat lng log
  = if Py.ne_str status "OK" then (Ok [], log1)
    else
      match rbind (Py.getitem res "results") Py.iter with
      | Ok results => loop' lat lng results [] log1
      | Raise e => (Raise e, log1)
      end.
Proof.
  intros Hw Hs log1. unfold search_nearby', search_nearby.
  unfold bind at 1, requests_get at 1.
  fold (nearby_request' lat lng). rewrite Hw.
  rewrite Hs, bind_lift_Ok. fold log1.
  destruct (Py.ne_str status "OK"); [reflexivity |].
  destruct (rbind (Py.getitem res "results") Py.iter) as [results | e];
    reflexivity.
Qed.

(** A search that returns got a status from the collaborator. *)
Lemma search_nearby_Ok lat lng log out log' :
  search_nearby' lat lng log = (Ok out, log') ->
  exists res status,
    world log (nearby_request' lat lng) = Ok res
    /\ Py.getitem res "status" = Ok status.
Proof.
  unfold search_nearby', search_nearby. intros H.
  apply bind_Ok in H as (res & l1 & E1 & H).
  unfold requests_get in E1. injection E1 as Hw <-.
  apply bind_Ok in H as (status & l2 & E2 & H).
  apply lift_Ok in E2 as (E2 & ->).
  eauto.
Qed.

(** A search that returns gives the empty list or what the loop gives. *)
Lemma search_nearby_loop lat lng log out log' :
  search_nearby' lat lng log = (Ok out, log') ->
  out = [] \/ exists results log1, loop' lat lng results [] log1 = (Ok out, log').
Proof.
  intros H.
  destruct (search_nearby_Ok _ _ _ _ _ H) as (res & status & Hw & Hs).
  rewrite (search_nearby_status _ _ _ _ _ Hw Hs) in H. cbv zeta in H.
  destruct (Py.ne_str status "OK").
  - left. now injection H as <- _.
  - destruct (rbind (Py.getitem res "results") Py.iter) as [results | e];
      [| discriminate].
    right. eauto.
Qed.

Lemma get_nearby_restaurants_Ok location log out log' :
  get_nearby_restaurants API_KEY world location distance min_rating max_price
    search max_results get_eta eta_threshold log = (Ok out, log') ->
  exists lat lng log0,
    resolve_location API_KEY world location log = (Ok (lat, lng), log0)
    /\ search_nearby' lat lng log0 = (Ok out, log').
Proof.
  unfold get_nearby_restaurants. intros H.
  apply bind_Ok in H as ([lat lng] & log0 & E & H). eauto.
Qed.

(** What holds of every accepted dictionary holds of every returned one. *)
Lemma get_nearby_restaurants_Forall (P : restaurant -> Prop) location log out log' :
  (forall lat lng c l r l', visit' lat lng c l = (Ok (Some r), l') -> P r) ->
  get_nearby_restaurants API_KEY world location distance min_rating max_price
    search max_results get_eta eta_threshold log = (Ok out, log') ->
  Forall P out.
Proof.
  intros HP H.
  apply get_nearby_restaurants_Ok in H as (lat & lng & log0 & _ & H).
  apply search_nearby_loop in H as [-> | (results & log1 & H)];
    [constructor |].
  apply loop_visits in H as (k & os & _ & HV & -> & _).
  cbn [app]. eapply Visits_accepted_Forall; [| exact HV].
  apply HP.
Qed.

End Pipeline.

(** ** The travel-time fetcher and the geocoding resolver *)

Lemma getitem_not_ValueError v k d : Py.getitem v k <> Raise (ValueError d).
Proof.
  destruct v; cbn; try discriminate.
  destruct (Py.lookup k fields); discriminate.
Qed.

Lemma getindex_not_ValueError v i d : Py.getindex v i <> Raise (ValueError d).
Proof.
  destruct v; cbn; try discriminate.
  - destruct (Py.string_nth s i); discriminate.
  - destruct (nth_error items i); discriminate.
Qed.

Lemma getitem_Ok_get v k x default :
  Py.getitem v k = Ok x -> Py.get v k default = Ok x.
Proof.
  destruct v; cbn; try discriminate.
  destruct (Py.lookup k fields); [auto | discriminate].
Qed.

Lemma getitem_Ok_dict v k x :
  Py.getitem v k = Ok x -> exists fields, v = JObj fields.
Proof.
  destruct v; cbn; try discriminate. eauto.
Qed.

(** C7. [get_driving_eta] asks the routing collaborator once; for an
    answer with a status it returns [None], and raises nothing, when the
    status is not ["OK"] and when the route list is absent, empty or
    otherwise false; for the status ["OK"] and a first route with a first
    leg it returns that leg's duration text. *)
Theorem get_driving_eta_outcomes (API_KEY : string) (world : World)
    (origin destination : json * json) (log : list request)
    (eta_res status : json) :
  world log (Directions origin destination "driving" API_KEY) = Ok eta_res ->
  Py.getitem eta_res "status" = Ok status ->
  let log1 := (log ++ [Directions origin destination "driving" API_KEY])%list in
  let outcome := get_driving_eta API_KEY world origin destination log in
  (Py.ne_str status "OK" = true -> outcome = (Ok JNull, log1))
  /\ (forall fields, eta_res = JObj fields ->
        Py.lookup "routes" fields = None
        \/ Py.lookup "routes" fields = Some (JArr [])
        \/ (exists routes, Py.lookup "routes" fields = Some routes
                           /\ Py.truthy routes = false) ->
        outcome = (Ok JNull, log1))
  /\ (Py.ne_str status "OK" = false ->
      forall route routes leg legs duration text,
        Py.getitem eta_res "routes" = Ok (JArr (route :: routes)) ->
        Py.getitem route "legs" = Ok (JArr (leg :: legs)) ->
        Py.getitem leg "duration" = Ok duration ->
        Py.getitem duration "text" = Ok text ->
        outcome = (Ok text, log1)).
Proof.
  intros Hw Hs log1 outcome.
  assert (Hrun : outcome
                 = (if Py.ne_str status "OK" then ret JNull
                    else bind (lift (Py.get eta_res "routes" JNull))
                           (fun routes =>
                              if negb (Py.truthy routes) then ret JNull
                              else lift (rbind (Py.getitem eta_res "routes") (fun routes =>
                                         rbind (Py.getindex routes 0) (fun route =>
                                         rbind (Py.getitem route "legs") (fun legs =>
                                         rbind (Py.getindex legs 0) (fun leg =>
                                         rbind (Py.getitem leg "duration") (fun duration =>
                                         Py.getitem duration "text")))))))) log1).
  { unfold outcome, get_driving_eta.
    unfold bind at 1, requests_get at 1. rewrite Hw.
    now rewrite Hs, bind_lift_Ok. }
  rewrite Hrun. repeat split.
  - now intros ->.
  - intros fields -> Hroutes.
    destruct (Py.ne_str status "OK"); [reflexivity |].
    cbn [Py.get].
    destruct Hroutes as [-> | [-> | (routes & -> & Hf)]];
      rewrite bind_lift_Ok; cbn; try reflexivity.
    now rewrite Hf.
  - intros -> route routes leg legs duration text Hr Hl Hd Ht.
    rewrite (getitem_Ok_get _ _ _ JNull Hr), bind_lift_Ok.
    cbn [Py.truthy negb]. rewrite Hr. cbn [rbind Py.getindex nth_error].
    rewrite Hl. cbn [rbind Py.getindex nth_error].
    rewrite Hd. cbn [rbind]. now rewrite Ht.
Qed.

(** C8. For a location that is not a coordinate literal the resolver is
    [get_location_coordinates]; for an answer with a status it raises the
    [ValueError] that carries the answer when the status is not ["OK"],
    raises no [ValueError] otherwise, and returns the coordinate of the
    first result when the status is ["OK"]. *)
Theorem get_location_coordinates_outcomes (API_KEY : string) (world : World)
    (location : string) (log : list request) (response status : json) :
  world log (Geocode location API_KEY) = Ok response ->
  Py.getitem response "status" = Ok status ->
  let log1 := (log ++ [Geocode location API_KEY])%list in
  let outcome := get_location_coordinates API_KEY world location log in
  (is_coordinate location = false ->
   resolve_location API_KEY world location log = outcome)
  /\ (Py.ne_str status "OK" = true ->
      outcome = (Raise (ValueError (Some response)), log1))
  /\ (Py.ne_str status "OK" = false ->
      (forall d, fst outcome <> Raise (ValueError d))
      /\ forall first others geometry latlng lat lng,
           Py.getitem response "results" = Ok (JArr (first :: others)) ->
           Py.getitem first "geometry" = Ok geometry ->
           Py.getitem geometry "location" = Ok latlng ->
           Py.getitem latlng "lat" = Ok lat ->
           Py.getitem latlng "lng" = Ok lng ->
           outcome = (Ok (lat, lng), log1)).
Proof.
  intros Hw Hs log1 outcome.
  assert (Hrun : outcome
                 = (if Py.ne_str status "OK"
                    then lift (Raise (ValueError (Some response)))
                    else
                      bind (lift (rbind (Py.getitem response "results") (fun results =>
                                  rbind (Py.getindex results 0) (fun first =>
                                  rbind (Py.getitem first "geometry") (fun geometry =>
                                  Py.getitem geometry "location")))))
                        (fun latlng =>
                           bind (lift (Py.getitem latlng "lat")) (fun lat =>
                           bind (lift (Py.getitem latlng "lng")) (fun lng =>
                           ret (lat, lng))))) log1).
  { unfold outcome, get_location_coordinates.
    unfold bind at 1, requests_get at 1. rewrite Hw.
    now rewrite Hs, bind_lift_Ok. }
  split; [| split].
  - intros Hc. unfold resolve_location. now rewrite Hc.
  - rewrite Hrun. now intros ->.
  - rewrite Hrun. intros ->. split.
    + intros d.
      destruct (Py.getitem response "results") as [results |] eqn:E1;
        [cbn [rbind] | cbn; intros H; injection H as ->;
                       exact (getitem_not_ValueError _ _ _ E1)].
      destruct (Py.getindex results 0) as [first |] eqn:E2;
        [cbn [rbind] | cbn; intros H; injection H as ->;
                       exact (getindex_not_ValueError _ _ _ E2)].
      destruct (Py.getitem first "geometry") as [geometry |] eqn:E3;
        [cbn [rbind] | cbn; intros H; injection H as ->;
                       exact (getitem_not_ValueError _ _ _ E3)].
      destruct (Py.getitem geometry "location") as [latlng |] eqn:E4;
        [rewrite bind_lift_Ok | cbn; intros H; injection H as ->;
                                exact (getitem_not_ValueError _ _ _ E4)].
      destruct (Py.getitem latlng "lat") as [lat |] eqn:E5;
        [rewrite bind_lift_Ok | cbn; intros H; injection H as ->;
                                exact (getitem_not_ValueError _ _ _ E5)].
      destruct (Py.getitem latlng "lng") as [lng |] eqn:E6;
        [rewrite bind_lift_Ok | cbn; intros H; injection H as ->;
                                exact (getitem_not_ValueError _ _ _ E6)].
      cbn. discriminate.
    + intros first others geometry latlng lat lng H1 H2 H3 H4 H5.
      rewrite H1. cbn [rbind Py.getindex nth_error].
      rewrite H2. cbn [rbind]. rewrite H3, bind_lift_Ok.
      rewrite H4, bind_lift_Ok. now rewrite H5, bind_lift_Ok.
Qed.

(** ** The claims about the pipeline *)



(** C6. When the nearby-search collaborator answers with a status other
    than ["OK"], [get_nearby_restaurants] returns the empty list: it
    raises nothing, and the nearby search is the last request it makes,
    so that no candidate is looked up. *)
Theorem non_success_status_gives_empty (API_KEY : string) (world : World)
    (location : string) (distance : Z) (min_rating : option R)
    (max_price : option Z) (search : option string) (max_results : Z)
    (get_eta : bool) (eta_threshold : option Z)
    (log log0 : list request) (lat lng res status : json) :
  resolve_location API_KEY world location log = (Ok (lat, lng), log0) ->
  world log0 (nearby_request API_KEY distance search lat lng) = Ok res ->
  Py.getitem res "status" = Ok status ->
  Py.ne_str status "OK" = true ->
  get_nearby_restaurants API_KEY world location distance min_rating max_price
    search max_results get_eta eta_threshold log
  = (Ok [], (log0 ++ [nearby_request API_KEY distance search lat lng])%list).
Proof.
  intros Hloc Hw Hs Hne. unfold get_nearby_restaurants.
  erewrite bind_eq by exact Hloc. cbv beta iota.
  rewrite (search_nearby_status _ _ _ _ _ _ _ _ _ _ _ _ _ _ Hw Hs).
  cbv zeta. now rewrite Hne.
Qed.

Lemma build_restaurant_fields details driving_eta rounded_distance x :
  build_restaurant details driving_eta rounded_distance = Ok x ->
  Py.get details "rating" (JStr "N/A") = Ok (Rating x)
  /\ Driving_ETA x = driving_eta
  /\ Haversine_Distance x = rounded_distance.
Proof.
  unfold build_restaurant. intros H.
  apply rbind_Ok in H as (name & _ & H).
  apply rbind_Ok in H as (rating & Hrating & H).
  apply rbind_Ok in H as (count & _ & H).
  apply rbind_Ok in H as (tier & _ & H).
  apply rbind_Ok in H as (price & _ & H).
  apply rbind_Ok in H as (address & _ & H).
  apply rbind_Ok in H as (phone & _ & H).
  apply rbind_Ok in H as (website & _ & H).
  apply rbind_Ok in H as (summary & _ & H).
  injection H as <-. cbn. auto.
Qed.


Lemma Req_dec_bool_true (x : R) : Py.Req_dec_bool x x = true.
Proof.
  unfold Py.Req_dec_bool. destruct (Req_dec_T x x); [reflexivity | contradiction].
Qed.

Lemma Rltb_true (x y : R) : (x < y)%R -> Py.Rltb x y = true.
Proof.
  intros H. unfold Py.Rltb. destruct (Rlt_dec x y); [reflexivity | contradiction].
Qed.

Lemma Rltb_false (x y : R) : (y <= x)%R -> Py.Rltb x y = false.
Proof.
  intros H. unfold Py.Rltb. destruct (Rlt_dec x y); [lra | reflexivity].
Qed.






(** C3. With [max_price = p], [p] a tier from 1 to 4, a candidate whose
    details have no price tier, or an integer tier above [p], is skipped
    by the loop body (the absent tier counts as 5), so the loop goes on
    with the same accumulator.  With [max_price] unset the price filter
    skips nothing: a candidate that passes the rating filter goes on to
    be enriched, whatever its price tier. *)
Theorem max_price_filter (API_KEY : string) (world : World)
    (min_rating : option R) (get_eta : bool) (eta_threshold : option Z)
    (lat lng c : json) (log : list request)
    (place_id details_res : json) (fields : list (string * json))
    (low : bool) :
  Py.getitem c "place_id" = Ok place_id ->
  world log (PlaceDetails place_id details_fields API_KEY) = Ok details_res ->
  Py.getitem details_res "result" = Ok (JObj fields) ->
  below_min_rating min_rating (JObj fields) = Ok low ->
  let log1 := (log ++ [PlaceDetails place_id details_fields API_KEY])%list in
  let body max_price :=
    visit API_KEY world min_rating max_price get_eta eta_threshold lat lng in
  (forall p, 1 <= p <= 4 ->
     (Py.lookup "price_level" fields = None
      \/ exists tier, Py.lookup "price_level" fields = Some (JInt tier)
                      /\ p < tier) ->
     above_max_price (Some p) (JObj fields) = Ok true
     /\ body (Some p) c log = (Ok None, log1)
     /\ forall N rest acc,
          Z.of_nat (length acc) <> N ->
          loop API_KEY world min_rating (Some p) N get_eta eta_threshold
               lat lng (c :: rest) acc log
          = loop API_KEY world min_rating (Some p) N get_eta eta_threshold
                 lat lng rest acc log1)
  /\ above_max_price None (JObj fields) = Ok false
  /\ (low = false ->
      body None c log
      = bind (enrich API_KEY world get_eta eta_threshold lat lng c (JObj fields))
             (fun r => ret (Some r)) log1).
Proof.
  intros H1 H2 H3 Hlow log1 body. split; [| split].
  - intros p Hp Htier.
    assert (Hdear : above_max_price (Some p) (JObj fields) = Ok true).
    { unfold above_max_price.
      replace (p =? 0) with false by (symmetry; apply Z.eqb_neq; lia).
      cbn [Py.get].
      destruct Htier as [-> | (tier & -> & Hgt)]; cbn.
      - f_equal. apply Z.ltb_lt. lia.
      - f_equal. now apply Z.ltb_lt. }
    assert (Hv : body (Some p) c log = (Ok None, log1)).
    { unfold body. rewrite (visit_details _ _ _ _ _ _ _ _ _ _ _ _ _ H1 H2 H3).
      cbv zeta. rewrite Hlow, Hdear. now destruct low. }
    repeat split; [exact Hdear | exact Hv |].
    intros N rest acc Hroom.
    exact (loop_visit _ _ _ _ _ _ _ _ _ _ _ _ _ _ _ Hroom Hv).
  - reflexivity.
  - intros ->. unfold body.
    rewrite (visit_details _ _ _ _ _ _ _ _ _ _ _ _ _ H1 H2 H3).
    cbv zeta. now rewrite Hlow.
Qed.

(** ** A criterion of zero *)

Section ZeroCriterion.

Variable API_KEY : string.
Variable world : World.
Variable get_eta : bool.
Variable eta_threshold : option Z.

Lemma bind_ext2 {A B} (m1 m2 : IO A) (k1 k2 : A -> IO B) log :
  m1 log = m2 log ->
  (forall a log1, k1 a log1 = k2 a log1) ->
  bind m1 k1 log = bind m2 k2 log.
Proof.
  intros Hm Hk. unfold bind. rewrite Hm.
  destruct (m2 log) as [[a | e] log1]; auto.
Qed.

(** Criteria that make both filters decide alike give the same run. *)
Lemma filters_ext (min_rating min_rating' : option R)
    (max_price max_price' : option Z) :
  (forall details,
      below_min_rating min_rating details
      = below_min_rating min_rating' details) ->
  (forall details,
      above_max_price max_price details
      = above_max_price max_price' details) ->
  forall location distance search max_results log,
    get_nearby_restaurants API_KEY world location distance min_rating
      max_price search max_results get_eta eta_threshold log
    = get_nearby_restaurants API_KEY world location distance min_rating'
        max_price' search max_results get_eta eta_threshold log.
Proof.
  intros Hr Hp location distance search max_results log.
  assert (Hvisit : forall lat lng c l,
             visit API_KEY world min_rating max_price get_eta eta_threshold
                   lat lng c l
             = visit API_KEY world min_rating' max_price' get_eta
                     eta_threshold lat lng c l).
  { intros lat lng c l. unfold visit.
    apply bind_ext. intros place_id l1.
    apply bind_ext. intros details_res l2.
    apply bind_ext. intros details l3.
    rewrite Hr. apply bind_ext. intros low l4.
    destruct low; [reflexivity |].
    rewrite Hp. reflexivity. }
  assert (Hloop : forall lat lng results acc l,
             loop API_KEY world min_rating max_price max_results get_eta
                  eta_threshold lat lng results acc l
             = loop API_KEY world min_rating' max_price' max_results get_eta
                    eta_threshold lat lng results acc l).
  { intros lat lng results.
    induction results as [| c rest IH]; intros acc l; cbn [loop];
      [reflexivity |].
    destruct (Z.of_nat (length acc) =? max_results); [reflexivity |].
    apply bind_ext2; [apply Hvisit |].
    intros o l1. apply IH. }
  unfold get_nearby_restaurants.
  apply bind_ext. intros [lat lng] l0.
  unfold search_nearby.
  apply bind_ext. intros res l1.
  apply bind_ext. intros status l2.
  destruct (Py.ne_str status "OK"); [reflexivity |].
  apply bind_ext. intros results l3. apply Hloop.
Qed.

End ZeroCriterion.

(** C10. A criterion of zero switches its filter off: with
    [min_rating = 0] the pipeline runs as with [min_rating] unset, and
    with [max_price = 0] as with [max_price] unset, whatever the
    collaborators answer; both filters then skip no candidate. *)
Theorem zero_criterion_disables_filter (API_KEY : string) (world : World)
    (location : string) (distance : Z) (search : option string)
    (max_results : Z) (get_eta : bool) (eta_threshold : option Z)
    (log : list request) :
  (forall max_price,
      get_nearby_restaurants API_KEY world location distance (Some 0%R)
        max_price search max_results get_eta eta_threshold log
      = get_nearby_restaurants API_KEY world location distance None
          max_price search max_results get_eta eta_threshold log)
  /\ (forall min_rating,
         get_nearby_restaurants API_KEY world location distance min_rating
           (Some 0) search max_results get_eta eta_threshold log
         = get_nearby_restaurants API_KEY world location distance min_rating
             None search max_results get_eta eta_threshold log)
  /\ (forall details,
         below_min_rating (Some 0%R) details = Ok false
         /\ above_max_price (Some 0) details = Ok false).
Proof.
  assert (Hr : forall details,
             below_min_rating (Some 0%R) details = below_min_rating None details).
  { intros details. unfold below_min_rating.
    now rewrite Req_dec_bool_true. }
  split; [| split].
  - intros max_price. now apply filters_ext.
  - intros min_rating. now apply filters_ext.
  - intros details. split; [now rewrite Hr | reflexivity].
Qed.

(** ** The travel-time lookup of an accepted candidate *)

Lemma get_driving_eta_log (API_KEY : string) (world : World)
    (origin destination : json * json) (log : list request) :
  snd (get_driving_eta API_KEY world origin destination log)
  = (log ++ [Directions origin destination "driving" API_KEY])%list.
Proof.
  unfold get_driving_eta, bind, requests_get.
  destruct (world log _) as [eta_res | e]; [| reflexivity].
  unfold lift at 1.
  destruct (Py.getitem eta_res "status") as [status | e]; [| reflexivity].
  destruct (Py.ne_str status "OK"); [reflexivity |].
  unfold lift at 1.
  destruct (Py.get eta_res "routes" JNull) as [routes | e]; [| reflexivity].
  destruct (negb (Py.truthy routes)); reflexivity.
Qed.

Lemma wants_eta_iff (get_eta : bool) (eta_threshold : option Z) (d : R) :
  wants_eta get_eta eta_threshold (Py.Finite d) = true
  <-> get_eta = true
      /\ (eta_threshold = None
          \/ eta_threshold = Some 0
          \/ exists t, eta_threshold = Some t /\ (IZR t < d)%R).
Proof.
  unfold wants_eta. cbn [Py.float_lt]. rewrite andb_true_iff.
  apply and_iff_compat_l.
  destruct eta_threshold as [t |].
  - rewrite orb_true_iff, Z.eqb_eq. split.
    + intros [-> | H]; [auto |].
      right. right. exists t. split; [reflexivity |].
      unfold Py.Rltb in H. destruct (Rlt_dec (IZR t) d); [assumption | discriminate].
    + intros [H | [H | (t' & H & Hlt)]]; try discriminate.
      * injection H as ->. auto.
      * injection H as ->. right. now apply Rltb_true.
  - split; auto.
Qed.

(** C4. For a candidate that passed the filters, with its coordinate
    read and its straight-line distance [d] computed: when [get_eta] is
    set and [eta_threshold] is unset, zero, or below [d], the candidate
    gets one request to the routing collaborator and the dictionary
    carries what [get_driving_eta] returns; otherwise no request is made
    and the dictionary's ETA is [None].  With [get_eta] set and a
    threshold of 1000, a distance of 1200 gets the lookup and a distance
    of 400 does not. *)
Theorem eta_lookup_condition (API_KEY : string) (world : World)
    (get_eta : bool) (eta_threshold : option Z) (lat lng : json)
    (c details : json) (log : list request)
    (geometry location destination_lat destination_lng : json) (d : R) :
  Py.getitem c "geometry" = Ok geometry ->
  Py.getitem geometry "location" = Ok location ->
  Py.getitem location "lat" = Ok destination_lat ->
  Py.getitem location "lng" = Ok destination_lng ->
  haversine_distance (lat, lng) (destination_lat, destination_lng)
  = Ok (Py.Finite d) ->
  let lookup :=
    get_eta = true
    /\ (eta_threshold = None
        \/ eta_threshold = Some 0
        \/ exists t, eta_threshold = Some t /\ (IZR t < d)%R) in
  let rounded_distance := Py.round (d / 10) * 10 in
  let outcome :=
    enrich API_KEY world get_eta eta_threshold lat lng c details log in
  (lookup ->
   outcome
   = bind (get_driving_eta API_KEY world (lat, lng)
             (destination_lat, destination_lng))
          (fun driving_eta =>
             lift (build_restaurant details driving_eta rounded_distance))
          log
   /\ snd outcome
      = (log ++ [Directions (lat, lng) (destination_lat, destination_lng)
                   "driving" API_KEY])%list)
  /\ (~ lookup ->
      outcome = (build_restaurant details JNull rounded_distance, log)
      /\ forall x, fst outcome = Ok x -> Driving_ETA x = JNull)
  /\ (get_eta = true -> eta_threshold = Some 1000 ->
      (d = 1200%R ->
       snd outcome
       = (log ++ [Directions (lat, lng) (destination_lat, destination_lng)
                    "driving" API_KEY])%list)
      /\ (d = 400%R ->
          snd outcome = log
          /\ forall x, fst outcome = Ok x -> Driving_ETA x = JNull)).
Proof.
  intros Hg Hl Hlat Hlng Hd lookup rounded_distance outcome.
  assert (Hrun : outcome
                 = bind (if wants_eta get_eta eta_threshold (Py.Finite d)
                         then get_driving_eta API_KEY world (lat, lng)
                                (destination_lat, destination_lng)
                         else ret JNull)
                        (fun driving_eta =>
                           lift (build_restaurant details driving_eta
                                   rounded_distance))
                        log).
  { unfold outcome, enrich.
    rewrite Hg. cbn [rbind]. rewrite Hl. cbn [rbind].
    rewrite Hlat. cbn [rbind]. rewrite Hlng. cbn [rbind].
    rewrite bind_lift_Ok. rewrite Hd, bind_lift_Ok.
    cbn [Py.float_div Py.round_float rbind]. rewrite bind_lift_Ok.
    reflexivity. }
  assert (Hyes : lookup ->
                 outcome
                 = bind (get_driving_eta API_KEY world (lat, lng)
                           (destination_lat, destination_lng))
                        (fun driving_eta =>
                           lift (build_restaurant details driving_eta
                                   rounded_distance))
                        log
                 /\ snd outcome
                    = (log ++ [Directions (lat, lng)
                                 (destination_lat, destination_lng)
                                 "driving" API_KEY])%list).
  { intros Hlookup. apply wants_eta_iff in Hlookup.
    rewrite Hrun, Hlookup. split; [reflexivity |].
    unfold bind.
    pose proof (get_driving_eta_log API_KEY world (lat, lng)
                  (destination_lat, destination_lng) log) as Hlog.
    destruct (get_driving_eta API_KEY world (lat, lng)
                (destination_lat, destination_lng) log) as [[eta | e] log1];
      cbn in Hlog |- *; now subst log1. }
  assert (Hno : ~ lookup ->
                outcome = (build_restaurant details JNull rounded_distance, log)
                /\ forall x, fst outcome = Ok x -> Driving_ETA x = JNull).
  { intros Hnot.
    assert (Hw : wants_eta get_eta eta_threshold (Py.Finite d) = false).
    { destruct (wants_eta get_eta eta_threshold (Py.Finite d)) eqn:E;
        [| reflexivity].
      apply wants_eta_iff in E. contradiction. }
    rewrite Hrun, Hw. split; [reflexivity |].
    intros x Hx. cbn in Hx.
    now apply build_restaurant_fields in Hx as (_ & Heta & _). }
  split; [exact Hyes | split; [exact Hno |]].
  intros Hflag Hthreshold. split; intros Hd'.
  - apply Hyes. split; [assumption |].
    right. right. exists 1000. split; [assumption | lra].
  - assert (Hnot : ~ lookup).
    { intros [_ [H | [H | (t & H & Hlt)]]]; rewrite Hthreshold in H;
        try discriminate.
      injection H as <-. lra. }
    destruct (Hno Hnot) as [E Heta]. split; [now rewrite E | exact Heta].
Qed.

(** ** Strings: classes, splitting, stripping, digits *)

Section Strings.

Import Regex Chars.

Lemma every_ascii_spec (P : ascii -> bool) :
  every_ascii P = true -> forall c, P c = true.
Proof.
  unfold every_ascii. rewrite forallb_forall. intros H c.
  rewrite <- (ascii_nat_embedding c). apply H.
  apply in_seq. pose proof (nat_ascii_bounded c). lia.
Qed.

Lemma all_chars_app (P : ascii -> bool) (s1 s2 : string) :
  all_chars P (s1 ++ s2) = all_chars P s1 && all_chars P s2.
Proof.
  induction s1 as [| c s1 IH]; cbn; [reflexivity |].
  now rewrite IH, andb_assoc.
Qed.

Lemma all_chars_impl (P Q : ascii -> bool) (s : string) :
  (forall c, P c = true -> Q c = true) ->
  all_chars P s = true -> all_chars Q s = true.
Proof.
  intros HPQ. induction s as [| c s IH]; cbn; [reflexivity |].
  rewrite !andb_true_iff. intros [H1 H2]. auto.
Qed.

(** A word of [r] is made of characters of the classes of [r]. *)
Lemma Matches_within (P : ascii -> bool) (r : regex) (s : string) :
  Matches r s -> classes_within P r -> all_chars P s = true.
Proof.
  induction 1; cbn; intros HP; try reflexivity.
  - rewrite (HP c H). reflexivity.
  - destruct HP as [H1 H2]. rewrite all_chars_app, IHMatches1, IHMatches2; auto.
  - destruct HP as [H1 H2]. auto.
  - destruct HP as [H1 H2]. auto.
  - rewrite all_chars_app, IHMatches1, IHMatches2; auto.
Qed.

Lemma Matches_star_class (p : ascii -> bool) (s : string) :
  Matches (Star (Class p)) s -> all_chars p s = true.
Proof.
  intros H. apply (Matches_within p _ _ H). cbn. auto.
Qed.

Lemma split_no_sep (sep : ascii) (s : string) :
  all_chars (fun c => negb (Ascii.eqb c sep)) s = true -> split sep s = [s].
Proof.
  induction s as [| c s IH]; cbn; [reflexivity |].
  rewrite andb_true_iff. intros [Hc Hs].
  apply negb_true_iff in Hc. rewrite Hc, (IH Hs). reflexivity.
Qed.

Lemma split_once (sep : ascii) (a b : string) :
  all_chars (fun c => negb (Ascii.eqb c sep)) a = true ->
  all_chars (fun c => negb (Ascii.eqb c sep)) b = true ->
  split sep (a ++ String sep b) = [a; b].
Proof.
  intros Ha Hb. induction a as [| c a IH]; cbn.
  - now rewrite Ascii.eqb_refl, (split_no_sep _ _ Hb).
  - cbn in Ha. apply andb_true_iff in Ha as [Hc Ha].
    apply negb_true_iff in Hc. rewrite Hc, (IH Ha). reflexivity.
Qed.

Import FloatLiteral.

Lemma append_nil_r (s : string) : (s ++ "")%string = s.
Proof.
  induction s as [| c s IH]; cbn; [reflexivity | now rewrite IH].
Qed.

Lemma append_assoc (s1 s2 s3 : string) :
  ((s1 ++ s2) ++ s3)%string = (s1 ++ (s2 ++ s3))%string.
Proof.
  induction s1 as [| c s1 IH]; cbn; [reflexivity | now rewrite IH].
Qed.

Lemma reverse_app (s1 s2 : string) :
  reverse (s1 ++ s2) = (reverse s2 ++ reverse s1)%string.
Proof.
  induction s1 as [| c s1 IH]; cbn.
  - now rewrite append_nil_r.
  - now rewrite IH, append_assoc.
Qed.

Lemma reverse_involutive (s : string) : reverse (reverse s) = s.
Proof.
  induction s as [| c s IH]; cbn; [reflexivity |].
  now rewrite reverse_app, IH.
Qed.

Lemma all_chars_reverse (P : ascii -> bool) (s : string) :
  all_chars P (reverse s) = all_chars P s.
Proof.
  induction s as [| c s IH]; cbn; [reflexivity |].
  rewrite all_chars_app, IH. cbn. rewrite andb_true_r. apply andb_comm.
Qed.

Lemma reverse_nonempty (s : string) : s <> ""%string -> reverse s <> ""%string.
Proof.
  intros Hs E. apply Hs. rewrite <- (reverse_involutive s), E. reflexivity.
Qed.

(** [lstrip] stops at a character that is no white space. *)
Lemma lstrip_spaces (ws s t : string) :
  all_chars is_float_space ws = true ->
  all_chars not_space s = true ->
  s <> ""%string ->
  lstrip (ws ++ s ++ t) = (s ++ t)%string.
Proof.
  intros Hws Hs Hne. induction ws as [| c ws IH]; cbn.
  - destruct s as [| c s]; [contradiction |]. cbn.
    cbn in Hs. apply andb_true_iff in Hs as [Hc _].
    unfold not_space in Hc. apply negb_true_iff in Hc. now rewrite Hc.
  - cbn in Hws. apply andb_true_iff in Hws as [Hc Hws].
    rewrite Hc. auto.
Qed.

(** [strip] removes the white space around a word that has none. *)
Lemma strip_spaces (ws1 ws2 s : string) :
  all_chars is_float_space ws1 = true ->
  all_chars is_float_space ws2 = true ->
  all_chars not_space s = true ->
  s <> ""%string ->
  strip (ws1 ++ s ++ ws2) = s.
Proof.
  intros H1 H2 Hs Hne. unfold strip, rstrip.
  rewrite lstrip_spaces by assumption.
  rewrite reverse_app.
  rewrite <- (append_nil_r (reverse s)) at 1.
  rewrite lstrip_spaces.
  - rewrite append_nil_r. apply reverse_involutive.
  - now rewrite all_chars_reverse.
  - now rewrite all_chars_reverse.
  - now apply reverse_nonempty.
Qed.

Lemma digits_numeral (ds rest : string) :
  all_chars is_digit ds = true ->
  match rest with
  | EmptyString => True
  | String c _ => is_digit c = false /\ Ascii.eqb c "_" = false
  end ->
  forall acc n,
    digits acc n (ds ++ rest) = (numeral acc ds, (n + String.length ds)%nat, rest).
Proof.
  intros Hds Hrest. induction ds as [| c ds IH]; intros acc n; cbn.
  - rewrite Nat.add_0_r. destruct rest as [| c rest]; [reflexivity |].
    destruct Hrest as [H1 H2]. cbn [digits]. now rewrite H1, H2.
  - cbn in Hds. apply andb_true_iff in Hds as [Hc Hds].
    rewrite Hc, (IH Hds). f_equal. f_equal. lia.
Qed.

Lemma digit_value_bounds (c : ascii) :
  is_digit c = true -> 0 <= digit_value c <= 9.
Proof.
  unfold is_digit, digit_value. rewrite andb_true_iff, !Nat.leb_le. lia.
Qed.

Lemma numeral_bounds (ds : string) :
  all_chars is_digit ds = true ->
  forall acc,
    acc * 10 ^ Z.of_nat (String.length ds) <= numeral acc ds
    /\ numeral acc ds < (acc + 1) * 10 ^ Z.of_nat (String.length ds).
Proof.
  induction ds as [| c ds IH]; intros Hds acc.
  - cbn. lia.
  - cbn [all_chars] in Hds. apply andb_true_iff in Hds as [Hc Hds].
    apply digit_value_bounds in Hc.
    specialize (IH Hds (10 * acc + digit_value c)).
    cbn [numeral String.length]. rewrite Nat2Z.inj_succ, Z.pow_succ_r by lia.
    assert (0 < 10 ^ Z.of_nat (String.length ds)) by (apply Z.pow_pos_nonneg; lia).
    nia.
Qed.

Lemma numeral_zeros (ds : string) :
  all_chars (Ascii.eqb "0") ds = true -> numeral 0 ds = 0.
Proof.
  induction ds as [| c ds IH]; cbn [all_chars numeral]; [reflexivity |].
  rewrite andb_true_iff. intros [Hc Hds].
  apply Ascii.eqb_eq in Hc. subst c. apply (IH Hds).
Qed.

End Strings.

(** ** [float] reads the literals of the coordinate pattern *)

(** The reader on a few spellings. *)
Example parse_examples :
  FloatLiteral.parse " 1.5 " = Some (FloatLiteral.Decimal false 1 5 1 0)
  /\ FloatLiteral.parse "-74.0060"
     = Some (FloatLiteral.Decimal true 74 60 4 0)
  /\ FloatLiteral.parse "1." = Some (FloatLiteral.Decimal false 1 0 0 0)
  /\ FloatLiteral.parse ".5" = Some (FloatLiteral.Decimal false 0 5 1 0)
  /\ FloatLiteral.parse "+1_0.5e-1_0"
     = Some (FloatLiteral.Decimal false 10 5 1 (-10))
  /\ FloatLiteral.parse "." = None
  /\ FloatLiteral.parse "1__0" = None
  /\ FloatLiteral.parse "_1" = None
  /\ FloatLiteral.parse "1_" = None
  /\ FloatLiteral.parse "1e" = None
  /\ FloatLiteral.parse "+-1" = None
  /\ FloatLiteral.parse "1 2" = None
  /\ FloatLiteral.parse "N/A" = None
  /\ FloatLiteral.parse (String "028" "2") = None
  /\ FloatLiteral.parse (String "160" "2")
     = Some (FloatLiteral.Decimal false 2 0 0 0).
Proof.
  vm_compute. repeat split.
Qed.

Section Literals.

Import Chars FloatLiteral.

Lemma numeric_not_space (c : ascii) : numeric_char c = true -> not_space c = true.
Proof.
  revert c. 
  assert (H : forall c, implb (numeric_char c) (not_space c) = true)
    by (apply every_ascii_spec; vm_compute; reflexivity).
  intros c Hc. specialize (H c). now rewrite Hc in H.
Qed.

Lemma digit_numeric (c : ascii) : is_digit c = true -> numeric_char c = true.
Proof.
  unfold numeric_char. now intros ->.
Qed.

Lemma digit_not_sign (c : ascii) :
  is_digit c = true -> Ascii.eqb c "-" = false /\ Ascii.eqb c "+" = false.
Proof.
  assert (H : forall c, implb (is_digit c)
                          (negb (Ascii.eqb c "-") && negb (Ascii.eqb c "+"))
                        = true)
    by (apply every_ascii_spec; vm_compute; reflexivity).
  intros Hc. specialize (H c). rewrite Hc in H. cbn [implb] in H.
  apply andb_true_iff in H as [H1 H2].
  now rewrite negb_true_iff in H1, H2.
Qed.

Lemma literal_numeric (sg ds : string) (fs : option string) :
  well_formed_literal sg ds fs ->
  all_chars numeric_char (literal sg ds fs) = true.
Proof.
  intros (Hsg & (_ & Hds) & Hfs). unfold literal.
  rewrite !all_chars_app.
  rewrite (all_chars_impl _ _ _ digit_numeric Hds).
  assert (Hs : all_chars numeric_char sg = true)
    by (destruct Hsg as [-> | [-> | ->]]; reflexivity).
  rewrite Hs. cbn [andb].
  destruct fs as [f |]; [| reflexivity].
  destruct Hfs as (_ & Hf). cbn [fraction_string all_chars].
  now rewrite (all_chars_impl _ _ _ digit_numeric Hf).
Qed.

Lemma literal_nonempty (sg ds : string) (fs : option string) :
  well_formed_literal sg ds fs -> literal sg ds fs <> ""%string.
Proof.
  intros (_ & (Hne & _) & _) E. unfold literal in E.
  apply append_empty in E as [_ E]. apply append_empty in E as [E _].
  contradiction.
Qed.

Lemma sign_literal (sg ds : string) (fs : option string) :
  well_formed_literal sg ds fs ->
  sign (literal sg ds fs)
  = (String.eqb sg "-", (ds ++ fraction_string fs)%string).
Proof.
  intros (Hsg & (Hne & Hds) & _). unfold literal.
  destruct Hsg as [-> | [-> | ->]]; [| reflexivity | reflexivity].
  destruct ds as [| c ds]; [contradiction |].
  cbn [all_chars] in Hds. apply andb_true_iff in Hds as [Hc _].
  apply digit_not_sign in Hc as [H1 H2].
  cbn [append sign]. now rewrite H1, H2.
Qed.

Lemma parse_literal (ws1 ws2 sg ds : string) (fs : option string) :
  all_chars is_float_space ws1 = true ->
  all_chars is_float_space ws2 = true ->
  well_formed_literal sg ds fs ->
  parse (ws1 ++ literal sg ds fs ++ ws2) = Some (literal_decimal sg ds fs).
Proof.
  intros H1 H2 Hwf. unfold parse.
  rewrite strip_spaces; auto.
  2:{ apply (all_chars_impl numeric_char); [apply numeric_not_space |].
      now apply literal_numeric. }
  2:{ now apply literal_nonempty. }
  rewrite (sign_literal _ _ _ Hwf).
  destruct Hwf as (_ & (Hne & Hds) & Hfs).
  rewrite digits_numeral; [| assumption | now destruct fs].
  assert (Hfrac : parse_fraction (fraction_string fs)
                  = (match fs with Some f => numeral 0 f | None => 0 end,
                     match fs with Some f => String.length f | None => O end,
                     ""%string)).
  { destruct fs as [f |]; [| reflexivity].
    destruct Hfs as (_ & Hf). cbn [fraction_string parse_fraction].
    rewrite Ascii.eqb_refl.
    rewrite <- (append_nil_r f) at 1.
    now rewrite digits_numeral. }
  rewrite Hfrac.
  destruct ds as [| c ds]; [contradiction |].
  cbn [String.length Nat.add Nat.eqb parse_exponent]. reflexivity.
Qed.

End Literals.

(** ** The words of the coordinate pattern *)

Section Shapes.

Import Regex Chars Pattern.

Lemma Matches_chr (a : ascii) (s : string) :
  Matches (chr a) s -> s = String a "".
Proof.
  unfold chr. intros H. inversion H; subst.
  match goal with E : Ascii.eqb _ _ = true |- _ => apply Ascii.eqb_eq in E end.
  now subst.
Qed.

Lemma Matches_lit (w s : string) : Matches (lit w) s -> s = w.
Proof.
  revert s. induction w as [| a w IH]; intros s H; cbn [lit] in H.
  - now inversion H.
  - inversion H; subst.
    match goal with
    | H1 : Matches (chr _) _, H2 : Matches (lit _) _ |- _ =>
        apply Matches_chr in H1; apply IH in H2; now subst
    end.
Qed.

Lemma Matches_range (lo hi : ascii) (s : string) :
  Matches (range lo hi) s ->
  exists c, s = String c ""
            /\ (nat_of_ascii lo <= code c <= nat_of_ascii hi)%nat.
Proof.
  unfold range. intros H. inversion H; subst.
  match goal with E : _ && _ = true |- _ =>
    apply andb_true_iff in E as [E1 E2];
    apply Nat.leb_le in E1; apply Nat.leb_le in E2
  end.
  eexists. split; [reflexivity |]. unfold code. lia.
Qed.

Lemma Matches_digit (s : string) :
  Matches digit s -> exists c, s = String c "" /\ is_digit c = true.
Proof.
  unfold digit. intros H. inversion H; subst. eauto.
Qed.

Lemma Matches_opt (r : regex) (s : string) :
  Matches (Opt r) s -> Matches r s \/ s = ""%string.
Proof.
  unfold Opt. intros H. inversion H; subst; [now left |].
  right. match goal with E : Matches Eps _ |- _ => now inversion E end.
Qed.

Lemma Matches_cat (r1 r2 : regex) (s : string) :
  Matches (Cat r1 r2) s ->
  exists s1 s2, s = (s1 ++ s2)%string /\ Matches r1 s1 /\ Matches r2 s2.
Proof.
  intros H. inversion H; subst. eauto.
Qed.

Lemma Matches_alt (r1 r2 : regex) (s : string) :
  Matches (Alt r1 r2) s -> Matches r1 s \/ Matches r2 s.
Proof.
  intros H. inversion H; subst; auto.
Qed.

Lemma Matches_plus_class (p : ascii -> bool) (s : string) :
  Matches (Plus (Class p)) s -> s <> ""%string /\ all_chars p s = true.
Proof.
  unfold Plus. intros H.
  apply Matches_cat in H as (s1 & s2 & -> & H1 & H2).
  inversion H1; subst. apply Matches_star_class in H2.
  split; [discriminate |].
  cbn [append all_chars].
  match goal with E : p _ = true |- _ => now rewrite E end.
Qed.

Lemma sign_shape (s : string) :
  Matches (Opt sign) s -> s = ""%string \/ s = "+"%string \/ s = "-"%string.
Proof.
  intros H. apply Matches_opt in H as [H | ->]; [| auto].
  unfold sign in H. apply Matches_alt in H as [H | H];
    apply Matches_chr in H; auto.
Qed.

Lemma fraction_shape (s : string) :
  Matches fraction s ->
  exists fs, s = fraction_string fs
             /\ match fs with Some f => digit_string f | None => True end.
Proof.
  unfold fraction. intros H.
  apply Matches_opt in H as [H | ->]; [| now exists None].
  apply Matches_cat in H as (s1 & s2 & -> & H1 & H2).
  apply Matches_chr in H1 as ->.
  apply Matches_plus_class in H2.
  now exists (Some s2).
Qed.

Lemma zeros_shape (s : string) :
  Matches zeros s ->
  exists fs, s = fraction_string fs
             /\ match fs with Some f => digit_string f | None => True end
             /\ zero_fraction fs.
Proof.
  unfold zeros. intros H.
  apply Matches_opt in H as [H | ->]; [| now exists None].
  apply Matches_cat in H as (s1 & s2 & -> & H1 & H2).
  apply Matches_chr in H1 as ->.
  apply Matches_plus_class in H2 as [Hne Hz].
  exists (Some s2). repeat split; try assumption.
  - apply (all_chars_impl (Ascii.eqb "0")); [| assumption].
    intros c Hc. apply Ascii.eqb_eq in Hc. now subst c.
  - now apply numeral_zeros.
Qed.

Lemma is_digit_code (c : ascii) :
  is_digit c = true <-> (48 <= code c <= 57)%nat.
Proof.
  unfold is_digit. rewrite andb_true_iff, !Nat.leb_le. reflexivity.
Qed.

(** The integral part of a latitude: one digit, or two of which the
    first is from 1 to 8. *)
Lemma latitude_digits (s : string) :
  Matches (Cat (Opt (range "1" "8")) digit) s ->
  digit_string s /\ 0 <= numeral 0 s <= 89.
Proof.
  intros H. apply Matches_cat in H as (s1 & s2 & -> & H1 & H2).
  apply Matches_digit in H2 as (d & -> & Hd).
  pose proof (proj1 (is_digit_code d) Hd) as Hd'.
  apply Matches_opt in H1 as [H1 | ->].
  - apply Matches_range in H1 as (c & -> & Hc).
    change (nat_of_ascii "1") with 49%nat in Hc.
    change (nat_of_ascii "8") with 56%nat in Hc.
    assert (Hcd : is_digit c = true) by (apply is_digit_code; lia).
    cbn [append]. split.
    + split; [discriminate |]. cbn [all_chars]. now rewrite Hcd, Hd.
    + cbn [numeral]. unfold digit_value. lia.
  - cbn [append]. split.
    + split; [discriminate |]. cbn [all_chars]. now rewrite Hd.
    + cbn [numeral]. unfold digit_value. lia.
Qed.

(** The integral part of a longitude below 180. *)
Lemma longitude_digits (s : string) :
  Matches (Alt (Cat (chr "1") (Cat (range "0" "7") digit))
               (Cat (Opt (range "1" "9")) digit)) s ->
  digit_string s /\ 0 <= numeral 0 s <= 179.
Proof.
  intros H. apply Matches_alt in H as [H | H].
  - apply Matches_cat in H as (s1 & s2 & -> & H1 & H2).
    apply Matches_chr in H1 as ->.
    apply Matches_cat in H2 as (s3 & s4 & -> & H2 & H3).
    apply Matches_range in H2 as (c & -> & Hc).
    apply Matches_digit in H3 as (d & -> & Hd).
    pose proof (proj1 (is_digit_code d) Hd) as Hd'.
    change (nat_of_ascii "0") with 48%nat in Hc.
    change (nat_of_ascii "7") with 55%nat in Hc.
    assert (Hcd : is_digit c = true) by (apply is_digit_code; lia).
    cbn [append]. split.
    + split; [discriminate |]. cbn [all_chars]. now rewrite Hcd, Hd.
    + cbn [numeral]. unfold digit_value.
      change (code "1") with 49%nat. lia.
  - apply Matches_cat in H as (s1 & s2 & -> & H1 & H2).
    apply Matches_digit in H2 as (d & -> & Hd).
    pose proof (proj1 (is_digit_code d) Hd) as Hd'.
    apply Matches_opt in H1 as [H1 | ->].
    + apply Matches_range in H1 as (c & -> & Hc).
      change (nat_of_ascii "1") with 49%nat in Hc.
      change (nat_of_ascii "9") with 57%nat in Hc.
      assert (Hcd : is_digit c = true) by (apply is_digit_code; lia).
      cbn [append]. split.
      * split; [discriminate |]. cbn [all_chars]. now rewrite Hcd, Hd.
      * cbn [numeral]. unfold digit_value. lia.
    + cbn [append]. split.
      * split; [discriminate |]. cbn [all_chars]. now rewrite Hd.
      * cbn [numeral]. unfold digit_value. lia.
Qed.

Lemma latitude_shape (s : string) :
  Matches latitude s ->
  exists sg ds fs,
    s = literal sg ds fs
    /\ well_formed_literal sg ds fs
    /\ (0 <= numeral 0 ds <= 89
        \/ (numeral 0 ds = 90 /\ zero_fraction fs)).
Proof.
  unfold latitude. intros H.
  apply Matches_cat in H as (sg & body & -> & Hsg & H).
  apply sign_shape in Hsg.
  apply Matches_alt in H as [H | H].
  - apply Matches_cat in H as (o & rest & -> & Ho & H).
    apply Matches_cat in H as (d & f & -> & Hd & Hf).
    apply fraction_shape in Hf as (fs & -> & Hfs).
    assert (Hds : Matches (Cat (Opt (range "1" "8")) digit) (o ++ d))
      by (constructor; assumption).
    apply latitude_digits in Hds as [Hds Hb].
    exists sg, (o ++ d)%string, fs. unfold literal, well_formed_literal.
    rewrite append_assoc. auto.
  - apply Matches_cat in H as (w & z & -> & Hw & Hz).
    apply Matches_lit in Hw as ->.
    apply zeros_shape in Hz as (fs & -> & Hfs & Hzero).
    exists sg, "90"%string, fs. unfold literal, well_formed_literal.
    repeat split; auto; try discriminate.
Qed.

Lemma longitude_shape (s : string) :
  Matches longitude s ->
  exists sg ds fs,
    s = literal sg ds fs
    /\ well_formed_literal sg ds fs
    /\ (0 <= numeral 0 ds <= 179
        \/ (numeral 0 ds = 180 /\ zero_fraction fs)).
Proof.
  unfold longitude. intros H.
  apply Matches_cat in H as (sg & body & -> & Hsg & H).
  apply sign_shape in Hsg.
  apply Matches_alt in H as [H | H].
  - apply Matches_cat in H as (w & z & -> & Hw & Hz).
    apply Matches_lit in Hw as ->.
    apply zeros_shape in Hz as (fs & -> & Hfs & Hzero).
    exists sg, "180"%string, fs. unfold literal, well_formed_literal.
    repeat split; auto; try discriminate.
  - apply Matches_cat in H as (ds & f & -> & Hds & Hf).
    apply fraction_shape in Hf as (fs & -> & Hfs).
    apply longitude_digits in Hds as [Hds Hb].
    exists sg, ds, fs. unfold literal, well_formed_literal. auto.
Qed.

End Shapes.

(** ** The location resolver on coordinate literals *)

Section Resolver.

Import Regex Chars Pattern.

Lemma space_not_comma (c : ascii) : is_space c = true -> not_comma c = true.
Proof.
  assert (H : forall c, implb (is_space c) (not_comma c) = true)
    by (apply every_ascii_spec; vm_compute; reflexivity).
  intros Hc. specialize (H c). now rewrite Hc in H.
Qed.

Lemma float_space_not_comma (c : ascii) :
  is_float_space c = true -> not_comma c = true.
Proof.
  assert (H : forall c, implb (is_float_space c) (not_comma c) = true)
    by (apply every_ascii_spec; vm_compute; reflexivity).
  intros Hc. specialize (H c). now rewrite Hc in H.
Qed.

Lemma numeric_not_comma (c : ascii) : numeric_char c = true -> not_comma c = true.
Proof.
  assert (H : forall c, implb (numeric_char c) (not_comma c) = true)
    by (apply every_ascii_spec; vm_compute; reflexivity).
  intros Hc. specialize (H c). now rewrite Hc in H.
Qed.

Lemma fraction_bounds (fs : option string) :
  match fs with Some f => digit_string f | None => True end ->
  let fp := match fs with Some f => numeral 0 f | None => 0 end in
  let nf := match fs with Some f => String.length f | None => O end in
  (0 <= IZR fp / 10 ^ nf < 1)%R
  /\ (zero_fraction fs -> (IZR fp / 10 ^ nf = 0)%R).
Proof.
  destruct fs as [f |]; cbn zeta.
  - intros (_ & Hf).
    destruct (numeral_bounds f Hf 0) as [Hlo Hhi].
    rewrite Z.mul_0_l in Hlo. rewrite Z.add_0_l, Z.mul_1_l in Hhi.
    assert (Hpow : (10 ^ String.length f)%R
                   = IZR (10 ^ Z.of_nat (String.length f)))
      by (now rewrite <- pow_IZR).
    assert (Hpos : (0 < 10 ^ String.length f)%R)
      by (apply pow_lt; lra).
    apply IZR_le in Hlo. apply IZR_lt in Hhi. rewrite <- Hpow in Hhi.
    split.
    + split.
      * apply Rmult_le_pos; [assumption |].
        left. now apply Rinv_0_lt_compat.
      * apply (Rmult_lt_reg_r (10 ^ String.length f)); [assumption |].
        unfold Rdiv. rewrite Rmult_assoc, Rinv_l by lra. lra.
    + unfold zero_fraction. intros ->. unfold Rdiv. apply Rmult_0_l.
  - intros _. cbn [pow]. split; [lra | intros _; lra].
Qed.

(** The number a well-formed literal spells, given a bound on its
    integral part that the fraction does not exceed. *)
Lemma literal_value_bounds (sg ds : string) (fs : option string) (B : Z) :
  well_formed_literal sg ds fs ->
  (0 <= numeral 0 ds <= B - 1 \/ (numeral 0 ds = B /\ zero_fraction fs)) ->
  0 <= B ->
  (- IZR B <= FloatLiteral.value (literal_decimal sg ds fs) <= IZR B)%R.
Proof.
  intros (_ & _ & Hfs) Hb HB.
  destruct (fraction_bounds fs Hfs) as [Hfrac Hzero].
  unfold FloatLiteral.value, literal_decimal.
  cbn [FloatLiteral.negative FloatLiteral.integral FloatLiteral.fraction
       FloatLiteral.fraction_digits FloatLiteral.exponent powerRZ].
  set (x := (IZR (match fs with Some f => numeral 0 f | None => 0 end)
             / 10 ^ match fs with Some f => String.length f | None => O end)%R)
    in *.
  assert (Hx : (0 <= IZR (numeral 0 ds) + x <= IZR B)%R).
  { destruct Hb as [[Hlo Hhi] | [-> Hz]].
    - apply IZR_le in Hlo. apply IZR_le in Hhi.
      rewrite minus_IZR in Hhi. lra.
    - rewrite (Hzero Hz). apply IZR_le in HB. lra. }
  destruct (String.eqb sg "-"); lra.
Qed.

(** The words of the pattern: a latitude, a comma, white space, a
    longitude, and at most a final line feed. *)
Lemma pattern_shape (s : string) :
  Matches pattern s ->
  exists a ws b nl,
    s = (a ++ String comma (ws ++ b ++ nl))%string
    /\ Matches latitude a
    /\ all_chars is_space ws = true
    /\ Matches longitude b
    /\ all_chars is_float_space nl = true.
Proof.
  unfold pattern. intros H.
  apply Matches_cat in H as (a & r1 & -> & Ha & H).
  apply Matches_cat in H as (c & r2 & -> & Hc & H).
  apply Matches_chr in Hc as ->.
  apply Matches_cat in H as (ws & r3 & -> & Hws & H).
  apply Matches_cat in H as (b & nl & -> & Hb & Hnl).
  apply Matches_star_class in Hws.
  exists a, ws, b, nl. repeat split; try assumption.
  unfold dollar in Hnl. apply Matches_opt in Hnl as [Hnl | ->];
    [| reflexivity].
  apply Matches_chr in Hnl as ->. reflexivity.
Qed.

Lemma all_chars_both (P Q S : ascii -> bool) (s : string) :
  (forall c, P c = true -> Q c = true -> S c = true) ->
  all_chars P s = true -> all_chars Q s = true -> all_chars S s = true.
Proof.
  intros H. induction s as [| c s IH]; cbn; [reflexivity |].
  rewrite !andb_true_iff. intros [HP HPs] [HQ HQs]. auto.
Qed.

Lemma space_float_space (c : ascii) :
  is_space c = true -> not_separator c = true -> is_float_space c = true.
Proof.
  unfold is_space, not_separator. intros H1 H2.
  apply negb_true_iff in H2. rewrite H2, orb_false_r in H1. exact H1.
Qed.

(** Rounding to binary64 *)

Lemma round_le (y : R) (M : Z) : (y <= IZR M)%R -> Py.round y <= M.
Proof.
  intros Hy. unfold Py.round. destruct (base_Int_part y) as [H1 H2].
  set (f := Int_part y) in *.
  assert (Hf : f <= M) by (apply le_IZR; lra).
  destruct (Z.eq_dec f M) as [E | E].
  - assert (Hd : (y - IZR f = 0)%R) by (rewrite E in *; lra).
    rewrite Hd. destruct (Rlt_dec 0 (1 / 2)); [lia | lra].
  - destruct (Rlt_dec (y - IZR f) (1 / 2)); [lia |].
    destruct (Rlt_dec (1 / 2) (y - IZR f)); [lia |].
    destruct (Z.even f); lia.
Qed.

Lemma round_ge (y : R) (M : Z) : (IZR M <= y)%R -> M <= Py.round y.
Proof.
  intros Hy. unfold Py.round. destruct (base_Int_part y) as [H1 H2].
  set (f := Int_part y) in *.
  assert (Hf : M <= f).
  { assert (H : M - 1 < f) by (apply lt_IZR; rewrite minus_IZR; lra). lia. }
  destruct (Rlt_dec (y - IZR f) (1 / 2)); [lia |].
  destruct (Rlt_dec (1 / 2) (y - IZR f)); [lia |].
  destruct (Z.even f); lia.
Qed.

Lemma ln_2_pos : (0 < ln 2)%R.
Proof.
  pose proof ln_lt_2. lra.
Qed.

Lemma exponent_lt (x : R) (n : nat) :
  x <> 0%R -> (Rabs x < 2 ^ n)%R -> Py.exponent x < Z.of_nat n.
Proof.
  intros Hx Hlt. unfold Py.exponent.
  assert (Hpos : (0 < Rabs x)%R) by now apply Rabs_pos_lt.
  assert (Hln : (ln (Rabs x) < INR n * ln 2)%R).
  { rewrite <- ln_pow by lra. now apply ln_increasing. }
  pose proof ln_2_pos as H2.
  assert (Hq : (ln (Rabs x) / ln 2 < INR n)%R).
  { apply Rmult_lt_reg_r with (ln 2); [assumption |].
    unfold Rdiv. rewrite Rmult_assoc, Rinv_l by lra. lra. }
  destruct (base_Int_part (ln (Rabs x) / ln 2)) as [H1 _].
  apply lt_IZR. rewrite <- INR_IZR_INZ. lra.
Qed.

(** Rounding does not leave an interval whose ends are integers of
    binary64. *)
Lemma binary64_bounded (x : R) (K : Z) :
  0 <= K < 2 ^ 53 ->
  (- IZR K <= x <= IZR K)%R -> (- IZR K <= Py.binary64 x <= IZR K)%R.
Proof.
  intros HK Hx. unfold Py.binary64, Py.Req_dec_bool.
  destruct (Req_dec_T x 0) as [E | Hne].
  - assert (0 <= IZR K)%R by (apply IZR_le; lia). lra.
  - assert (He : Py.exponent x < 53).
    { apply (exponent_lt x 53 Hne).
      assert (HK' : (IZR K < 2 ^ 53)%R).
      { change 2%R with (IZR 2). rewrite pow_IZR. apply IZR_lt. lia. }
      apply Rabs_def1; lra. }
    unfold Py.spacing.
    set (g := Z.max (Py.exponent x) (-1022) - 52).
    assert (Hg : g <= 0) by lia.
    set (k := Z.to_nat (- g)).
    assert (Eg : g = - Z.of_nat k) by (unfold k; lia).
    rewrite Eg, powerRZ_neg', <- pow_powerRZ.
    assert (Hp : (0 < 2 ^ k)%R) by (apply pow_lt; lra).
    set (p := (2 ^ k)%R) in *.
    assert (Ep : p = IZR (2 ^ Z.of_nat k)).
    { unfold p. change 2%R with (IZR 2). now rewrite pow_IZR. }
    set (M := K * 2 ^ Z.of_nat k).
    assert (EM : IZR M = (IZR K * p)%R)
      by (unfold M; now rewrite mult_IZR, Ep).
    assert (Hy : (- IZR M <= x / / p <= IZR M)%R).
    { unfold Rdiv. rewrite Rinv_inv, EM. split; nra. }
    assert (Hr : - M <= Py.round (x / / p) <= M).
    { split; [apply round_ge; rewrite opp_IZR; lra | apply round_le; lra]. }
    destruct Hr as [Hr1 Hr2]. apply IZR_le in Hr1, Hr2.
    rewrite opp_IZR in Hr1. rewrite EM in Hr1, Hr2.
    assert (Hi : (0 < / p)%R) by now apply Rinv_0_lt_compat.
    assert (Hpi : (p * / p = 1)%R) by (apply Rinv_r; lra).
    set (r := IZR (Py.round (x / / p))) in *.
    split; nra.
Qed.

Lemma binary64_0 : Py.binary64 0 = 0%R.
Proof.
  unfold Py.binary64, Py.Req_dec_bool.
  destruct (Req_dec_T 0 0); [reflexivity | contradiction].
Qed.

Lemma huge_large : (180 < IZR Py.huge)%R.
Proof.
  apply IZR_lt. reflexivity.
Qed.

Lemma of_real_small (x : R) :
  (Rabs x < IZR Py.huge)%R ->
  FloatLiteral.of_real x = Py.Finite (Py.binary64 x).
Proof.
  intros H. unfold FloatLiteral.of_real.
  destruct (Rle_dec (IZR Py.huge) (Rabs x)); [lra | reflexivity].
Qed.

Lemma of_real_bounded (x B : R) :
  (- B <= x <= B)%R -> (B <= 180)%R ->
  FloatLiteral.of_real x = Py.Finite (Py.binary64 x).
Proof.
  intros Hx HB. apply of_real_small.
  pose proof huge_large. apply Rabs_def1; lra.
Qed.

(** [parse_coordinates] on a word of the pattern that has none of the
    information separators. *)
Lemma parse_coordinates_pattern (location : string) :
  Matches pattern location ->
  all_chars not_separator location = true ->
  exists lat lng,
    parse_coordinates location = Ok (JFloat lat, JFloat lng)
    /\ (-90 <= lat <= 90)%R /\ (-180 <= lng <= 180)%R.
Proof.
  intros H Hsep.
  apply pattern_shape in H as (a & ws & b & nl & -> & Ha & Hws & Hb & Hnl).
  assert (Hws' : all_chars is_float_space ws = true).
  { rewrite all_chars_app in Hsep. apply andb_true_iff in Hsep as [_ Hsep].
    cbn [all_chars] in Hsep. apply andb_true_iff in Hsep as [_ Hsep].
    rewrite all_chars_app in Hsep. apply andb_true_iff in Hsep as [Hsep _].
    exact (all_chars_both _ _ _ _ space_float_space Hws Hsep). }
  clear Hsep.
  apply latitude_shape in Ha as (sg1 & ds1 & fs1 & -> & Hwf1 & Hb1).
  apply longitude_shape in Hb as (sg2 & ds2 & fs2 & -> & Hwf2 & Hb2).
  assert (B1 : (-90 <= FloatLiteral.value (literal_decimal sg1 ds1 fs1)
                 <= 90)%R).
  { change (-90)%R with (- IZR 90)%R. change 90%R with (IZR 90).
    apply literal_value_bounds; [assumption | | lia].
    destruct Hb1 as [Hb1 | Hb1]; [left; lia | now right]. }
  assert (B2 : (-180 <= FloatLiteral.value (literal_decimal sg2 ds2 fs2)
                 <= 180)%R).
  { change (-180)%R with (- IZR 180)%R. change 180%R with (IZR 180).
    apply literal_value_bounds; [assumption | | lia].
    destruct Hb2 as [Hb2 | Hb2]; [left; lia | now right]. }
  exists (Py.binary64 (FloatLiteral.value (literal_decimal sg1 ds1 fs1))),
         (Py.binary64 (FloatLiteral.value (literal_decimal sg2 ds2 fs2))).
  split; [| split].
  2:{ change (-90)%R with (- IZR 90)%R. change 90%R with (IZR 90).
      apply binary64_bounded; [lia | exact B1]. }
  2:{ change (-180)%R with (- IZR 180)%R. change 180%R with (IZR 180).
      apply binary64_bounded; [lia | exact B2]. }
  - unfold parse_coordinates.
    rewrite split_once.
    + unfold py_float.
      pose proof (parse_literal "" "" sg1 ds1 fs1 eq_refl eq_refl Hwf1) as P1.
      cbn [append] in P1. rewrite append_nil_r in P1. rewrite P1.
      rewrite (parse_literal ws nl sg2 ds2 fs2 Hws' Hnl Hwf2).
      rewrite (of_real_bounded _ 90) by (assumption || lra).
      rewrite (of_real_bounded _ 180) by (assumption || lra).
      reflexivity.
    + apply (all_chars_impl numeric_char); [apply numeric_not_comma |].
      now apply literal_numeric.
    + change (all_chars not_comma (ws ++ literal sg2 ds2 fs2 ++ nl) = true).
      rewrite !all_chars_app.
      rewrite (all_chars_impl _ _ _ space_not_comma Hws).
      rewrite (all_chars_impl _ _ _ float_space_not_comma Hnl).
      rewrite (all_chars_impl _ _ _ numeric_not_comma
                 (literal_numeric _ _ _ Hwf2)).
      reflexivity.
Qed.

End Resolver.

(** ** Requests made by the search *)

Section NoGeocoding.

Variable API_KEY : string.
Variable world : World.

Let other (q : request) : bool := negb (is_geocode q).

Lemma get_driving_eta_other origin destination :
  adds_only other (get_driving_eta API_KEY world origin destination).
Proof.
  unfold get_driving_eta.
  apply adds_only_bind; [now apply adds_only_requests_get | intros eta_res].
  apply adds_only_bind; [apply adds_only_lift | intros status].
  apply adds_only_if; [apply adds_only_ret |].
  apply adds_only_bind; [apply adds_only_lift | intros routes].
  apply adds_only_if; [apply adds_only_ret | apply adds_only_lift].
Qed.

Lemma visit_other min_rating max_price get_eta eta_threshold lat lng c :
  adds_only other
    (visit API_KEY world min_rating max_price get_eta eta_threshold lat lng c).
Proof.
  unfold visit.
  apply adds_only_bind; [apply adds_only_lift | intros place_id].
  apply adds_only_bind; [now apply adds_only_requests_get | intros details_res].
  apply adds_only_bind; [apply adds_only_lift | intros details].
  apply adds_only_bind; [apply adds_only_lift | intros low].
  apply adds_only_if; [apply adds_only_ret |].
  apply adds_only_bind; [apply adds_only_lift | intros dear].
  apply adds_only_if; [apply adds_only_ret |].
  apply adds_only_bind; [| intros r; apply adds_only_ret].
  unfold enrich.
  apply adds_only_bind; [apply adds_only_lift | intros [dlat dlng]].
  apply adds_only_bind; [apply adds_only_lift | intros d].
  apply adds_only_bind; [apply adds_only_lift | intros rounded].
  apply adds_only_bind; [| intros eta; apply adds_only_lift].
  apply adds_only_if; [apply get_driving_eta_other | apply adds_only_ret].
Qed.

Lemma loop_other min_rating max_price max_results get_eta eta_threshold
    lat lng results :
  forall acc,
    adds_only other
      (loop API_KEY world min_rating max_price max_results get_eta
            eta_threshold lat lng results acc).
Proof.
  induction results as [| c rest IH]; intros acc; cbn [loop].
  - apply adds_only_ret.
  - apply adds_only_if; [apply adds_only_ret |].
    apply adds_only_bind; [apply visit_other | intros o; apply IH].
Qed.

Lemma search_nearby_other distance min_rating max_price search max_results
    get_eta eta_threshold lat lng :
  adds_only other
    (search_nearby API_KEY world distance min_rating max_price search
                   max_results get_eta eta_threshold lat lng).
Proof.
  unfold search_nearby.
  apply adds_only_bind; [now apply adds_only_requests_get | intros res].
  apply adds_only_bind; [apply adds_only_lift | intros status].
  apply adds_only_if; [apply adds_only_ret |].
  apply adds_only_bind; [apply adds_only_lift | intros results].
  apply loop_other.
Qed.

End NoGeocoding.

(** The location ["40.7128,-74.0060"] is read without any request. *)
Lemma resolve_new_york (API_KEY : string) (world : World) (log : list request) :
  resolve_location API_KEY world "40.7128,-74.0060" log
  = (Ok (JFloat (Py.binary64 40.7128), JFloat (Py.binary64 (-74.0060))),
     log).
Proof.
  unfold resolve_location.
  assert (Hc : is_coordinate "40.7128,-74.0060" = true)
    by (vm_compute; reflexivity).
  rewrite Hc. unfold parse_coordinates, lift, py_float.
  assert (Hs : split Chars.comma "40.7128,-74.0060"
               = ["40.7128"%string; "-74.0060"%string])
    by (vm_compute; reflexivity).
  rewrite Hs.
  assert (H1 : FloatLiteral.parse "40.7128"
               = Some (FloatLiteral.Decimal false 40 7128 4 0))
    by (vm_compute; reflexivity).
  assert (H2 : FloatLiteral.parse "-74.0060"
               = Some (FloatLiteral.Decimal true 74 60 4 0))
    by (vm_compute; reflexivity).
  rewrite H1, H2.
  assert (V1 : FloatLiteral.value (FloatLiteral.Decimal false 40 7128 4 0)
               = 40.7128%R).
  { unfold FloatLiteral.value.
    cbn [FloatLiteral.negative FloatLiteral.integral FloatLiteral.fraction
         FloatLiteral.fraction_digits FloatLiteral.exponent powerRZ pow].
    lra. }
  assert (V2 : FloatLiteral.value (FloatLiteral.Decimal true 74 60 4 0)
               = (-74.0060)%R).
  { unfold FloatLiteral.value.
    cbn [FloatLiteral.negative FloatLiteral.integral FloatLiteral.fraction
         FloatLiteral.fraction_digits FloatLiteral.exponent powerRZ pow].
    lra. }
  rewrite V1, V2.
  rewrite (of_real_bounded _ 180) by lra.
  rewrite (of_real_bounded _ 180) by lra.
  reflexivity.
Qed.

(** X7. A location that matches the coordinate pattern is resolved
    without any request, whatever the collaborators would answer and
    whether or not its numbers can be read, and the whole of
    [get_nearby_restaurants] then makes no geocoding request.  When the
    location has none of the information separators, it is read as two
    numbers, the first between -90 and 90 and the second between -180
    and 180. *)
Lemma coordinate_literal_resolution (API_KEY : string) (world : World)
    (location : string) :
  is_coordinate location = true ->
  (forall log,
      resolve_location API_KEY world location log
      = (parse_coordinates location, log))
  /\ (forall distance min_rating max_price search max_results get_eta
             eta_threshold log,
         exists new,
           snd (get_nearby_restaurants API_KEY world location distance
                  min_rating max_price search max_results get_eta
                  eta_threshold log)
           = (log ++ new)%list
           /\ forallb (fun q => negb (is_geocode q)) new = true)
  /\ (all_chars not_separator location = true ->
      exists lat lng,
        parse_coordinates location = Ok (JFloat lat, JFloat lng)
        /\ (-90 <= lat <= 90)%R /\ (-180 <= lng <= 180)%R).
Proof.
  intros Hc.
  assert (Hres : forall log,
             resolve_location API_KEY world location log
             = (parse_coordinates location, log)).
  { intros log. unfold resolve_location. now rewrite Hc. }
  split; [exact Hres | split].
  - intros distance min_rating max_price search max_results get_eta
           eta_threshold.
    unfold get_nearby_restaurants.
    apply adds_only_bind.
    + intros log. exists []. rewrite Hres. cbn. now rewrite app_nil_r.
    + intros [lat lng]. apply search_nearby_other.
  - intros Hsep.
    pose proof (proj1 (fullmatch_Matches location Pattern.pattern) Hc) as Hm.
    exact (parse_coordinates_pattern location Hm Hsep).
Qed.

(** C5.  The pattern admits locations that [float] does not read.  In
    ["1,<FS>2"], with the information separator U+001C after the comma,
    [\s*] takes the separator, so [is_coordinate] holds and the resolver
    takes the branch of the literals; [float] does not strip the
    separator, so the resolver raises [ValueError] instead of returning
    the coordinate (1, 2).  No collaborator is asked. *)
Theorem separator_after_comma_raises (API_KEY : string) (world : World)
    (distance : Z) (min_rating : option R) (max_price : option Z)
    (search : option string) (max_results : Z) (get_eta : bool)
    (eta_threshold : option Z) (log : list request) :
  let location := String "1" (String "," (String "028" (String "2" ""))) in
  is_coordinate location = true
  /\ py_float (JStr (String "028" (String "2" ""))) = Raise (ValueError None)
  /\ resolve_location API_KEY world location log
     = (Raise (ValueError None), log)
  /\ get_nearby_restaurants API_KEY world location distance min_rating
       max_price search max_results get_eta eta_threshold log
     = (Raise (ValueError None), log).
Proof.
  cbv zeta.
  assert (Hc : is_coordinate
                 (String "1" (String "," (String "028" (String "2" ""))))
               = true)
    by (vm_compute; reflexivity).
  assert (Hf : py_float (JStr (String "028" (String "2" "")))
               = Raise (ValueError None)).
  { unfold py_float.
    assert (Hp : FloatLiteral.parse (String "028" (String "2" "")) = None)
      by (vm_compute; reflexivity).
    assert (Hw : FloatLiteral.special (String "028" (String "2" "")) = None)
      by (vm_compute; reflexivity).
    now rewrite Hp, Hw. }
  assert (Hr : resolve_location API_KEY world
                 (String "1" (String "," (String "028" (String "2" "")))) log
               = (Raise (ValueError None), log)).
  { unfold resolve_location. rewrite Hc. unfold parse_coordinates, lift.
    assert (Hs : split Chars.comma
                   (String "1" (String "," (String "028" (String "2" ""))))
                 = ["1"%string; String "028" (String "2" "")])
      by (vm_compute; reflexivity).
    rewrite Hs.
    assert (Hp : FloatLiteral.parse "1"
                 = Some (FloatLiteral.Decimal false 1 0 0 0))
      by (vm_compute; reflexivity).
    unfold py_float at 1. rewrite Hp. cbn [rbind]. now rewrite Hf. }
  split; [exact Hc | split; [exact Hf | split; [exact Hr |]]].
  unfold get_nearby_restaurants, bind. now rewrite Hr.
Qed.

(** ** Running the pipeline on given answers *)

Lemma round_0 : Py.round (0 / 10) = 0.
Proof.
  unfold Py.round. replace (0 / 10)%R with (INR 0) by (cbn; lra).
  rewrite Int_part_INR. cbn [Z.of_nat INR].
  replace (0 - 0)%R with 0%R by lra.
  destruct (Rlt_dec 0 (1 / 2)); [reflexivity | lra].
Qed.

(** The enrichment of a candidate whose coordinate and the origin are
    numbers: the distance never fails. *)
Lemma enrich_numbers (API_KEY : string) (world : World) (get_eta : bool)
    (eta_threshold : option Z) (lat lng c details : json)
    (log : list request) (geometry location dlat dlng : json)
    (x1 y1 x2 y2 : R) :
  Py.getitem c "geometry" = Ok geometry ->
  Py.getitem geometry "location" = Ok location ->
  Py.getitem location "lat" = Ok dlat ->
  Py.getitem location "lng" = Ok dlng ->
  number lat x1 -> number lng y1 -> number dlat x2 -> number dlng y2 ->
  enrich API_KEY world get_eta eta_threshold lat lng c details log
  = bind (if wants_eta get_eta eta_threshold
               (Py.Finite (distance_of x1 y1 x2 y2))
          then get_driving_eta API_KEY world (lat, lng) (dlat, dlng)
          else ret JNull)
         (fun driving_eta =>
            lift (build_restaurant details driving_eta
                    (Py.round (distance_of x1 y1 x2 y2 / 10) * 10)))
         log.
Proof.
  intros Hg Hl Hlat Hlng N1 N2 N3 N4. unfold enrich.
  rewrite Hg. cbn [rbind]. rewrite Hl. cbn [rbind].
  rewrite Hlat. cbn [rbind]. rewrite Hlng. cbn [rbind].
  rewrite bind_lift_Ok.
  rewrite (haversine_distance_numbers (lat, lng) (dlat, dlng) x1 y1 x2 y2)
    by assumption.
  rewrite bind_lift_Ok. cbn [Py.float_div Py.round_float rbind].
  now rewrite bind_lift_Ok.
Qed.

Lemma zero_literal_value :
  FloatLiteral.value (FloatLiteral.Decimal false 0 0 0 0) = 0%R.
Proof.
  unfold FloatLiteral.value. cbn. lra.
Qed.


(** ** Distances along the equator *)

Section Equator.

Local Open Scope R_scope.

Lemma atan2_sin_cos (t : R) :
  0 <= t < PI / 2 -> atan2 (sin t) (cos t) = t.
Proof.
  intros [H0 H1].
  assert (Hc : 0 < cos t) by (apply cos_gt_0; lra).
  unfold atan2. destruct (Rlt_dec 0 (cos t)); [| contradiction].
  change (sin t / cos t) with (tan t). apply atan_tan. lra.
Qed.

(** From longitude 0 to longitude [x] on the equator the distance is
    the arc: the radius times the angle. *)
Lemma distance_on_equator (x : R) :
  0 <= x * (PI / 180) < PI ->
  distance_of 0 0 0 x = earth_radius * (x * (PI / 180)).
Proof.
  intros [H0 H1]. unfold distance_of, hav. cbv zeta.
  rewrite !Rmult_0_l.
  replace ((0 - 0) / 2) with 0 by lra.
  rewrite sin_0, cos_0.
  set (t := (x * (PI / 180) - 0) / 2).
  assert (Ht : 0 <= t < PI / 2) by (unfold t; lra).
  assert (Hs : 0 <= sin t) by (apply sin_ge_0; lra).
  assert (Hc : 0 < cos t) by (apply cos_gt_0; lra).
  replace (0 ^ 2 + 1 * 1 * sin t ^ 2) with (sin t ^ 2) by ring.
  replace (1 - sin t ^ 2) with (cos t ^ 2)
    by (pose proof (sin2_cos2 t) as E; unfold Rsqr in E; lra).
  rewrite !sqrt_pow2 by lra.
  rewrite atan2_sin_cos by assumption.
  unfold t. lra.
Qed.

Lemma earth_radius_pos : 0 < earth_radius.
Proof. unfold earth_radius. lra. Qed.

(** The point [east m] is [m] meters from the origin, for a distance
    that stays far below half the equator. *)
Lemma distance_east (m : R) :
  0 <= m <= 1000000 -> distance_of 0 0 0 (east m) = m.
Proof.
  intros Hm.
  pose proof PI_RGT_0 as Hpi. pose proof PI2_1 as Hpi2.
  pose proof earth_radius_pos as Hr.
  assert (Hangle : east m * (PI / 180) = m / earth_radius).
  { unfold east. field. split; lra. }
  assert (Hsmall : 0 <= m / earth_radius < 1).
  { split.
    - apply Rmult_le_pos; [lra | left; now apply Rinv_0_lt_compat].
    - apply (Rmult_lt_reg_r earth_radius); [assumption |].
      unfold Rdiv. rewrite Rmult_assoc, Rinv_l by lra.
      unfold earth_radius. lra. }
  rewrite distance_on_equator by (rewrite Hangle; lra).
  rewrite Hangle. field. lra.
Qed.

End Equator.

(** ** Scenarios *)

Lemma round_IZR (z : Z) : 0 <= z -> Py.round (IZR z) = z.
Proof.
  intros Hz.
  assert (HI : Int_part (IZR z) = z).
  { replace (IZR z) with (INR (Z.to_nat z))
      by (now rewrite INR_IZR_INZ, Z2Nat.id).
    now rewrite Int_part_INR, Z2Nat.id. }
  unfold Py.round. cbv zeta. rewrite HI.
  replace (IZR z - IZR z)%R with 0%R by lra.
  destruct (Rlt_dec 0 (1 / 2)); [reflexivity | lra].
Qed.

(** The loop body for a candidate that passes both filters and whose
    coordinate, like the origin, is made of numbers. *)
Lemma visit_passes (API_KEY : string) (world : World)
    (min_rating : option R) (max_price : option Z) (get_eta : bool)
    (eta_threshold : option Z) (lat lng c : json) (log : list request)
    (place_id details_res details geometry location dlat dlng : json)
    (x1 y1 x2 y2 : R) :
  Py.getitem c "place_id" = Ok place_id ->
  world log (PlaceDetails place_id details_fields API_KEY) = Ok details_res ->
  Py.getitem details_res "result" = Ok details ->
  below_min_rating min_rating details = Ok false ->
  above_max_price max_price details = Ok false ->
  Py.getitem c "geometry" = Ok geometry ->
  Py.getitem geometry "location" = Ok location ->
  Py.getitem location "lat" = Ok dlat ->
  Py.getitem location "lng" = Ok dlng ->
  number lat x1 -> number lng y1 -> number dlat x2 -> number dlng y2 ->
  visit API_KEY world min_rating max_price get_eta eta_threshold lat lng c log
  = bind (bind (if wants_eta get_eta eta_threshold
                     (Py.Finite (distance_of x1 y1 x2 y2))
                then get_driving_eta API_KEY world (lat, lng) (dlat, dlng)
                else ret JNull)
               (fun driving_eta =>
                  lift (build_restaurant details driving_eta
                          (Py.round (distance_of x1 y1 x2 y2 / 10) * 10))))
         (fun r => ret (Some r))
         (log ++ [PlaceDetails place_id details_fields API_KEY])%list.
Proof.
  intros H1 H2 H3 Hlow Hdear Hg Hl Hlat Hlng N1 N2 N3 N4.
  rewrite (visit_details _ _ _ _ _ _ _ _ _ _ _ _ _ H1 H2 H3). cbv zeta.
  rewrite Hlow, Hdear.
  apply bind_ext2; [| reflexivity].
  now apply (enrich_numbers _ _ _ _ _ _ _ _ _ geometry location dlat dlng).
Qed.



Lemma resolve_origin (API_KEY : string) (world : World) (log : list request) :
  resolve_location API_KEY world "0,0" log = (Ok (JFloat 0, JFloat 0), log).
Proof.
  unfold resolve_location.
  assert (Hc : is_coordinate "0,0" = true) by (vm_compute; reflexivity).
  rewrite Hc. unfold parse_coordinates, lift, py_float.
  assert (Hs : split Chars.comma "0,0" = ["0"%string; "0"%string])
    by (vm_compute; reflexivity).
  rewrite Hs.
  assert (Hp : FloatLiteral.parse "0"
               = Some (FloatLiteral.Decimal false 0 0 0 0))
    by (vm_compute; reflexivity).
  rewrite Hp. cbn [rbind]. rewrite zero_literal_value.
  rewrite (of_real_bounded _ 180) by lra. now rewrite binary64_0.
Qed.


(** Two candidates 400 m and 1200 m from the origin, the ETA flag set
    and a threshold of 1000: the routing collaborator is asked once,
    for the far candidate, and the near one has no ETA. *)
Lemma eta_scenario :
  get_nearby_restaurants "key" equator_world "0,0" 5000 None None None 25
    true (Some 1000) []
  = (Ok [Restaurant (JStr "Near") (JStr "N/A") (JStr "N/A") ""
           (JStr "N/A") (JStr "N/A") (JStr "N/A") (JStr "N/A") JNull 400;
         Restaurant (JStr "Far") (JStr "N/A") (JStr "N/A") ""
           (JStr "N/A") (JStr "N/A") (JStr "N/A") (JStr "N/A")
           (JStr "5 mins") 1200],
     [NearbySearch (JFloat 0) (JFloat 0) 5000 "restaurant" None "key";
      PlaceDetails (JStr "near") details_fields "key";
      PlaceDetails (JStr "far") details_fields "key";
      Directions (JFloat 0, JFloat 0) (JInt 0, JFloat (east 1200)) "driving"
        "key"]).
Proof.
  unfold get_nearby_restaurants.
  erewrite bind_eq by apply resolve_origin. cbv beta iota.
  rewrite (search_nearby_status "key" equator_world 5000 None None None 25
             true (Some 1000) (JFloat 0) (JFloat 0) [] _ (JStr "OK")
             eq_refl eq_refl).
  cbv zeta.
  cbn [Py.ne_str String.eqb Ascii.eqb Bool.eqb negb nearby_ok Py.getitem
       Py.lookup rbind Py.iter app].
  set (log0 := [nearby_request "key" 5000 None (JFloat 0) (JFloat 0)]).
  set (near := Restaurant (JStr "Near") (JStr "N/A") (JStr "N/A") ""
                 (JStr "N/A") (JStr "N/A") (JStr "N/A") (JStr "N/A") JNull 400).
  set (far := Restaurant (JStr "Far") (JStr "N/A") (JStr "N/A") ""
                (JStr "N/A") (JStr "N/A") (JStr "N/A") (JStr "N/A")
                (JStr "5 mins") 1200).
  (* the near candidate *)
  rewrite (loop_visit "key" equator_world None None 25 true (Some 1000)
             (JFloat 0) (JFloat 0) (place "near" (JInt 0) (JFloat (east 400)))
             _ [] log0 (Some near)
             (log0 ++ [PlaceDetails (JStr "near") details_fields "key"])%list
             ltac:(cbn; lia)).
  2:{ rewrite (visit_passes "key" equator_world None None true (Some 1000)
                 (JFloat 0) (JFloat 0)
                 (place "near" (JInt 0) (JFloat (east 400))) log0
                 (JStr "near") _ _ _ _ (JInt 0) (JFloat (east 400))
                 0 0 0 (east 400)
                 eq_refl eq_refl eq_refl eq_refl eq_refl
                 eq_refl eq_refl eq_refl eq_refl
                 eq_refl eq_refl eq_refl eq_refl).
      rewrite distance_east by lra.
      cbn [wants_eta andb Z.eqb orb Py.float_lt].
      rewrite Rltb_false by lra.
      replace (400 / 10)%R with (IZR 40) by lra.
      rewrite round_IZR by lia. reflexivity. }
  (* the far candidate *)
  set (log1 := (log0 ++ [PlaceDetails (JStr "near") details_fields "key"])%list).
  cbn [app].
  rewrite (loop_visit "key" equator_world None None 25 true (Some 1000)
             (JFloat 0) (JFloat 0) (place "far" (JInt 0) (JFloat (east 1200)))
             _ [near] log1 (Some far)
             (log1 ++ [PlaceDetails (JStr "far") details_fields "key";
                       Directions (JFloat 0, JFloat 0)
                         (JInt 0, JFloat (east 1200)) "driving" "key"])%list
             ltac:(cbn; lia)).
  2:{ rewrite (visit_passes "key" equator_world None None true (Some 1000)
                 (JFloat 0) (JFloat 0)
                 (place "far" (JInt 0) (JFloat (east 1200))) log1
                 (JStr "far") _ _ _ _ (JInt 0) (JFloat (east 1200))
                 0 0 0 (east 1200)
                 eq_refl eq_refl eq_refl eq_refl eq_refl
                 eq_refl eq_refl eq_refl eq_refl
                 eq_refl eq_refl eq_refl eq_refl).
      rewrite distance_east by lra.
      cbn [wants_eta andb Z.eqb orb Py.float_lt].
      rewrite Rltb_true by lra.
      replace (1200 / 10)%R with (IZR 120) by lra.
      rewrite round_IZR by lia. reflexivity. }
  reflexivity.
Qed.



(** ** The claims at the scenarios *)



(** A maximum price of 2 skips the place without price tier. *)
Lemma max_price_filter_witness :
  1 <= 2 <= 4
  /\ Py.lookup "price_level" charlie = None
  /\ visit "key" menu_world None (Some 2) false None (JFloat 0) (JFloat 0)
           (place "c" (JInt 0) (JInt 0)) []
     = (Ok None, [PlaceDetails (JStr "c") details_fields "key"]).
Proof.
  split; [lia |]. split; [reflexivity |].
  exact (proj1 (proj2
           (proj1 (max_price_filter "key" menu_world None false None
                     (JFloat 0) (JFloat 0) (place "c" (JInt 0) (JInt 0)) []
                     (JStr "c") (details_ok charlie) charlie false
                     eq_refl eq_refl eq_refl eq_refl)
              2 ltac:(lia) (or_introl eq_refl)))).
Defined.

(** The place 1200 m away gets its request to the routing collaborator. *)
Lemma eta_lookup_condition_witness :
  haversine_distance (JFloat 0, JFloat 0) (JInt 0, JFloat (east 1200))
  = Ok (Py.Finite 1200)
  /\ snd (enrich "key" equator_world true (Some 1000) (JFloat 0) (JFloat 0)
            (place "far" (JInt 0) (JFloat (east 1200)))
            (JObj [("name", JStr "Far")]) [])
     = [Directions (JFloat 0, JFloat 0) (JInt 0, JFloat (east 1200))
          "driving" "key"].
Proof.
  assert (Hd : haversine_distance (JFloat 0, JFloat 0)
                 (JInt 0, JFloat (east 1200)) = Ok (Py.Finite 1200)).
  { rewrite (haversine_distance_numbers (JFloat 0, JFloat 0)
               (JInt 0, JFloat (east 1200)) 0 0 0 (east 1200)
               eq_refl eq_refl eq_refl eq_refl).
    now rewrite distance_east by lra. }
  split; [exact Hd |].
  exact (proj1 (proj2 (proj2
                   (eta_lookup_condition "key" equator_world true
                      (Some 1000) (JFloat 0) (JFloat 0)
                      (place "far" (JInt 0) (JFloat (east 1200)))
                      (JObj [("name", JStr "Far")]) []
                      _ _ (JInt 0) (JFloat (east 1200)) 1200%R
                      eq_refl eq_refl eq_refl eq_refl Hd))
                  eq_refl eq_refl)
           eq_refl).
Defined.

(** The status ["ZERO_RESULTS"] gives the empty list. *)
Lemma non_success_status_gives_empty_witness :
  Py.ne_str (JStr "ZERO_RESULTS") "OK" = true
  /\ get_nearby_restaurants "key" (status_world "ZERO_RESULTS")
       "40.7128,-74.0060" 1000 None None None 25 false None []
     = (Ok [],
        [NearbySearch (JFloat (Py.binary64 40.7128))
           (JFloat (Py.binary64 (-74.0060))) 1000 "restaurant" None "key"]).
Proof.
  split; [reflexivity |].
  exact (non_success_status_gives_empty "key" (status_world "ZERO_RESULTS")
           "40.7128,-74.0060" 1000 None None None 25 false None [] []
           (JFloat (Py.binary64 40.7128)) (JFloat (Py.binary64 (-74.0060)))
           (JObj [("status", JStr "ZERO_RESULTS")]) (JStr "ZERO_RESULTS")
           (resolve_new_york "key" _ []) eq_refl eq_refl eq_refl).
Defined.

(** No route gives [None]; a route gives its duration text. *)
Lemma get_driving_eta_outcomes_witness :
  get_driving_eta "key" (status_world "ZERO_RESULTS")
    (JFloat 0, JFloat 0) (JInt 0, JInt 1) []
  = (Ok JNull,
     [Directions (JFloat 0, JFloat 0) (JInt 0, JInt 1) "driving" "key"])
  /\ get_driving_eta "key" menu_world (JFloat 0, JFloat 0) (JInt 0, JInt 1) []
     = (Ok (JStr "5 mins"),
        [Directions (JFloat 0, JFloat 0) (JInt 0, JInt 1) "driving" "key"]).
Proof.
  split.
  - exact (proj1 (get_driving_eta_outcomes "key" (status_world "ZERO_RESULTS")
                    (JFloat 0, JFloat 0) (JInt 0, JInt 1) []
                    (JObj [("status", JStr "ZERO_RESULTS")])
                    (JStr "ZERO_RESULTS") eq_refl eq_refl)
             eq_refl).
  - exact (proj2 (proj2 (get_driving_eta_outcomes "key" menu_world
                           (JFloat 0, JFloat 0) (JInt 0, JInt 1) []
                           (directions_ok "5 mins") (JStr "OK")
                           eq_refl eq_refl))
             eq_refl _ _ _ _ _ _ eq_refl eq_refl eq_refl eq_refl).
Defined.

(** A failed geocoding raises with the answer; a successful one gives
    the first result. *)
Lemma get_location_coordinates_outcomes_witness :
  get_location_coordinates "key" (status_world "ZERO_RESULTS") "Nowhere" []
  = (Raise (ValueError (Some (JObj [("status", JStr "ZERO_RESULTS")]))),
     [Geocode "Nowhere" "key"])
  /\ get_location_coordinates "key" menu_world "New York" []
     = (Ok (JFloat 40.7128, JFloat (-74.0060)), [Geocode "New York" "key"]).
Proof.
  split.
  - exact (proj1 (proj2 (get_location_coordinates_outcomes "key"
                           (status_world "ZERO_RESULTS") "Nowhere" []
                           (JObj [("status", JStr "ZERO_RESULTS")])
                           (JStr "ZERO_RESULTS") eq_refl eq_refl))
             eq_refl).
  - exact (proj2 (proj2 (proj2 (get_location_coordinates_outcomes "key"
                                  menu_world "New York" []
                                  (geocode_ok (JFloat 40.7128)
                                     (JFloat (-74.0060)))
                                  (JStr "OK") eq_refl eq_refl))
                    eq_refl)
             _ _ _ _ _ _ eq_refl eq_refl eq_refl eq_refl eq_refl).
Defined.

(** * Further properties of the code *)

(** ** Failures of the collaborators' answers *)

(** X1. [get_driving_eta] raises what the transport raises, [KeyError] for
    an answer without status, and [IndexError] for a first route without
    legs: the only outcome it turns into [None] is the absence of a
    route.  The request is logged in each case. *)
Theorem get_driving_eta_failures (API_KEY : string) (world : World)
    (origin destination : json * json) (log : list request) :
  let q := Directions origin destination "driving" API_KEY in
  let outcome := get_driving_eta API_KEY world origin destination log in
  (forall e, world log q = Raise e -> outcome = (Raise e, (log ++ [q])%list))
  /\ (forall fields,
         world log q = Ok (JObj fields) ->
         Py.lookup "status" fields = None ->
         outcome = (Raise (KeyError (JStr "status")), (log ++ [q])%list))
  /\ (forall eta_res route routes,
         world log q = Ok eta_res ->
         Py.getitem eta_res "status" = Ok (JStr "OK") ->
         Py.getitem eta_res "routes" = Ok (JArr (route :: routes)) ->
         Py.getitem route "legs" = Ok (JArr []) ->
         outcome = (Raise IndexError, (log ++ [q])%list)).
Proof.
  intros q outcome. unfold outcome, get_driving_eta. fold q.
  split; [| split].
  - intros e Hw. unfold bind at 1, requests_get at 1. now rewrite Hw.
  - intros fields Hw Hs. unfold bind at 1, requests_get at 1. rewrite Hw.
    cbn [Py.getitem]. now rewrite Hs.
  - intros eta_res route routes Hw Hs Hr Hl.
    unfold bind at 1, requests_get at 1. rewrite Hw.
    rewrite Hs, bind_lift_Ok.
    replace (Py.ne_str (JStr "OK") "OK") with false by reflexivity.
    rewrite (getitem_Ok_get _ _ _ JNull Hr), bind_lift_Ok.
    cbn [Py.truthy negb]. rewrite Hr. cbn [rbind Py.getindex nth_error].
    rewrite Hl. reflexivity.
Qed.

(** The geocoding request is the only request of
    [get_location_coordinates], whatever comes of it. *)
Lemma get_location_coordinates_log (API_KEY : string) (world : World)
    (location : string) (log : list request) :
  snd (get_location_coordinates API_KEY world location log)
  = (log ++ [Geocode location API_KEY])%list.
Proof.
  unfold get_location_coordinates, bind, requests_get.
  destruct (world log _) as [response | e]; [| reflexivity].
  unfold lift at 1.
  destruct (Py.getitem response "status") as [status | e]; [| reflexivity].
  destruct (Py.ne_str status "OK"); [reflexivity |].
  unfold lift at 1.
  destruct (rbind (Py.getitem response "results") _) as [latlng | e];
    [| reflexivity].
  unfold lift at 1.
  destruct (Py.getitem latlng "lat") as [lat | e]; [| reflexivity].
  unfold lift at 1.
  destruct (Py.getitem latlng "lng") as [lng | e]; reflexivity.
Qed.

(** X2. A geocoding answer with the status ["OK"] and no result makes
    [get_location_coordinates] raise [IndexError], not the [ValueError]
    of a failed geocoding; an answer without status makes it raise
    [KeyError].  One request is made in every case. *)
Theorem get_location_coordinates_empty_results (API_KEY : string)
    (world : World) (location : string) (log : list request)
    (fields : list (string * json)) :
  world log (Geocode location API_KEY) = Ok (JObj fields) ->
  let outcome := get_location_coordinates API_KEY world location log in
  snd outcome = (log ++ [Geocode location API_KEY])%list
  /\ (Py.lookup "status" fields = None ->
      fst outcome = Raise (KeyError (JStr "status")))
  /\ (Py.lookup "status" fields = Some (JStr "OK") ->
      Py.lookup "results" fields = Some (JArr []) ->
      fst outcome = Raise IndexError).
Proof.
  intros Hw outcome. split; [apply get_location_coordinates_log |].
  assert (Hrun : outcome
                 = bind (lift (Py.getitem (JObj fields) "status"))
                     (fun status =>
                        if Py.ne_str status "OK"
                        then lift (Raise (ValueError (Some (JObj fields))))
                        else
                          bind (lift (rbind (Py.getitem (JObj fields) "results")
                                        (fun results =>
                                         rbind (Py.getindex results 0) (fun first =>
                                         rbind (Py.getitem first "geometry") (fun geometry =>
                                         Py.getitem geometry "location")))))
                            (fun latlng =>
                               bind (lift (Py.getitem latlng "lat")) (fun lat =>
                               bind (lift (Py.getitem latlng "lng")) (fun lng =>
                               ret (lat, lng)))))
                     (log ++ [Geocode location API_KEY])%list).
  { unfold outcome, get_location_coordinates.
    unfold bind at 1, requests_get at 1. now rewrite Hw. }
  rewrite Hrun. cbn [Py.getitem]. split.
  - intros Hs. now rewrite Hs.
  - intros Hs Hr. rewrite Hs, bind_lift_Ok.
    replace (Py.ne_str (JStr "OK") "OK") with false by reflexivity.
    now rewrite Hr.
Qed.

(** X3. A location that is no coordinate literal and that the geocoding
    collaborator does not resolve ends the run: [get_nearby_restaurants]
    raises the [ValueError] with the answer, and the geocoding request
    is the only request made. *)
Theorem failed_geocoding_ends_the_run (API_KEY : string) (world : World)
    (location : string) (distance : Z) (min_rating : option R)
    (max_price : option Z) (search : option string) (max_results : Z)
    (get_eta : bool) (eta_threshold : option Z) (log : list request)
    (response status : json) :
  is_coordinate location = false ->
  world log (Geocode location API_KEY) = Ok response ->
  Py.getitem response "status" = Ok status ->
  Py.ne_str status "OK" = true ->
  get_nearby_restaurants API_KEY world location distance min_rating max_price
    search max_results get_eta eta_threshold log
  = (Raise (ValueError (Some response)),
     (log ++ [Geocode location API_KEY])%list).
Proof.
  intros Hc Hw Hs Hne.
  unfold get_nearby_restaurants, resolve_location. rewrite Hc.
  unfold bind at 1. unfold get_location_coordinates.
  unfold bind at 1, requests_get at 1. rewrite Hw.
  now rewrite Hs, bind_lift_Ok, Hne.
Qed.

(** X4. A details answer without ["result"] for a candidate the loop visits
    makes the loop raise [KeyError]: the records accepted before are not
    returned and the candidates after it are not visited. *)
Theorem details_without_result_ends_the_loop (API_KEY : string)
    (world : World) (min_rating : option R) (max_price : option Z)
    (max_results : Z) (get_eta : bool) (eta_threshold : option Z)
    (lat lng c : json) (rest : list json) (acc : list restaurant)
    (log : list request) (place_id : json) (fields : list (string * json)) :
  Z.of_nat (length acc) <> max_results ->
  Py.getitem c "place_id" = Ok place_id ->
  world log (PlaceDetails place_id details_fields API_KEY) = Ok (JObj fields) ->
  Py.lookup "result" fields = None ->
  loop API_KEY world min_rating max_price max_results get_eta eta_threshold
       lat lng (c :: rest) acc log
  = (Raise (KeyError (JStr "result")),
     (log ++ [PlaceDetails place_id details_fields API_KEY])%list).
Proof.
  intros Hroom Hid Hw Hres.
  apply loop_raise; [assumption |].
  unfold visit. rewrite Hid, bind_lift_Ok.
  unfold bind at 1, requests_get at 1. rewrite Hw.
  cbn [Py.getitem]. now rewrite Hres.
Qed.

(** ** The requests a run makes *)

Lemma count_app (P : request -> bool) (l1 l2 : list request) :
  count P (l1 ++ l2) = (count P l1 + count P l2)%nat.
Proof.
  unfold count. now rewrite filter_app, length_app.
Qed.

Section Requests.

Variable API_KEY : string.
Variable world : World.
Variable min_rating : option R.
Variable max_price : option Z.
Variable max_results : Z.
Variable get_eta : bool.
Variable eta_threshold : option Z.
Variables lat lng : json.

Lemma enrich_requests c details log :
  snd (enrich API_KEY world get_eta eta_threshold lat lng c details log) = log
  \/ (get_eta = true
      /\ exists destination,
           snd (enrich API_KEY world get_eta eta_threshold lat lng c details
                  log)
           = (log ++ [Directions (lat, lng) destination "driving" API_KEY])%list).
Proof.
  unfold enrich, bind, lift.
  match goal with
  | |- context [match ?r with Ok _ => _ | Raise _ => _ end] =>
      destruct r as [[dlat dlng] | e]
  end; [| now left].
  destruct (haversine_distance (lat, lng) (dlat, dlng)) as [d | e];
    [| now left].
  destruct (rbind (Py.round_float (Py.float_div d 10))
              (fun tens => Ok (tens * 10))) as [rounded | e];
    [| now left].
  destruct (wants_eta get_eta eta_threshold d) eqn:Hw.
  - right. split.
    + unfold wants_eta in Hw. now apply andb_true_iff in Hw as [Hw _].
    + exists (dlat, dlng).
      pose proof (get_driving_eta_log API_KEY world (lat, lng) (dlat, dlng)
                    log) as Hlog.
      destruct (get_driving_eta API_KEY world (lat, lng) (dlat, dlng) log)
        as [[eta | e] log1]; cbn in Hlog; subst log1; reflexivity.
  - left. reflexivity.
Qed.

Lemma visit_requests c log :
  exists new,
    snd (visit API_KEY world min_rating max_price get_eta eta_threshold
           lat lng c log) = (log ++ new)%list
    /\ pass_requests API_KEY get_eta new
    /\ (forall o,
           fst (visit API_KEY world min_rating max_price get_eta
                  eta_threshold lat lng c log) = Ok o ->
           new <> []).
Proof.
  unfold visit. unfold bind at 1, lift at 1.
  destruct (Py.getitem c "place_id") as [place_id | e].
  2:{ exists []. rewrite app_nil_r. repeat split; [constructor | discriminate]. }
  unfold bind at 1, requests_get at 1.
  set (q := PlaceDetails place_id details_fields API_KEY).
  assert (Hq : pass_requests API_KEY get_eta [q] /\ [q] <> [])
    by (split; [constructor | discriminate]).
  destruct (world log q) as [details_res | e].
  2:{ exists [q]. cbn. repeat split; [apply Hq | discriminate]. }
  unfold bind at 1, lift at 1.
  destruct (Py.getitem details_res "result") as [details | e].
  2:{ exists [q]. cbn. repeat split; [apply Hq | discriminate]. }
  unfold bind at 1, lift at 1.
  destruct (below_min_rating min_rating details) as [[|] | e];
    try (exists [q]; cbn; repeat split; [apply Hq | intros; apply Hq]).
  unfold bind at 1, lift at 1.
  destruct (above_max_price max_price details) as [[|] | e];
    try (exists [q]; cbn; repeat split; [apply Hq | intros; apply Hq]).
  unfold bind at 1.
  destruct (enrich_requests c details (log ++ [q])%list)
    as [E | (Hflag & destination & E)].
  - exists [q].
    destruct (enrich API_KEY world get_eta eta_threshold lat lng c details
                (log ++ [q])%list) as [[r | e] log1];
      cbn in E; subst log1; cbn; repeat split;
      try apply Hq; intros; apply Hq.
  - exists [q; Directions (lat, lng) destination "driving" API_KEY].
    destruct (enrich API_KEY world get_eta eta_threshold lat lng c details
                (log ++ [q])%list) as [[r | e] log1];
      cbn in E; subst log1; cbn; rewrite <- app_assoc; cbn;
      repeat split; try (now constructor); intros; discriminate.
Qed.

Lemma pass_requests_counts new :
  pass_requests API_KEY get_eta new ->
  (count is_details new <= 1)%nat
  /\ (count is_directions new <= count is_details new)%nat
  /\ count is_geocode new = 0%nat
  /\ count is_nearby new = 0%nat
  /\ (get_eta = false -> count is_directions new = 0%nat)
  /\ (new <> [] -> count is_details new = 1%nat).
Proof.
  intros [| place_id | place_id origin destination Hflag]; cbn;
    repeat split; try lia; try congruence.
Qed.

(** The requests of the loop: at most one details request for each
    candidate, never more routing requests than details requests and
    none without the ETA flag, no other kind of request; and every
    record the loop adds has cost one details request. *)
Lemma loop_requests results :
  forall acc log,
  exists new,
    snd (loop API_KEY world min_rating max_price max_results get_eta
           eta_threshold lat lng results acc log) = (log ++ new)%list
    /\ (count is_details new <= length results)%nat
    /\ (count is_directions new <= count is_details new)%nat
    /\ count is_geocode new = 0%nat
    /\ count is_nearby new = 0%nat
    /\ (get_eta = false -> count is_directions new = 0%nat)
    /\ (forall out,
           fst (loop API_KEY world min_rating max_price max_results get_eta
                  eta_threshold lat lng results acc log) = Ok out ->
           (length out <= length acc + count is_details new)%nat).
Proof.
  induction results as [| c rest IH]; intros acc log.
  - exists []. cbn. rewrite app_nil_r. repeat split; try lia.
    intros out H. injection H as <-. lia.
  - cbn [loop].
    destruct (Z.of_nat (length acc) =? max_results).
    + exists []. cbn. rewrite app_nil_r. repeat split; try lia.
      intros out H. injection H as <-. lia.
    + destruct (visit_requests c log) as (new1 & E1 & Hpass & Hok).
      destruct (pass_requests_counts new1 Hpass)
        as (Hd & Hr & Hg & Hn & Hoff & Hone).
      unfold bind.
      destruct (visit API_KEY world min_rating max_price get_eta
                  eta_threshold lat lng c log) as [[o | e] log1] eqn:V;
        cbn in E1; subst log1.
      * specialize (Hone (Hok o eq_refl)).
        destruct (IH match o with
                     | Some x => (acc ++ [x])%list
                     | None => acc
                     end (log ++ new1)%list)
          as (new2 & E2 & Hd2 & Hr2 & Hg2 & Hn2 & Hoff2 & Hlen2).
        exists (new1 ++ new2)%list.
        rewrite E2, app_assoc, !count_app. cbn [length].
        repeat split; try lia.
        -- intros Hflag. specialize (Hoff Hflag). specialize (Hoff2 Hflag). lia.
        -- intros out H. specialize (Hlen2 out H).
           destruct o; [rewrite length_app in Hlen2; cbn in Hlen2 |]; lia.
      * exists new1. cbn [snd fst length].
        repeat split; try lia; try assumption. intros out H. discriminate.
Qed.

End Requests.

Lemma run_requests (API_KEY : string) (world : World)
    (location : string) (distance : Z) (min_rating : option R)
    (max_price : option Z) (search : option string) (max_results : Z)
    (get_eta : bool) (eta_threshold : option Z) (log : list request) :
  let run :=
    get_nearby_restaurants API_KEY world location distance min_rating
      max_price search max_results get_eta eta_threshold log in
  exists new,
    snd run = (log ++ new)%list
    /\ (count is_geocode new <= 1)%nat
    /\ (count is_nearby new <= 1)%nat
    /\ (count is_directions new <= count is_details new)%nat
    /\ (get_eta = false -> count is_directions new = 0%nat)
    /\ (forall out, fst run = Ok out ->
          (length out <= count is_details new)%nat
          /\ count is_nearby new = 1%nat).
Proof.
  cbv zeta. unfold get_nearby_restaurants.
  assert (Hres : exists new0,
             snd (resolve_location API_KEY world location log)
             = (log ++ new0)%list
             /\ (new0 = [] \/ new0 = [Geocode location API_KEY])).
  { unfold resolve_location. destruct (is_coordinate location).
    - exists []. cbn. rewrite app_nil_r. auto.
    - exists [Geocode location API_KEY].
      split; [apply get_location_coordinates_log | auto]. }
  destruct Hres as (new0 & E0 & Hnew0).
  assert (C0 : (count is_geocode new0 <= 1)%nat
               /\ count is_nearby new0 = 0%nat
               /\ count is_details new0 = 0%nat
               /\ count is_directions new0 = 0%nat)
    by (destruct Hnew0 as [-> | ->]; cbn; repeat split; lia).
  destruct C0 as (Cg & Cn & Cd & Cr).
  unfold search_nearby, bind, lift, requests_get.
  destruct (resolve_location API_KEY world location log)
    as [[[lat lng] | e] log0]; cbn in E0; subst log0.
  2:{ exists new0. cbn [fst snd].
      do 4 (split; [try reflexivity; try lia |]); split.
      - intros Hflag. lia.
      - intros out H. discriminate. }
  set (q := nearby_request API_KEY distance search lat lng).
  set (log1 := ((log ++ new0) ++ [q])%list).
  assert (Cq : count is_geocode [q] = 0%nat /\ count is_nearby [q] = 1%nat
               /\ count is_details [q] = 0%nat
               /\ count is_directions [q] = 0%nat)
    by (cbn; auto).
  destruct Cq as (Qg & Qn & Qd & Qr).
  assert (Hstop : forall (r : result (list restaurant)),
             (forall out, r = Ok out -> out = []) ->
             exists new,
               snd (r, log1) = (log ++ new)%list
               /\ (count is_geocode new <= 1)%nat
               /\ (count is_nearby new <= 1)%nat
               /\ (count is_directions new <= count is_details new)%nat
               /\ (get_eta = false -> count is_directions new = 0%nat)
               /\ (forall out, fst (r, log1) = Ok out ->
                     (length out <= count is_details new)%nat
                     /\ count is_nearby new = 1%nat)).
  { intros r Hr. exists (new0 ++ [q])%list. unfold log1.
    rewrite app_assoc, !count_app. cbn [snd fst].
    do 4 (split; [try reflexivity; try lia |]); split.
    - intros Hflag. lia.
    - intros out H. rewrite (Hr out H). cbn. lia. }
  destruct (world (log ++ new0)%list q) as [res | e];
    [| apply (Hstop (Raise e)); intros out H; discriminate].
  destruct (Py.getitem res "status") as [status | e];
    [| apply (Hstop (Raise e)); intros out H; discriminate].
  destruct (Py.ne_str status "OK");
    [apply (Hstop (Ok [])); intros out H; now injection H as <- |].
  destruct (rbind (Py.getitem res "results") Py.iter) as [results | e];
    [| apply (Hstop (Raise e)); intros out H; discriminate].
  destruct (loop_requests API_KEY world min_rating max_price max_results
              get_eta eta_threshold lat lng results [] log1)
    as (new2 & E2 & Hd2 & Hr2 & Hg2 & Hn2 & Hoff2 & Hlen2).
  exists ((new0 ++ [q]) ++ new2)%list.
  rewrite E2. unfold log1. rewrite !app_assoc, !count_app.
  do 4 (split; [try reflexivity; try lia |]); split.
  - intros Hflag. specialize (Hoff2 Hflag). lia.
  - intros out H. specialize (Hlen2 out H). cbn [length] in Hlen2. lia.
Qed.

(** X5. What a run of [get_nearby_restaurants] asks of the collaborators:
    at most one geocoding and at most one nearby search; never more
    routing requests than details requests, and no routing request
    without the ETA flag; and every record returned has cost one details
    request. *)
Theorem requests_of_a_run (API_KEY : string) (world : World)
    (location : string) (distance : Z) (min_rating : option R)
    (max_price : option Z) (search : option string) (max_results : Z)
    (get_eta : bool) (eta_threshold : option Z) (log : list request) :
  let run :=
    get_nearby_restaurants API_KEY world location distance min_rating
      max_price search max_results get_eta eta_threshold log in
  exists new,
    snd run = (log ++ new)%list
    /\ (count is_geocode new <= 1)%nat
    /\ (count is_nearby new <= 1)%nat
    /\ (count is_directions new <= count is_details new)%nat
    /\ (get_eta = false -> count is_directions new = 0%nat)
    /\ (forall out, fst run = Ok out ->
          (length out <= count is_details new)%nat
          /\ count is_nearby new = 1%nat).
Proof.
  apply run_requests.
Qed.

Lemma requests_of_a_run_witness :
  exists new,
    snd (get_nearby_restaurants "key" menu_world "Lisbon" 500 None None None
           25 false None [])
    = new
    /\ count is_directions new = 0%nat.
Proof.
  destruct (requests_of_a_run "key" menu_world "Lisbon" 500 None None None
              25 false None [])
    as (new & E & _ & _ & _ & Hoff & _).
  exists new. split; [exact E | exact (Hoff eq_refl)].
Defined.

(** X6. The loop asks for the details of a candidate at most once, and
    makes no geocoding and no nearby-search request. *)
Theorem one_details_request_for_a_candidate (API_KEY : string)
    (world : World) (min_rating : option R) (max_price : option Z)
    (max_results : Z) (get_eta : bool) (eta_threshold : option Z)
    (lat lng : json) (results : list json) (acc : list restaurant)
    (log : list request) :
  exists new,
    snd (loop API_KEY world min_rating max_price max_results get_eta
           eta_threshold lat lng results acc log) = (log ++ new)%list
    /\ (count is_details new <= length results)%nat
    /\ count is_geocode new = 0%nat
    /\ count is_nearby new = 0%nat.
Proof.
  destruct (loop_requests API_KEY world min_rating max_price max_results
              get_eta eta_threshold lat lng results acc log)
    as (new & E & Hd & _ & Hg & Hn & _).
  exists new. auto.
Qed.

(** ** Witnesses of the failure modes *)

Lemma get_driving_eta_failures_witness :
  get_driving_eta "key" sour_world (JInt 0, JInt 0) (JInt 1, JInt 1) []
  = (Raise RequestException,
     [Directions (JInt 0, JInt 0) (JInt 1, JInt 1) "driving" "key"])
  /\ get_driving_eta "key" mute_world (JInt 0, JInt 0) (JInt 1, JInt 1) []
     = (Raise (KeyError (JStr "status")),
        [Directions (JInt 0, JInt 0) (JInt 1, JInt 1) "driving" "key"])
  /\ get_driving_eta "key" legless_world (JInt 0, JInt 0) (JInt 1, JInt 1) []
     = (Raise IndexError,
        [Directions (JInt 0, JInt 0) (JInt 1, JInt 1) "driving" "key"]).
Proof.
  split; [| split].
  - pose proof (get_driving_eta_failures "key" sour_world (JInt 0, JInt 0)
                  (JInt 1, JInt 1) []) as H.
    cbv zeta in H. destruct H as (H & _ & _).
    apply (H RequestException). reflexivity.
  - pose proof (get_driving_eta_failures "key" mute_world (JInt 0, JInt 0)
                  (JInt 1, JInt 1) []) as H.
    cbv zeta in H. destruct H as (_ & H & _).
    apply (H []); reflexivity.
  - pose proof (get_driving_eta_failures "key" legless_world (JInt 0, JInt 0)
                  (JInt 1, JInt 1) []) as H.
    cbv zeta in H. destruct H as (_ & _ & H).
    eapply H; reflexivity.
Defined.

Lemma get_location_coordinates_empty_results_witness :
  fst (get_location_coordinates "key" mute_world "Atlantis" [])
  = Raise (KeyError (JStr "status"))
  /\ fst (get_location_coordinates "key" hollow_world "Atlantis" [])
     = Raise IndexError.
Proof.
  split.
  - pose proof (get_location_coordinates_empty_results "key" mute_world
                  "Atlantis" [] [] eq_refl) as H.
    cbv zeta in H. destruct H as (_ & H & _). apply H. reflexivity.
  - pose proof (get_location_coordinates_empty_results "key" hollow_world
                  "Atlantis" []
                  [("status", JStr "OK"); ("results", JArr [])] eq_refl) as H.
    cbv zeta in H. destruct H as (_ & _ & H). apply H; reflexivity.
Defined.

Lemma failed_geocoding_ends_the_run_witness :
  get_nearby_restaurants "key" (status_world "ZERO_RESULTS") "Atlantis" 500
    None None None 25 false None []
  = (Raise (ValueError (Some (JObj [("status", JStr "ZERO_RESULTS")]))),
     [Geocode "Atlantis" "key"]).
Proof.
  apply (failed_geocoding_ends_the_run "key" (status_world "ZERO_RESULTS")
           "Atlantis" 500 None None None 25 false None []
           (JObj [("status", JStr "ZERO_RESULTS")]) (JStr "ZERO_RESULTS"));
    reflexivity.
Defined.

Lemma details_without_result_ends_the_loop_witness :
  loop "key" mute_world None None 25 false None (JInt 0) (JInt 0)
       [place "p" (JInt 0) (JInt 0); place "q" (JInt 0) (JInt 0)] [] []
  = (Raise (KeyError (JStr "result")),
     [PlaceDetails (JStr "p") details_fields "key"]).
Proof.
  apply (details_without_result_ends_the_loop "key" mute_world None None 25
           false None (JInt 0) (JInt 0) (place "p" (JInt 0) (JInt 0))
           [place "q" (JInt 0) (JInt 0)] [] [] (JStr "p") []);
    [cbn; lia | reflexivity | reflexivity | reflexivity].
Defined.

(** ** The failures of the distance calculator *)

Lemma math_radians_rejected (v : json) :
  rejected v = true ->
  math_radians v
  = Raise (if is_number v then OverflowError else TypeError).
Proof.
  unfold rejected, math_radians.
  destruct v; cbn [is_number too_large negb orb Py.to_float rbind];
    try discriminate; try reflexivity.
  intros H. apply Z.leb_le in H.
  assert (Hh : 2 ^ 53 < Py.huge) by reflexivity.
  destruct (Z.ltb_spec (Z.abs z) (2 ^ 53)) as [Hlt | _]; [lia |].
  destruct (Z.ltb_spec (Z.abs z) Py.huge) as [Hlt | _]; [lia | reflexivity].
Qed.

Lemma math_radians_accepted (v : json) :
  rejected v = false -> exists x, math_radians v = Ok x.
Proof.
  unfold rejected, math_radians.
  destruct v; cbn [is_number too_large negb orb Py.to_float rbind];
    try discriminate; eauto.
  intros H. apply Z.leb_gt in H.
  destruct (Z.ltb_spec (Z.abs z) (2 ^ 53)) as [_ | _];
    [cbn [rbind]; eauto |].
  destruct (Z.ltb_spec (Z.abs z) Py.huge) as [_ | Hge]; [| lia].
  cbn [rbind]. eauto.
Qed.

Lemma math_sin_Raise (x : Py.float) (e : exn) :
  math_sin x = Raise e -> e = ValueError None.
Proof.
  destruct x; cbn; intros H; now inversion H.
Qed.

Lemma math_cos_Raise (x : Py.float) (e : exn) :
  math_cos x = Raise e -> e = ValueError None.
Proof.
  destruct x; cbn; intros H; now inversion H.
Qed.

Lemma math_sqrt_Raise (x : Py.float) (e : exn) :
  math_sqrt x = Raise e -> e = ValueError None.
Proof.
  destruct x as [a | [|] |]; cbn; try (intros H; now inversion H).
  destruct (Rlt_dec a 0); intros H; now inversion H.
Qed.

(** X8. [haversine_distance] converts its four coordinates in the order
    in which they are written.  The first one that [math.radians]
    rejects decides the exception: [TypeError] when it is not a number,
    [OverflowError] when it is an [int] too large for a [float].  When
    all four are converted, the only exception left is [ValueError]. *)
Theorem haversine_distance_failures (c1 c2 : json * json) :
  match find rejected [fst c1; snd c1; fst c2; snd c2] with
  | Some v =>
      haversine_distance c1 c2
      = Raise (if is_number v then OverflowError else TypeError)
  | None =>
      forall e, haversine_distance c1 c2 = Raise e -> e = ValueError None
  end.
Proof.
  unfold haversine_distance. cbn [find].
  destruct (rejected (fst c1)) eqn:E1;
    [now rewrite (math_radians_rejected _ E1) |].
  destruct (math_radians_accepted _ E1) as [lat1 ->]. cbn [rbind].
  destruct (rejected (snd c1)) eqn:E2;
    [now rewrite (math_radians_rejected _ E2) |].
  destruct (math_radians_accepted _ E2) as [lon1 ->]. cbn [rbind].
  destruct (rejected (fst c2)) eqn:E3;
    [now rewrite (math_radians_rejected _ E3) |].
  destruct (math_radians_accepted _ E3) as [lat2 ->]. cbn [rbind].
  destruct (rejected (snd c2)) eqn:E4;
    [now rewrite (math_radians_rejected _ E4) |].
  destruct (math_radians_accepted _ E4) as [lon2 ->]. cbn [rbind].
  intros e.
  destruct (math_sin (Py.float_div (Py.float_sub lat2 lat1) 2))
    as [s1 | e1] eqn:S1; cbn [rbind];
    [| intros H; injection H as <-; exact (math_sin_Raise _ _ S1)].
  destruct (math_cos lat1) as [k1 | e1] eqn:K1; cbn [rbind];
    [| intros H; injection H as <-; exact (math_cos_Raise _ _ K1)].
  destruct (math_cos lat2) as [k2 | e1] eqn:K2; cbn [rbind];
    [| intros H; injection H as <-; exact (math_cos_Raise _ _ K2)].
  destruct (math_sin (Py.float_div (Py.float_sub lon2 lon1) 2))
    as [s2 | e1] eqn:S2; cbn [rbind];
    [| intros H; injection H as <-; exact (math_sin_Raise _ _ S2)].
  match goal with
  | |- context [rbind (math_sqrt ?a) _] =>
      destruct (math_sqrt a) as [sa | e1] eqn:Q1; cbn [rbind];
      [| intros H; injection H as <-; exact (math_sqrt_Raise _ _ Q1)]
  end.
  match goal with
  | |- context [rbind (math_sqrt ?a) _] =>
      destruct (math_sqrt a) as [sb | e1] eqn:Q2; cbn [rbind];
      [| intros H; injection H as <-; exact (math_sqrt_Raise _ _ Q2)]
  end.
  discriminate.
Qed.

(** ** The dictionary of a place *)

Lemma repeat_string_length (c : ascii) (n : nat) :
  String.length (Py.repeat_string (String c "") n) = n.
Proof.
  induction n as [| n IH]; cbn; [reflexivity | now rewrite IH].
Qed.

Lemma repeat_string_chars (P : ascii -> bool) (c : ascii) (n : nat) :
  P c = true -> all_chars P (Py.repeat_string (String c "") n) = true.
Proof.
  intros H. induction n as [| n IH]; cbn; [reflexivity | now rewrite H, IH].
Qed.

(** X9. Details without a name raise [KeyError]; every other field that is
    absent shows as ["N/A"], an absent price tier as the empty string;
    the ETA and the distance are the ones handed in. *)
Theorem record_of_sparse_details (fields : list (string * json))
    (driving_eta : json) (rounded_distance : Z) :
  (Py.lookup "name" fields = None ->
   build_restaurant (JObj fields) driving_eta rounded_distance
   = Raise (KeyError (JStr "name")))
  /\ (forall x,
         build_restaurant (JObj fields) driving_eta rounded_distance = Ok x ->
         Py.lookup "name" fields = Some (Name x)
         /\ (Py.lookup "rating" fields = None -> Rating x = JStr "N/A")
         /\ (Py.lookup "user_ratings_total" fields = None ->
             Number_of_Ratings x = JStr "N/A")
         /\ (Py.lookup "price_level" fields = None -> Price_Level x = "")
         /\ (Py.lookup "formatted_address" fields = None ->
             Address x = JStr "N/A")
         /\ (Py.lookup "formatted_phone_number" fields = None ->
             Phone_Number x = JStr "N/A")
         /\ (Py.lookup "website" fields = None -> Website x = JStr "N/A")
         /\ (Py.lookup "editorial_summary" fields = None ->
             Summary x = JStr "N/A")
         /\ Driving_ETA x = driving_eta
         /\ Haversine_Distance x = rounded_distance).
Proof.
  unfold build_restaurant. cbn [Py.getitem Py.get]. split.
  - intros ->. reflexivity.
  - intros x H.
    destruct (Py.lookup "name" fields) as [name |]; [| discriminate].
    cbn [rbind] in H.
    destruct (Py.lookup "rating" fields) as [rating |];
      destruct (Py.lookup "user_ratings_total" fields) as [total |];
      destruct (Py.lookup "price_level" fields) as [tier |];
      cbn [rbind] in H;
      (destruct (Py.str_mul "$" _) as [price |] eqn:Hprice;
       [| discriminate]);
      cbn [rbind] in H;
      destruct (Py.lookup "formatted_address" fields) as [address |];
      destruct (Py.lookup "formatted_phone_number" fields) as [phone |];
      destruct (Py.lookup "website" fields) as [website |];
      destruct (Py.lookup "editorial_summary" fields) as [summary |];
      cbn [rbind] in H; injection H as <-; cbn;
      repeat split; try discriminate; try reflexivity;
      try (intros _; cbn in Hprice; now injection Hprice as <-).
Qed.

Lemma record_of_sparse_details_witness :
  build_restaurant (JObj [("rating", JInt 4)]) JNull 0
  = Raise (KeyError (JStr "name"))
  /\ exists x,
       build_restaurant (JObj [("name", JStr "Bare")]) JNull 0 = Ok x
       /\ Website x = JStr "N/A" /\ Price_Level x = "".
Proof.
  split.
  - apply (record_of_sparse_details [("rating", JInt 4)] JNull 0).
    reflexivity.
  - eexists. split; [reflexivity |].
    destruct (proj2 (record_of_sparse_details [("name", JStr "Bare")] JNull 0)
                _ eq_refl)
      as (_ & _ & _ & Hprice & _ & _ & Hweb & _).
    split; [apply Hweb | apply Hprice]; reflexivity.
Defined.

(** X10. For details with a name: a price tier [t] of the Places API
    (at most 4) shows as [t] dollar signs, none for a negative tier; a
    tier that is no index ([t < -2^63] or [t >= 2^63]) raises
    [OverflowError]; a tier that is not an integer raises [TypeError]. *)
Theorem price_level_rendering (fields : list (string * json))
    (driving_eta name tier : json) (rounded_distance : Z) :
  Py.lookup "name" fields = Some name ->
  Py.lookup "price_level" fields = Some tier ->
  (forall t, tier = JInt t -> - 2 ^ 63 <= t <= 4 ->
     exists x,
       build_restaurant (JObj fields) driving_eta rounded_distance = Ok x
       /\ String.length (Price_Level x) = Z.to_nat t
       /\ all_chars is_dollar (Price_Level x) = true)
  /\ (forall t, tier = JInt t -> t < - 2 ^ 63 \/ 2 ^ 63 <= t ->
      build_restaurant (JObj fields) driving_eta rounded_distance
      = Raise OverflowError)
  /\ (is_integer tier = false ->
      build_restaurant (JObj fields) driving_eta rounded_distance
      = Raise TypeError).
Proof.
  intros Hname Htier. unfold build_restaurant. cbn [Py.getitem Py.get].
  rewrite Hname, Htier. cbn [rbind].
  destruct (Py.lookup "rating" fields) as [rating |];
    destruct (Py.lookup "user_ratings_total" fields) as [total |];
    cbn [rbind]; (split; [intros t -> Ht | split; [intros t -> Ht | intros Hint]]);
    try (destruct tier; cbn in Hint; try discriminate; reflexivity);
    unfold Py.str_mul;
    try (replace ((t <? - 2 ^ 63) || (2 ^ 63 <=? t)) with true
           by (symmetry; apply orb_true_iff;
               destruct Ht; [left; apply Z.ltb_lt | right; apply Z.leb_le];
               assumption);
         reflexivity);
    replace ((t <? - 2 ^ 63) || (2 ^ 63 <=? t)) with false
      by (symmetry; apply orb_false_iff;
          split; [apply Z.ltb_ge | apply Z.leb_gt]; lia);
    cbn [rbind];
    destruct (Py.lookup "formatted_address" fields) as [address |];
    destruct (Py.lookup "formatted_phone_number" fields) as [phone |];
    destruct (Py.lookup "website" fields) as [website |];
    destruct (Py.lookup "editorial_summary" fields) as [summary |];
    cbn [rbind]; eexists; (split; [reflexivity |]);
    cbn [Price_Level];
    (split; [apply repeat_string_length | now apply repeat_string_chars]).
Qed.

Lemma price_level_rendering_witness :
  (exists x,
      build_restaurant (JObj bravo) JNull 0 = Ok x
      /\ String.length (Price_Level x) = 2%nat)
  /\ build_restaurant
       (JObj [("name", JStr "Huge"); ("price_level", JInt (2 ^ 63))]) JNull 0
     = Raise OverflowError
  /\ build_restaurant
       (JObj [("name", JStr "Odd"); ("price_level", JStr "2")]) JNull 0
     = Raise TypeError.
Proof.
  split; [| split].
  - destruct (proj1 (price_level_rendering bravo JNull (JStr "Bravo")
                       (JInt 2) 0 eq_refl eq_refl) 2 eq_refl ltac:(lia))
      as (x & Hx & Hlen & _).
    exists x. split; [exact Hx | exact Hlen].
  - apply (proj1 (proj2 (price_level_rendering
                           [("name", JStr "Huge");
                            ("price_level", JInt (2 ^ 63))] JNull
                           (JStr "Huge") (JInt (2 ^ 63)) 0 eq_refl eq_refl))
             (2 ^ 63) eq_refl).
    right. lia.
  - apply (price_level_rendering
             [("name", JStr "Odd"); ("price_level", JStr "2")] JNull
             (JStr "Odd") (JStr "2") 0 eq_refl eq_refl).
    reflexivity.
Defined.

(** ** The rounded distance *)

Lemma round_nonneg (x : R) : (0 <= x)%R -> 0 <= Py.round x.
Proof.
  intros Hx. unfold Py.round. destruct (base_Int_part x) as [H1 H2].
  set (f := Int_part x) in *.
  assert (Hf : 0 <= f).
  { assert (H : -1 < f) by (apply lt_IZR; lra). lia. }
  destruct (Rlt_dec (x - IZR f) (1 / 2)); [lia |].
  destruct (Rlt_dec (1 / 2) (x - IZR f)); [lia |].
  destruct (Z.even f); lia.
Qed.

Lemma math_radians_finite (v : json) (a : R) :
  math_radians v = Ok (Py.Finite a) -> exists x, number v x.
Proof.
  unfold math_radians, number.
  destruct (Py.to_float v) as [[x | n |] | e]; cbn [rbind Py.float_mul];
    try discriminate; eauto.
  destruct (Py.Req_dec_bool (PI / 180) 0); discriminate.
Qed.

(** A finite distance comes from four finite coordinates. *)
Lemma haversine_distance_finite (c1 c2 : json * json) (d : R) :
  haversine_distance c1 c2 = Ok (Py.Finite d) ->
  exists x1 y1 x2 y2,
    number (fst c1) x1 /\ number (snd c1) y1
    /\ number (fst c2) x2 /\ number (snd c2) y2.
Proof.
  intros H. unfold haversine_distance in H.
  destruct (math_radians (fst c1)) as [lat1 | e] eqn:E1; [| discriminate].
  destruct (math_radians (snd c1)) as [lon1 | e] eqn:E2; [| discriminate].
  destruct (math_radians (fst c2)) as [lat2 | e] eqn:E3; [| discriminate].
  destruct (math_radians (snd c2)) as [lon2 | e] eqn:E4; [| discriminate].
  cbn [rbind] in H.
  destruct lat1 as [a1 | n1 |], lon1 as [b1 | m1 |],
           lat2 as [a2 | n2 |], lon2 as [b2 | m2 |];
    cbn [rbind Py.float_mul Py.float_sub Py.float_add Py.float_div
         math_sin math_cos] in H;
    repeat match type of H with
           | context [Bool.eqb ?a ?b] =>
               destruct (Bool.eqb a b);
               cbn [rbind Py.float_mul Py.float_sub Py.float_add
                    Py.float_div math_sin math_cos] in H
           end;
    try discriminate;
    try (cbn [math_sqrt rbind math_atan2 Py.float_mul Py.float_sub] in H;
         discriminate).
  apply math_radians_finite in E1 as [x1 N1].
  apply math_radians_finite in E2 as [y1 N2].
  apply math_radians_finite in E3 as [x2 N3].
  apply math_radians_finite in E4 as [y2 N4].
  eauto 8.
Qed.

Lemma haversine_distance_nonneg (c1 c2 : json * json) (d : R) :
  haversine_distance c1 c2 = Ok (Py.Finite d) -> (0 <= d)%R.
Proof.
  intros H.
  destruct (haversine_distance_finite _ _ _ H)
    as (x1 & y1 & x2 & y2 & N1 & N2 & N3 & N4).
  rewrite (haversine_distance_numbers c1 c2 x1 y1 x2 y2 N1 N2 N3 N4) in H.
  injection H as <-. apply distance_of_nonneg.
Qed.

(** The distance of a dictionary is the distance from the origin to the
    coordinates of the candidate, divided by 10, rounded and multiplied
    by 10; that distance is finite. *)
Lemma enrich_distance (API_KEY : string) (world : World) (get_eta : bool)
    (eta_threshold : option Z) (lat lng c details : json)
    (log : list request) (r : restaurant) (log' : list request) :
  enrich API_KEY world get_eta eta_threshold lat lng c details log
  = (Ok r, log') ->
  exists geometry location dlat dlng d,
    Py.getitem c "geometry" = Ok geometry
    /\ Py.getitem geometry "location" = Ok location
    /\ Py.getitem location "lat" = Ok dlat
    /\ Py.getitem location "lng" = Ok dlng
    /\ haversine_distance (lat, lng) (dlat, dlng) = Ok (Py.Finite d)
    /\ Haversine_Distance r = Py.round (d / 10) * 10.
Proof.
  unfold enrich. intros H.
  apply bind_Ok in H as ([dlat dlng] & l1 & H1 & H).
  apply lift_Ok in H1 as (H1 & ->).
  apply rbind_Ok in H1 as (geometry & Hg & H1).
  apply rbind_Ok in H1 as (location & Hl & H1).
  apply rbind_Ok in H1 as (dlat' & Hlat & H1).
  apply rbind_Ok in H1 as (geometry' & Hg' & H1).
  apply rbind_Ok in H1 as (location' & Hl' & H1).
  apply rbind_Ok in H1 as (dlng' & Hlng & H1).
  injection H1 as -> ->.
  rewrite Hg in Hg'. injection Hg' as <-.
  rewrite Hl in Hl'. injection Hl' as <-.
  apply bind_Ok in H as (d & l2 & H2 & H).
  apply lift_Ok in H2 as (H2 & ->).
  apply bind_Ok in H as (rounded & l3 & H3 & H).
  apply lift_Ok in H3 as (H3 & ->).
  apply bind_Ok in H as (eta & l4 & _ & H).
  apply lift_Ok in H as (H & _).
  apply build_restaurant_fields in H as (_ & _ & H).
  destruct d as [x | n |]; cbn [Py.float_div Py.round_float rbind] in H3;
    try discriminate.
  injection H3 as <-.
  exists geometry, location, dlat, dlng, x. auto 7.
Qed.

Lemma visit_enrich (API_KEY : string) (world : World)
    (min_rating : option R) (max_price : option Z) (get_eta : bool)
    (eta_threshold : option Z) (lat lng c : json) (log : list request)
    (r : restaurant) (log' : list request) :
  visit API_KEY world min_rating max_price get_eta eta_threshold lat lng c log
  = (Ok (Some r), log') ->
  exists details log1,
    enrich API_KEY world get_eta eta_threshold lat lng c details log1
    = (Ok r, log').
Proof.
  intros H.
  destruct (visit_Ok _ _ _ _ _ _ _ _ _ _ _ _ H)
    as (pid & dres & details & H1 & H2 & H3).
  rewrite (visit_details _ _ _ _ _ _ _ _ _ _ _ _ _ H1 H2 H3) in H.
  cbv zeta in H.
  destruct (below_min_rating min_rating details) as [[|] | e];
    try discriminate.
  destruct (above_max_price max_price details) as [[|] | e];
    try discriminate.
  apply bind_Ok in H as (x & l1 & E & H).
  apply ret_Ok in H as [H <-]. injection H as ->.
  eauto.
Qed.

(** X11. The distance of every returned dictionary is a non-negative
    multiple of 10. *)
Theorem distances_are_multiples_of_ten (API_KEY : string) (world : World)
    (location : string) (distance : Z) (min_rating : option R)
    (max_price : option Z) (search : option string) (max_results : Z)
    (get_eta : bool) (eta_threshold : option Z) (log : list request)
    (out : list restaurant) (log' : list request) :
  get_nearby_restaurants API_KEY world location distance min_rating max_price
    search max_results get_eta eta_threshold log = (Ok out, log') ->
  Forall (fun x => 0 <= Haversine_Distance x
                   /\ (10 | Haversine_Distance x)) out.
Proof.
  apply get_nearby_restaurants_Forall.
  intros lat lng c l r l' H.
  apply visit_enrich in H as (details & log1 & H).
  apply enrich_distance in H
    as (geometry & location' & dlat & dlng & d & _ & _ & _ & _ & Hd & Hr).
  rewrite Hr. split.
  - apply haversine_distance_nonneg in Hd.
    assert (0 <= Py.round (d / 10)) by (apply round_nonneg; lra). lia.
  - exists (Py.round (d / 10)). reflexivity.
Qed.

(** One pass for the place "b" of [menu_world], without criteria. *)
Lemma visit_bravo :
  visit "key" menu_world None None false None (JFloat 0) (JFloat 0)
        (place "b" (JInt 0) (JInt 0)) []
  = (Ok (Some (Restaurant (JStr "Bravo") (JFloat 4.5) (JStr "N/A") "$$"
                 (JStr "N/A") (JStr "N/A") (JStr "N/A") (JStr "N/A")
                 JNull 0)),
     [PlaceDetails (JStr "b") details_fields "key"]).
Proof.
  rewrite (visit_passes "key" menu_world None None false None
             (JFloat 0) (JFloat 0) (place "b" (JInt 0) (JInt 0)) []
             (JStr "b") _ _ _ _ (JInt 0) (JInt 0) 0 0 0 0
             eq_refl eq_refl eq_refl eq_refl
             eq_refl eq_refl eq_refl eq_refl eq_refl
             eq_refl eq_refl eq_refl eq_refl).
  cbn [wants_eta andb]. rewrite distance_of_same, round_0. reflexivity.
Qed.

Lemma distances_are_multiples_of_ten_witness :
  exists out log',
    get_nearby_restaurants "key" equator_world "0,0" 5000 None None None 25
      true (Some 1000) [] = (Ok out, log')
    /\ Forall (fun x => 0 <= Haversine_Distance x
                        /\ (10 | Haversine_Distance x)) out.
Proof.
  eexists. eexists. split; [exact eta_scenario |].
  exact (distances_are_multiples_of_ten "key" equator_world "0,0" 5000 None
           None None 25 true (Some 1000) [] _ _ eta_scenario).
Defined.

(** ** A route lookup that finds nothing *)

Lemma get_driving_eta_no_route (API_KEY : string) (world : World)
    (origin destination : json * json) (log : list request)
    (res status : json) :
  world log (Directions origin destination "driving" API_KEY) = Ok res ->
  Py.getitem res "status" = Ok status ->
  Py.ne_str status "OK" = true ->
  fst (get_driving_eta API_KEY world origin destination log) = Ok JNull.
Proof.
  intros Hw Hs Hne.
  unfold get_driving_eta, bind, requests_get, lift.
  now rewrite Hw, Hs, Hne.
Qed.

Lemma enrich_no_route (API_KEY : string) (world : World)
    (eta_threshold : option Z) (lat lng c details : json)
    (log : list request) :
  (forall destination,
      fst (get_driving_eta API_KEY world (lat, lng) destination log)
      = Ok JNull) ->
  fst (enrich API_KEY world true eta_threshold lat lng c details log)
  = fst (enrich API_KEY world false eta_threshold lat lng c details log).
Proof.
  intros Hnone. unfold enrich, bind, lift.
  match goal with
  | |- context [match ?r with Ok _ => _ | Raise _ => _ end] =>
      destruct r as [[dlat dlng] | e]
  end; [| reflexivity].
  destruct (haversine_distance (lat, lng) (dlat, dlng)) as [d | e];
    [| reflexivity].
  destruct (rbind (Py.round_float (Py.float_div d 10))
              (fun tens => Ok (tens * 10))) as [rounded | e];
    [| reflexivity].
  cbn [wants_eta andb].
  destruct (match eta_threshold with
            | Some t => (t =? 0) || Py.float_lt (Py.Finite (IZR t)) d
            | None => true
            end); [| reflexivity].
  specialize (Hnone (dlat, dlng)).
  destruct (get_driving_eta API_KEY world (lat, lng) (dlat, dlng) log)
    as [[eta | e] log1]; cbn in Hnone; [| discriminate].
  injection Hnone as ->. reflexivity.
Qed.

(** X12. When the routing collaborator reports no route (a status other than
    the success status), a place is kept or dropped, and its dictionary
    built, exactly as without the ETA flag. *)
Theorem missing_route_keeps_the_place (API_KEY : string) (world : World)
    (min_rating : option R) (max_price : option Z)
    (eta_threshold : option Z) (lat lng c : json) (log : list request) :
  (forall l destination,
      exists res status,
        world l (Directions (lat, lng) destination "driving" API_KEY) = Ok res
        /\ Py.getitem res "status" = Ok status
        /\ Py.ne_str status "OK" = true) ->
  fst (visit API_KEY world min_rating max_price true eta_threshold lat lng c
         log)
  = fst (visit API_KEY world min_rating max_price false eta_threshold lat lng
           c log).
Proof.
  intros Hworld. unfold visit, bind, lift, requests_get.
  destruct (Py.getitem c "place_id") as [place_id | e]; [| reflexivity].
  destruct (world log (PlaceDetails place_id details_fields API_KEY))
    as [details_res | e]; [| reflexivity].
  destruct (Py.getitem details_res "result") as [details | e];
    [| reflexivity].
  destruct (below_min_rating min_rating details) as [[|] | e];
    try reflexivity.
  destruct (above_max_price max_price details) as [[|] | e];
    try reflexivity.
  set (log1 := (log ++ [PlaceDetails place_id details_fields API_KEY])%list).
  assert (H : fst (enrich API_KEY world true eta_threshold lat lng c details
                     log1)
              = fst (enrich API_KEY world false eta_threshold lat lng c
                       details log1)).
  { apply enrich_no_route. intros destination.
    destruct (Hworld log1 destination) as (res & status & Hw & Hs & Hne).
    exact (get_driving_eta_no_route _ _ _ _ _ _ _ Hw Hs Hne). }
  destruct (enrich API_KEY world true eta_threshold lat lng c details log1)
    as [[r1 | e1] l1];
    destruct (enrich API_KEY world false eta_threshold lat lng c details log1)
      as [[r2 | e2] l2];
    cbn in H; try discriminate; injection H as ->; reflexivity.
Qed.

(** One pass for the place of [no_route_world], with and without the
    ETA flag. *)
Lemma visit_lonely (get_eta : bool) :
  visit "key" no_route_world None None get_eta None (JFloat 0) (JFloat 0)
        (place "p" (JInt 0) (JInt 0)) []
  = (Ok (Some (Restaurant (JStr "Lonely") (JStr "N/A") (JStr "N/A") ""
                 (JStr "N/A") (JStr "N/A") (JStr "N/A") (JStr "N/A")
                 JNull 0)),
     if get_eta
     then [PlaceDetails (JStr "p") details_fields "key";
           Directions (JFloat 0, JFloat 0) (JInt 0, JInt 0) "driving" "key"]
     else [PlaceDetails (JStr "p") details_fields "key"]).
Proof.
  rewrite (visit_passes "key" no_route_world None None get_eta None
             (JFloat 0) (JFloat 0) (place "p" (JInt 0) (JInt 0)) []
             (JStr "p") _ _ _ _ (JInt 0) (JInt 0) 0 0 0 0
             eq_refl eq_refl eq_refl eq_refl
             eq_refl eq_refl eq_refl eq_refl eq_refl
             eq_refl eq_refl eq_refl eq_refl).
  rewrite distance_of_same, round_0.
  destruct get_eta; reflexivity.
Qed.

Lemma missing_route_keeps_the_place_witness :
  fst (visit "key" no_route_world None None true None (JFloat 0) (JFloat 0)
         (place "p" (JInt 0) (JInt 0)) [])
  = Ok (Some (Restaurant (JStr "Lonely") (JStr "N/A") (JStr "N/A") ""
                (JStr "N/A") (JStr "N/A") (JStr "N/A") (JStr "N/A")
                JNull 0))
  /\ snd (visit "key" no_route_world None None true None (JFloat 0)
            (JFloat 0) (place "p" (JInt 0) (JInt 0)) [])
     = [PlaceDetails (JStr "p") details_fields "key";
        Directions (JFloat 0, JFloat 0) (JInt 0, JInt 0) "driving" "key"].
Proof.
  split.
  - rewrite (missing_route_keeps_the_place "key" no_route_world None None
               None (JFloat 0) (JFloat 0) (place "p" (JInt 0) (JInt 0)) []).
    + now rewrite (visit_lonely false).
    + intros l destination.
      exists (JObj [("status", JStr "ZERO_RESULTS")]), (JStr "ZERO_RESULTS").
      repeat split.
  - now rewrite (visit_lonely true).
Defined.

(** ** A price tier that is not a number *)

(** X13. With a maximum price set, a candidate whose price tier is not a
    number raises [TypeError], unless the rating filter has already
    dropped it. *)
Theorem malformed_price_level (API_KEY : string) (world : World)
    (min_rating : option R) (p : Z) (get_eta : bool)
    (eta_threshold : option Z) (lat lng c : json) (log : list request)
    (place_id details_res details tier : json) :
  p <> 0 ->
  Py.getitem c "place_id" = Ok place_id ->
  world log (PlaceDetails place_id details_fields API_KEY) = Ok details_res ->
  Py.getitem details_res "result" = Ok details ->
  Py.get details "price_level" (JInt 5) = Ok tier ->
  is_number tier = false ->
  let log1 := (log ++ [PlaceDetails place_id details_fields API_KEY])%list in
  visit API_KEY world min_rating (Some p) get_eta eta_threshold lat lng c log
  = match below_min_rating min_rating details with
    | Ok false => (Raise TypeError, log1)
    | Ok true => (Ok None, log1)
    | Raise e => (Raise e, log1)
    end.
Proof.
  intros Hp H1 H2 H3 Htier Hnum.
  rewrite (visit_details _ _ _ _ _ _ _ _ _ _ _ _ _ H1 H2 H3). cbv zeta.
  destruct (below_min_rating min_rating details) as [[|] | e];
    try reflexivity.
  unfold above_max_price. apply Z.eqb_neq in Hp. rewrite Hp, Htier.
  cbn [rbind].
  destruct tier; cbn in Hnum; try discriminate; reflexivity.
Qed.

Lemma malformed_price_level_witness :
  visit "key" odd_price_world None (Some 2) false None (JInt 0) (JInt 0)
        (place "p" (JInt 0) (JInt 0)) []
  = (Raise TypeError, [PlaceDetails (JStr "p") details_fields "key"]).
Proof.
  apply (malformed_price_level "key" odd_price_world None 2 false None
           (JInt 0) (JInt 0) (place "p" (JInt 0) (JInt 0)) [] (JStr "p")
           (details_ok [("name", JStr "Odd"); ("price_level", JStr "2")])
           (JObj [("name", JStr "Odd"); ("price_level", JStr "2")])
           (JStr "2"));
    [lia | reflexivity | reflexivity | reflexivity | reflexivity
    | reflexivity].
Defined.

(** ** The cap at its edges *)

(** X14. With [max_results] 0 the nearby search is the only request after the
    origin is known, and the list returned is empty. *)
Theorem max_results_zero_returns_nothing (API_KEY : string) (world : World)
    (location : string) (distance : Z) (min_rating : option R)
    (max_price : option Z) (search : option string) (get_eta : bool)
    (eta_threshold : option Z) (log : list request) (lat lng : json)
    (log0 : list request) (res status : json) :
  resolve_location API_KEY world location log = (Ok (lat, lng), log0) ->
  world log0 (nearby_request API_KEY distance search lat lng) = Ok res ->
  Py.getitem res "status" = Ok status ->
  (Py.ne_str status "OK" = false ->
   exists results, rbind (Py.getitem res "results") Py.iter = Ok results) ->
  get_nearby_restaurants API_KEY world location distance min_rating max_price
    search 0 get_eta eta_threshold log
  = (Ok [], (log0 ++ [nearby_request API_KEY distance search lat lng])%list).
Proof.
  intros Hres Hw Hs Hiter. unfold get_nearby_restaurants.
  erewrite bind_eq by exact Hres. cbv beta iota.
  rewrite (search_nearby_status _ _ _ _ _ _ _ _ _ _ _ _ _ _ Hw Hs).
  cbv zeta.
  destruct (Py.ne_str status "OK"); [reflexivity |].
  destruct (Hiter eq_refl) as [results ->].
  destruct results as [| c rest].
  - apply loop_nil.
  - now apply loop_full.
Qed.

Lemma max_results_zero_returns_nothing_witness :
  get_nearby_restaurants "key" menu_world "0,0" 1000 None None None 0 false
    None []
  = (Ok [], [NearbySearch (JFloat 0) (JFloat 0) 1000 "restaurant" None "key"]).
Proof.
  apply (max_results_zero_returns_nothing "key" menu_world "0,0" 1000 None
           None None false None [] (JFloat 0) (JFloat 0) []
           (nearby_ok [place "a" (JInt 0) (JInt 0);
                       place "b" (JInt 0) (JInt 0);
                       place "c" (JInt 0) (JInt 0);
                       place "d" (JInt 0) (JInt 0)])
           (JStr "OK"));
    [apply resolve_origin | reflexivity | reflexivity |].
  intros _. eexists. reflexivity.
Defined.

(** X15. A negative [max_results] is no cap: the loop visits every candidate
    and returns all those it accepts. *)
Theorem negative_max_results_is_no_cap (API_KEY : string) (world : World)
    (min_rating : option R) (max_price : option Z) (max_results : Z)
    (get_eta : bool) (eta_threshold : option Z) (lat lng : json)
    (results : list json) (acc : list restaurant) (log : list request)
    (out : list restaurant) (log' : list request) :
  max_results < 0 ->
  loop API_KEY world min_rating max_price max_results get_eta eta_threshold
       lat lng results acc log = (Ok out, log') ->
  exists outcomes,
    Visits (visit API_KEY world min_rating max_price get_eta eta_threshold
              lat lng) results log outcomes log'
    /\ out = (acc ++ accepted outcomes)%list.
Proof.
  intros Hneg H.
  apply loop_visits in H as (k & os & Hk & HV & Hout & Hstop & _).
  assert (Hall : k = length results).
  { destruct (Nat.eq_dec k (length results)) as [E | E]; [exact E |].
    assert (Hlt : (k < length results)%nat) by lia.
    specialize (Hstop Hlt). lia. }
  subst k. rewrite firstn_all in HV. eauto.
Qed.

Lemma unlimited_run :
  loop "key" menu_world None None (-1) false None (JFloat 0) (JFloat 0)
       [place "b" (JInt 0) (JInt 0)] [] []
  = (Ok [Restaurant (JStr "Bravo") (JFloat 4.5) (JStr "N/A") "$$"
           (JStr "N/A") (JStr "N/A") (JStr "N/A") (JStr "N/A") JNull 0],
     [PlaceDetails (JStr "b") details_fields "key"]).
Proof.
  rewrite (loop_visit "key" menu_world None None (-1) false None
             (JFloat 0) (JFloat 0) (place "b" (JInt 0) (JInt 0)) [] [] []
             _ _ ltac:(cbn; lia) visit_bravo).
  cbn [app]. apply loop_nil.
Qed.

Lemma negative_max_results_is_no_cap_witness :
  exists outcomes,
    Visits (visit "key" menu_world None None false None (JFloat 0) (JFloat 0))
           [place "b" (JInt 0) (JInt 0)] [] outcomes
           [PlaceDetails (JStr "b") details_fields "key"]
    /\ [Restaurant (JStr "Bravo") (JFloat 4.5) (JStr "N/A") "$$"
          (JStr "N/A") (JStr "N/A") (JStr "N/A") (JStr "N/A") JNull 0]
       = accepted outcomes.
Proof.
  exact (negative_max_results_is_no_cap "key" menu_world None None (-1) false
           None (JFloat 0) (JFloat 0) [place "b" (JInt 0) (JInt 0)] [] [] _ _
           ltac:(lia) unlimited_run).
Defined.

(** ** A nearby search without candidates *)

(** X16. A response of the nearby search without status, or with the success
    status and without results, raises [KeyError]; the success status
    with an empty list of results gives the empty list.  In each case
    the nearby search is the only request. *)
Theorem nearby_search_without_candidates (API_KEY : string) (world : World)
    (distance : Z) (min_rating : option R) (max_price : option Z)
    (search : option string) (max_results : Z) (get_eta : bool)
    (eta_threshold : option Z) (lat lng : json) (log : list request)
    (fields : list (string * json)) :
  let q := nearby_request API_KEY distance search lat lng in
  let outcome :=
    search_nearby API_KEY world distance min_rating max_price search
      max_results get_eta eta_threshold lat lng log in
  world log q = Ok (JObj fields) ->
  (Py.lookup "status" fields = None ->
   outcome = (Raise (KeyError (JStr "status")), (log ++ [q])%list))
  /\ (Py.lookup "status" fields = Some (JStr "OK") ->
      Py.lookup "results" fields = None ->
      outcome = (Raise (KeyError (JStr "results")), (log ++ [q])%list))
  /\ (Py.lookup "status" fields = Some (JStr "OK") ->
      Py.lookup "results" fields = Some (JArr []) ->
      outcome = (Ok [], (log ++ [q])%list)).
Proof.
  intros q outcome Hw.
  assert (Hrun : outcome
                 = bind (lift (Py.getitem (JObj fields) "status"))
                     (fun status =>
                        if Py.ne_str status "OK" then ret []
                        else
                          bind (lift (rbind (Py.getitem (JObj fields)
                                               "results") Py.iter))
                            (fun results =>
                               loop API_KEY world min_rating max_price
                                 max_results get_eta eta_threshold lat lng
                                 results []))
                     (log ++ [q])%list).
  { unfold outcome, search_nearby. unfold bind at 1, requests_get at 1.
    fold q. now rewrite Hw. }
  rewrite Hrun. cbn [Py.getitem]. split; [| split].
  - intros ->. reflexivity.
  - intros -> ->. reflexivity.
  - intros -> ->. reflexivity.
Qed.

Lemma nearby_search_without_candidates_witness :
  search_nearby "key" mute_world 1000 None None None 25 false None
    (JInt 0) (JInt 0) []
  = (Raise (KeyError (JStr "status")),
     [NearbySearch (JInt 0) (JInt 0) 1000 "restaurant" None "key"])
  /\ search_nearby "key" (status_world "OK") 1000 None None None 25 false
       None (JInt 0) (JInt 0) []
     = (Raise (KeyError (JStr "results")),
        [NearbySearch (JInt 0) (JInt 0) 1000 "restaurant" None "key"])
  /\ search_nearby "key" hollow_world 1000 None None None 25 false None
       (JInt 0) (JInt 0) []
     = (Ok [], [NearbySearch (JInt 0) (JInt 0) 1000 "restaurant" None "key"]).
Proof.
  split; [| split].
  - pose proof (nearby_search_without_candidates "key" mute_world 1000 None
                  None None 25 false None (JInt 0) (JInt 0) [] [] eq_refl)
      as H.
    cbv zeta in H. destruct H as (H & _ & _). apply H. reflexivity.
  - pose proof (nearby_search_without_candidates "key" (status_world "OK")
                  1000 None None None 25 false None (JInt 0) (JInt 0) []
                  [("status", JStr "OK")] eq_refl) as H.
    cbv zeta in H. destruct H as (_ & H & _). apply H; reflexivity.
  - pose proof (nearby_search_without_candidates "key" hollow_world 1000 None
                  None None 25 false None (JInt 0) (JInt 0) []
                  [("status", JStr "OK"); ("results", JArr [])] eq_refl)
      as H.
    cbv zeta in H. destruct H as (_ & _ & H). apply H; reflexivity.
Defined.

(** ** The command line without options *)

(** X17. With the location as only argument, [main] makes no routing request
    and prints at most 25 dictionaries. *)
Theorem main_with_defaults (API_KEY : string) (world : World)
    (location : string) (log : list request) :
  let run := main API_KEY world (defaults location) log in
  exists new,
    snd run = (log ++ new)%list
    /\ count is_directions new = 0%nat
    /\ (forall out, fst run = Ok out -> (length out <= 25)%nat).
Proof.
  intros run.
  destruct (run_requests API_KEY world location 20000 None None None 25 false
              None log)
    as (new & E & _ & _ & _ & Hoff & _).
  exists new. split; [exact E |]. split; [exact (Hoff eq_refl) |].
  intros out H.
  destruct run as [r log'] eqn:Hrun. cbn in H. subst r.
  unfold run, main in Hrun. cbn in Hrun.
  apply get_nearby_restaurants_Ok in Hrun as (lat & lng & log0 & _ & Hrun).
  apply search_nearby_loop in Hrun as [-> | (results & log1 & Hrun)];
    [cbn; lia |].
  apply loop_length in Hrun; [lia | cbn; lia].
Qed.

(** ** Coordinates given on the command line *)

Lemma coordinate_literal_resolution_witness :
  resolve_location "key" menu_world "40.7128,-74.0060" []
  = (parse_coordinates "40.7128,-74.0060", [])
  /\ exists lat lng,
       parse_coordinates "40.7128,-74.0060" = Ok (JFloat lat, JFloat lng)
       /\ (-90 <= lat <= 90)%R /\ (-180 <= lng <= 180)%R.
Proof.
  assert (Hc : is_coordinate "40.7128,-74.0060" = true)
    by (vm_compute; reflexivity).
  assert (Hs : all_chars not_separator "40.7128,-74.0060" = true)
    by (vm_compute; reflexivity).
  destruct (coordinate_literal_resolution "key" menu_world
              "40.7128,-74.0060" Hc) as (Hres & _ & Hparse).
  split; [apply Hres | exact (Hparse Hs)].
Defined.
